(** * WattWise: the household meter simulator and the power engine around it

    A shallow embedding of [simulator/meter_simulator.js] (class
    [PowerConsumptionSimulator]) and of [simulator/config.js], followed by
    the properties the specification states about them.  The command
    line of the simulator and the authentication handlers of the backend
    are embedded after them, with properties of their own.

    Conventions of the embedding.
    - A JavaScript number is a rational ([Q]): arithmetic is exact, so the
      rounding of IEEE doubles is idealised away.  Comparisons of numbers
      are the decidable [Qltb] and [Qle_bool].
    - A [Date] is its time value, the milliseconds since the epoch ([Z]);
      the calendar getters are computed from it with the proleptic
      Gregorian calendar and the zone offset of the host at that date.
      A time value past 8.64e15 ms either way is no valid date: where
      the code computes dates, a loop that reaches one throws.
    - [Math.random()] is read from an explicit source [random : nat -> Q]
      together with the position of the next draw, which is threaded
      through the code beside the simulator object.
    - A JavaScript [Map] and the entries of an object literal are
      association lists in insertion order.
    - An absent property ([undefined]) is [None]. *)

From Stdlib Require Import ZArith QArith Qround Qabs Qminmax Lqa Lia.
From Stdlib Require Import List Ascii String Bool.
Import ListNotations.

Local Open Scope string_scope.
Local Open Scope list_scope.
Local Open Scope Z_scope.
Local Open Scope Q_scope.

(* ================================================================== *)
(** * Numbers *)

Module Num.

(** [a < b] on numbers. *)
Definition Qltb (a b : Q) : bool :=
  match a ?= b with Lt => true | _ => false end.

(** [a >= b] on numbers. *)
Definition Qgeb (a b : Q) : bool := negb (Qltb a b).

(** Truthiness of a number that may be absent: [undefined] and [0] are
    falsy. *)
Definition truthy (x : option Q) : bool :=
  match x with
  | Some v => negb (Qeq_bool v 0)
  | None => false
  end.

(** [a < b] where [b] may be [undefined]: comparing with [undefined]
    is false. *)
Definition Qltb_opt (a : Q) (b : option Q) : bool :=
  match b with
  | Some v => Qltb a v
  | None => false
  end.

(** Truncation toward zero. *)
Definition Qtrunc (x : Q) : Z :=
  if Qle_bool 0 x then Qfloor x else Qceiling x.

(** The remainder operator [a % b] of JavaScript: the sign follows the
    dividend.  ([b = 0] gives [NaN] in JavaScript; here the value is [a],
    and callers guard against it.) *)
Definition js_rem (a b : Q) : Q := a - b * inject_Z (Qtrunc (a / b)).

(** [10^d] as a number. *)
Definition pow10 (d : nat) : Q := inject_Z (10 ^ Z.of_nat d).

(** [parseFloat(x.toFixed(d))]: the nearest multiple of [10^-d], halves
    away from zero; a number of magnitude [1e21] or more is printed in
    full and read back unchanged. *)
Definition toFixed (d : nat) (x : Q) : Q :=
  if Qle_bool (inject_Z (10 ^ 21)) (Qabs x) then x
  else
    let n := Qfloor (Qabs x * pow10 d + (1 # 2)) in
    if Qle_bool 0 x then inject_Z n / pow10 d
    else - (inject_Z n / pow10 d).

(** [Math.floor]. *)
Definition floor (x : Q) : Z := Qfloor x.

(** The sum of a list of numbers. *)
Definition Qsum (l : list Q) : Q := fold_right Qplus 0 l.

End Num.
Import Num.

(* ================================================================== *)
(** * Dates *)

Module JsDate.

(** A date is its time value in milliseconds. *)
Definition Date := Z.

Definition msPerMinute : Z := 60000.
Definition msPerHour : Z := 3600000.
Definition msPerDay : Z := 86400000.

(** The largest time value of a [Date]: 100 000 000 days. *)
Definition maxTime : Z := 8640000000000000.

(** The time value is in the range of [Date]; [new Date(t)] outside of
    it is an invalid date, whose [toISOString()] throws a
    [RangeError]. *)
Definition validTime (t : Z) : bool :=
  ((- maxTime <=? t) && (t <=? maxTime))%Z.

Section LocalTime.

(** What [date.getTimezoneOffset()] returns on the host for the date
    that is read, in minutes (UTC minus local time). *)
Variable timezoneOffset : Z.

Definition localTime (d : Date) : Z := (d - timezoneOffset * msPerMinute)%Z.

(** Days since 1970-01-01 of the local day. *)
Definition localDay (d : Date) : Z := (localTime d / msPerDay)%Z.

(** Month of the civil date of a day number, 1 = January. *)
Definition civilMonth (days : Z) : Z :=
  (let z := days + 719468 in
   let era := z / 146097 in
   let doe := z - era * 146097 in
   let yoe := (doe - doe / 1460 + doe / 36524 - doe / 146096) / 365 in
   let doy := doe - (365 * yoe + yoe / 4 - yoe / 100) in
   let mp := (5 * doy + 2) / 153 in
   if mp <? 10 then mp + 3 else mp - 9)%Z.

(** [date.getMonth()]: 0 = January. *)
Definition getMonth (d : Date) : Z := (civilMonth (localDay d) - 1)%Z.

(** [date.getDay()]: 0 = Sunday; 1970-01-01 was a Thursday. *)
Definition getDay (d : Date) : Z := ((localDay d + 4) mod 7)%Z.

(** [date.getHours()]. *)
Definition getHours (d : Date) : Z :=
  ((localTime d mod msPerDay) / msPerHour)%Z.

(** [date.getMinutes()]. *)
Definition getMinutes (d : Date) : Z :=
  ((localTime d mod msPerHour) / msPerMinute)%Z.

End LocalTime.

End JsDate.
Import JsDate.

(* ================================================================== *)
(** * Configuration ([simulator/config.js]) *)

(** One entry of [baseConsumption.<profile>.appliances]. *)
Module Appliance.
Record t := mk {
  power : Q;
  cycle : option Q;
  dutyCycle : option Q;
  probability : option Q;
  alwaysOn : bool          (* absent is falsy *)
}.
End Appliance.

(** One entry of [occasionalAppliances]; [duration] is in minutes. *)
Module Occasional.
Record t := mk {
  power : Q;
  duration : Z;
  probability : Q
}.
End Occasional.

(** One entry of [anomalies.types]; [duration] is in readings. *)
Module AnomalyType.
Record t := mk {
  multiplier : option Q;
  voltageMultiplier : option Q;
  duration : Z
}.
End AnomalyType.

Record Profile := {
  baseline : Q;
  appliances : list (string * Appliance.t)
}.

Record TimePatterns := {
  weekday : list Q;
  weekend : list Q
}.

Record SeasonalMultipliers := {
  spring : Q;
  summer : Q;
  monsoon : Q;
  winter : Q
}.

Record Electrical := {
  baseVoltage : Q;
  voltageVariation : Q;
  powerFactor : Q;
  frequency : Q
}.

Record Anomalies := {
  anomalies_probability : Q;                    (* anomalies.probability *)
  types : list (string * AnomalyType.t)
}.

Record Simulation := {
  sampleInterval : Z;
  maxSamplesPerBatch : Z
}.

(** The exported configuration object.  [normal] is
    [baseConsumption.normal], which the constructor falls back to; the
    other profiles are [baseConsumption]'s remaining entries. *)
Record Config := {
  normal : Profile;
  baseConsumption : list (string * Profile);
  timePatterns : TimePatterns;
  occasionalAppliances : list (string * Occasional.t);
  seasonalMultipliers : SeasonalMultipliers;
  electrical : Electrical;
  anomalies : Anomalies;
  simulation : Simulation
}.

(** Lookup of a string key among the entries of an object. *)
Fixpoint entry {A : Type} (k : string) (l : list (string * A)) : option A :=
  match l with
  | [] => None
  | (k', v) :: l' => if String.eqb k k' then Some v else entry k l'
  end.

(** [config.baseConsumption[profile]], among the entries of the object
    itself. *)
Definition baseConsumptionOf (c : Config) (p : string) : option Profile :=
  if String.eqb p "normal" then Some (normal c)
  else entry p (baseConsumption c).

(** The values of [config.js]. *)
Module ConfigJs.

Definition cyclic (p c d : Q) : Appliance.t :=
  Appliance.mk p (Some c) (Some d) None false.
Definition chance (p pr : Q) : Appliance.t :=
  Appliance.mk p None None (Some pr) false.
Definition always (p : Q) : Appliance.t :=
  Appliance.mk p None None None true.

Definition normalProfile : Profile :=
  {| baseline := 120;
     appliances :=
       [ ("refrigerator", cyclic 120 30 0.7);
         ("led_lights", chance 8 0.4);
         ("electronics_standby", chance 20 0.6);
         ("wifi_router", always 6);
         ("fan", chance 60 0.5) ] |}.

Definition highProfile : Profile :=
  {| baseline := 180;
     appliances :=
       [ ("refrigerator", cyclic 150 25 0.8);
         ("led_lights", chance 12 0.6);
         ("electronics_standby", chance 35 0.8);
         ("wifi_router", always 8);
         ("fan", chance 75 0.7) ] |}.

Definition lowProfile : Profile :=
  {| baseline := 80;
     appliances :=
       [ ("refrigerator", cyclic 100 35 0.6);
         ("led_lights", chance 6 0.2);
         ("electronics_standby", chance 12 0.4);
         ("wifi_router", always 5);
         ("fan", chance 50 0.3) ] |}.

Definition vacationProfile : Profile :=
  {| baseline := 40;
     appliances :=
       [ ("refrigerator", cyclic 120 30 0.7);
         ("led_lights", chance 0 0);
         ("electronics_standby", chance 8 0.2);
         ("wifi_router", always 6);
         ("fan", chance 0 0) ] |}.

Definition config : Config :=
  {| normal := normalProfile;
     baseConsumption :=
       [ ("high", highProfile); ("low", lowProfile);
         ("vacation", vacationProfile) ];
     timePatterns :=
       {| weekday :=
            [ 0.2; 0.15; 0.1; 0.05; 0.05; 0.1;
              0.4; 0.7; 0.8; 0.6; 0.5; 0.4;
              0.5; 0.6; 0.5; 0.4; 0.5; 0.7;
              0.9; 1.0; 0.9; 0.7; 0.5; 0.3 ];
          weekend :=
            [ 0.2; 0.15; 0.1; 0.05; 0.05; 0.1;
              0.3; 0.4; 0.5; 0.6; 0.7; 0.8;
              0.9; 1.0; 0.9; 0.8; 0.9; 1.0;
              0.9; 0.8; 0.7; 0.6; 0.4; 0.3 ] |};
     occasionalAppliances :=
       [ ("microwave", Occasional.mk 1000 5 0.015);
         ("oven", Occasional.mk 2000 30 0.005);
         ("dishwasher", Occasional.mk 1500 90 0.002);
         ("washing_machine", Occasional.mk 400 60 0.01);
         ("dryer", Occasional.mk 2500 45 0.001);
         ("air_conditioner", Occasional.mk 1200 20 0.02);
         ("space_heater", Occasional.mk 1200 30 0.03);
         ("water_heater", Occasional.mk 3000 15 0.02);
         ("electric_vehicle", Occasional.mk 5000 180 0.001);
         ("water_pump", Occasional.mk 750 10 0.05) ];
     seasonalMultipliers :=
       {| spring := 1.0; summer := 1.3; monsoon := 1.1; winter := 1.4 |};
     electrical :=
       {| baseVoltage := 230; voltageVariation := 0.08;
          powerFactor := 0.92; frequency := 50 |};
     anomalies :=
       {| anomalies_probability := 0.0015;
          types :=
            [ ("powerSurge", AnomalyType.mk (Some 2.5) None 2);
              ("brownout", AnomalyType.mk (Some 0.3) None 3);
              ("voltageSpike", AnomalyType.mk None (Some 1.3) 1);
              ("outage", AnomalyType.mk (Some 0) None 5);
              ("voltageDip", AnomalyType.mk None (Some 0.7) 2) ] |};
     simulation :=
       {| sampleInterval := 60; maxSamplesPerBatch := 1440 |} |}.

End ConfigJs.

(* ================================================================== *)
(** * The simulator ([simulator/meter_simulator.js]) *)

(** A value of [activeAppliances]. *)
Module Activation.
Record t := mk {
  power : Q;
  endTime : Date
}.
End Activation.

(** The object held in [this.anomaly]: the properties of the chosen entry
    of [anomalies.types] and its name.  When the chosen name is
    [undefined] the object has no property but [type: undefined]. *)
Module Anomaly.
Record t := mk {
  multiplier : option Q;
  voltageMultiplier : option Q;
  duration : option Z;
  type : option string
}.
End Anomaly.

(** One meter reading.  [timestamp] is the instant that
    [timestamp.toISOString()] prints; [anomaly_type] is [None] when the
    property is absent or [undefined]. *)
Module Reading.
Record t := mk {
  user_id : string;
  timestamp : Date;
  voltage : Q;
  global_active_power : Q;
  global_reactive_power : Q;
  global_intensity : Q;
  energy_kwh : Q;
  sample_interval_seconds : Z;
  anomaly_type : option string
}.
End Reading.

(** A JavaScript [Map] with string keys, in insertion order. *)
Module JsMap.
Section Ops.
Context {V : Type}.

Definition t := list (string * V).

Definition has (k : string) (m : t) : bool :=
  existsb (fun e => String.eqb k (fst e)) m.

(** [m.set(k, v)]: an existing key keeps its place, a new one goes last. *)
Fixpoint set (k : string) (v : V) (m : t) : t :=
  match m with
  | [] => [(k, v)]
  | (k', v') :: m' =>
      if String.eqb k k' then (k', v) :: m' else (k', v') :: set k v m'
  end.

(** [m.delete(k)]. *)
Fixpoint delete (k : string) (m : t) : t :=
  match m with
  | [] => []
  | (k', v') :: m' =>
      if String.eqb k k' then m' else (k', v') :: delete k m'
  end.

Definition keys (m : t) : list string := map fst m.

End Ops.
Arguments t : clear implicits.
End JsMap.

(** The fields of a [PowerConsumptionSimulator]. *)
Record Simulator := {
  userId : string;
  profile : string;
  baseConfig : Profile;
  energy_kwh : Q;
  activeAppliances : JsMap.t Activation.t;
  anomaly : option Anomaly.t;       (* [null] is [None] *)
  anomalyRemaining : Z
}.

(** The simulator object and the position of the next draw of
    [Math.random()]. *)
Definition World : Type := Simulator * nat.

(** Code that may throw: [None] is a thrown error, after which the
    simulator is not modelled. *)
Definition Throwing (A : Type) : Type := World -> option (A * World).

(** Code that reads and updates the simulator and draws numbers. *)
Definition M (A : Type) : Type := World -> A * World.

Definition ret {A} (a : A) : M A := fun w => (a, w).

Definition bind {A B} (m : M A) (k : A -> M B) : M B :=
  fun w => let (a, w') := m w in k a w'.

Declare Scope sim_scope.
Delimit Scope sim_scope with sim.
Notation "x <- m ;; k" := (bind m (fun x => k))
  (at level 61, m at next level, right associativity) : sim_scope.
Notation "m ;;; k" := (bind m (fun _ => k))
  (at level 61, right associativity) : sim_scope.

Definition this : M Simulator := fun w => (fst w, w).

Definition update (f : Simulator -> Simulator) : M unit :=
  fun w => (tt, (f (fst w), snd w)).

(** [list.forEach(f)]. *)
Fixpoint forEach {A} (f : A -> M unit) (l : list A) : M unit :=
  match l with
  | [] => ret tt
  | x :: l' => bind (f x) (fun _ => forEach f l')
  end.

Definition set_activeAppliances (m : JsMap.t Activation.t) (s : Simulator)
  : Simulator :=
  {| userId := userId s; profile := profile s; baseConfig := baseConfig s;
     energy_kwh := energy_kwh s; activeAppliances := m;
     anomaly := anomaly s; anomalyRemaining := anomalyRemaining s |}.

Definition set_energy_kwh (e : Q) (s : Simulator) : Simulator :=
  {| userId := userId s; profile := profile s; baseConfig := baseConfig s;
     energy_kwh := e; activeAppliances := activeAppliances s;
     anomaly := anomaly s; anomalyRemaining := anomalyRemaining s |}.

Definition set_anomaly (a : option Anomaly.t) (s : Simulator) : Simulator :=
  {| userId := userId s; profile := profile s; baseConfig := baseConfig s;
     energy_kwh := energy_kwh s; activeAppliances := activeAppliances s;
     anomaly := a; anomalyRemaining := anomalyRemaining s |}.

Definition set_anomalyRemaining (n : Z) (s : Simulator) : Simulator :=
  {| userId := userId s; profile := profile s; baseConfig := baseConfig s;
     energy_kwh := energy_kwh s; activeAppliances := activeAppliances s;
     anomaly := anomaly s; anomalyRemaining := n |}.

Section PowerConsumptionSimulator.

Local Open Scope sim_scope.

(** [require('./config.js')]. *)
Variable config : Config.

(** The host's [getTimezoneOffset()] for the timestamp of a tick. *)
Variable timezoneOffset : Z.

(** The host's [date.getTimezoneOffset()] as it depends on the date:
    a zone with daylight saving has two values. *)
Variable timezoneOffsetAt : Date -> Z.

(** The successive values of [Math.random()]. *)
Variable random : nat -> Q.

(** [x => Math.tan(Math.acos(x))], as the host computes it. *)
Variable tanAcos : Q -> Q.

Definition Math_random : M Q :=
  fun w => (random (snd w), (fst w, S (snd w))).

(** The object the constructor fills in, for a profile of
    [config.baseConsumption]. *)
Definition instance (userId : string) (profile : string) (p : Profile)
  : Simulator :=
  {| userId := userId;
     profile := profile;
     baseConfig := p;
     energy_kwh := 0;
     activeAppliances := [];
     anomaly := None;
     anomalyRemaining := 0 |}.

(** The properties every object literal inherits from
    [Object.prototype]: [config.baseConsumption[name]] finds them, and
    each of them is truthy. *)
Definition inheritedProperties : list string :=
  ["constructor"; "__defineGetter__"; "__defineSetter__";
   "hasOwnProperty"; "__lookupGetter__"; "__lookupSetter__";
   "isPrototypeOf"; "propertyIsEnumerable"; "toString"; "valueOf";
   "__proto__"; "toLocaleString"].

Definition inherited (name : string) : bool :=
  existsb (String.eqb name) inheritedProperties.

(** [new PowerConsumptionSimulator(userId, profile)].  The fallback
    [|| config.baseConsumption.normal] is taken when the profile is no
    property at all.  For a name inherited from [Object.prototype] the
    object keeps that property as its [baseConfig]: it has no
    [baseline] and no [appliances], and the first tick throws a
    [TypeError] at [Object.entries(this.baseConfig.appliances)].  Such
    an object is [None]. *)
Definition constructor (userId : string) (profile : string)
  : option Simulator :=
  match baseConsumptionOf config profile with
  | Some p => Some (instance userId profile p)
  | None =>
      if inherited profile then None
      else Some (instance userId profile (normal config))
  end.

(** [getNepalTime(date)]: Nepal is UTC+5:45.  The offset is the one the
    host has at [date]. *)
Definition getNepalTime (date : Date) : Date :=
  (let offset := 5 * 60 + 45 in
   let utc := date + timezoneOffsetAt date * 60000 in
   utc + offset * 60000)%Z.

Definition getSeasonalMultiplier (date : Date) : Q :=
  let month := getMonth timezoneOffset date in
  let table := seasonalMultipliers config in
  if ((1 <=? month) && (month <=? 3))%Z then spring table
  else if ((4 <=? month) && (month <=? 6))%Z then summer table
  else if ((7 <=? month) && (month <=? 9))%Z then monsoon table
  else winter table.

(** [table[hour]].  The tables of [config.js] have 24 entries; past the
    end JavaScript reads [undefined], here the value is 0. *)
Definition at_hour (table : list Q) (hour : Z) : Q :=
  nth (Z.to_nat hour) table 0.

Definition getTimePatternMultiplier (date : Date) : Q :=
  let hour := getHours timezoneOffset date in
  let dayOfWeek := getDay timezoneOffset date in
  let isWeekend := ((dayOfWeek =? 0) || (dayOfWeek =? 6))%Z in
  if isWeekend then at_hour (weekend (timePatterns config)) hour
  else at_hour (weekday (timePatterns config)) hour.

Definition generateBaseLoad (s : Simulator) : Q :=
  fold_left
    (fun baseLoad (e : string * Appliance.t) =>
       let appliance := snd e in
       if Appliance.alwaysOn appliance
       then baseLoad + Appliance.power appliance
       else baseLoad)
    (appliances (baseConfig s))
    (baseline (baseConfig s)).

(** The body of the loop of [generateCyclicalLoad]. *)
Definition cyclicalStep (date : Date) (cyclicalLoad : Q)
  (e : string * Appliance.t) : Q :=
  let appliance := snd e in
  match Appliance.cycle appliance with
  | Some cycle =>
      if negb (Qeq_bool cycle 0) then
        let cyclePosition :=
          js_rem (inject_Z (getMinutes timezoneOffset date)) cycle / cycle in
        if Qltb_opt cyclePosition (Appliance.dutyCycle appliance)
        then cyclicalLoad + Appliance.power appliance
        else cyclicalLoad
      else cyclicalLoad
  | None => cyclicalLoad
  end.

Definition generateCyclicalLoad (s : Simulator) (date : Date) : Q :=
  fold_left (cyclicalStep date) (appliances (baseConfig s)) 0.

(** The body of the loop of [generateProbabilisticLoad]; the draw is made
    only for an appliance that passes the first test. *)
Definition probabilisticStep (timeMultiplier : Q) (e : string * Appliance.t)
  (probabilisticLoad : Q) : M Q :=
  let appliance := snd e in
  if truthy (Appliance.probability appliance)
     && negb (Appliance.alwaysOn appliance)
     && negb (truthy (Appliance.cycle appliance))
  then
    let adjustedProbability :=
      match Appliance.probability appliance with
      | Some p => p * timeMultiplier
      | None => 0
      end in
    r <- Math_random ;;
    if Qltb r adjustedProbability
    then ret (probabilisticLoad + Appliance.power appliance)
    else ret probabilisticLoad
  else ret probabilisticLoad.

Fixpoint probabilisticLoop (timeMultiplier : Q)
  (l : list (string * Appliance.t)) (probabilisticLoad : Q) : M Q :=
  match l with
  | [] => ret probabilisticLoad
  | e :: l' =>
      load <- probabilisticStep timeMultiplier e probabilisticLoad ;;
      probabilisticLoop timeMultiplier l' load
  end.

Definition generateProbabilisticLoad (date : Date) (timeMultiplier : Q)
  : M Q :=
  s <- this ;;
  probabilisticLoop timeMultiplier (appliances (baseConfig s)) 0.

(** The probability of a start of [name] at [date], after the
    adjustments for the hour and the month. *)
Definition adjustedProbability (date : Date) (timeMultiplier : Q)
  (name : string) (appliance : Occasional.t) : Q :=
  let hour := getHours timezoneOffset date in
  let month := getMonth timezoneOffset date in
  let p0 := Occasional.probability appliance * timeMultiplier in
  let p1 :=
    if String.eqb name "water_heater"
       && (((6 <=? hour) && (hour <=? 9)) || ((18 <=? hour) && (hour <=? 21)))%Z
    then p0 * 2 else p0 in
  let p2 :=
    if String.eqb name "air_conditioner" && ((4 <=? month) && (month <=? 6))%Z
    then p1 * 3 else p1 in
  if String.eqb name "space_heater" && ((10 <=? month) || (month <=? 0))%Z
  then p2 * 4 else p2.

(** The body of the loop of [startOccasionalAppliances]:
    [Math.random()] is drawn before the map is looked up. *)
Definition startOccasional (date : Date) (timeMultiplier : Q)
  (e : string * Occasional.t) : M unit :=
  let (name, appliance) := e in
  r <- Math_random ;;
  s <- this ;;
  if Qltb r (adjustedProbability date timeMultiplier name appliance)
     && negb (JsMap.has name (activeAppliances s))
  then
    update (set_activeAppliances
      (JsMap.set name
         {| Activation.power := Occasional.power appliance;
            Activation.endTime :=
              (date + Occasional.duration appliance * 60000)%Z |}
         (activeAppliances s)))
  else ret tt.

Definition startOccasionalAppliances (date : Date) (timeMultiplier : Q)
  : M unit :=
  forEach (startOccasional date timeMultiplier) (occasionalAppliances config).

(** The loop of [updateActiveAppliances] over the entries of the map,
    which it deletes from while it iterates: [entries] are the entries
    still to visit, [m] the map as it stands. *)
Fixpoint updateLoop (date : Date) (entries : list (string * Activation.t))
  (m : JsMap.t Activation.t) (activeLoad : Q) : Q * JsMap.t Activation.t :=
  match entries with
  | [] => (activeLoad, m)
  | (name, appliance) :: rest =>
      if (date >=? Activation.endTime appliance)%Z
      then updateLoop date rest (JsMap.delete name m) activeLoad
      else updateLoop date rest m (activeLoad + Activation.power appliance)
  end.

Definition updateActiveAppliances (date : Date) : M Q :=
  s <- this ;;
  let (activeLoad, m) :=
    updateLoop date (activeAppliances s) (activeAppliances s) 0 in
  update (set_activeAppliances m) ;;;
  ret activeLoad.

(** [{ ...config.anomalies.types[name], type: name }] for the name at
    index [i] of [Object.keys(config.anomalies.types)]. *)
Definition anomalyAt (i : Z) : Anomaly.t :=
  let anomalyTypes := JsMap.keys (types (anomalies config)) in
  let randomAnomaly :=
    if (i <? 0)%Z then None else nth_error anomalyTypes (Z.to_nat i) in
  match randomAnomaly with
  | Some name =>
      match entry name (types (anomalies config)) with
      | Some t =>
          {| Anomaly.multiplier := AnomalyType.multiplier t;
             Anomaly.voltageMultiplier := AnomalyType.voltageMultiplier t;
             Anomaly.duration := Some (AnomalyType.duration t);
             Anomaly.type := Some name |}
      | None => Anomaly.mk None None None (Some name)
      end
  | None => Anomaly.mk None None None None
  end.

(** [checkAnomalies()].  An [anomalyRemaining] that would be [undefined]
    is kept as 0: the only test made of it is [> 0]. *)
Definition checkAnomalies : M (option Anomaly.t) :=
  s <- this ;;
  if (anomalyRemaining s >? 0)%Z then
    update (set_anomalyRemaining (anomalyRemaining s - 1)%Z) ;;;
    ret (anomaly s)
  else
    let anomalyProbability :=
      anomalies_probability (anomalies config) * 1.5 in
    r <- Math_random ;;
    if Qltb r anomalyProbability then
      let anomalyTypes := JsMap.keys (types (anomalies config)) in
      r' <- Math_random ;;
      let count := inject_Z (Z.of_nat (List.length anomalyTypes)) in
      let a := anomalyAt (floor (r' * count)) in
      update (set_anomaly (Some a)) ;;;
      update (set_anomalyRemaining
                match Anomaly.duration a with Some d => d | None => 0%Z end) ;;;
      ret (Some a)
    else ret None.

Definition applyAnomaly (readings : Reading.t) (anomaly : Anomaly.t)
  : Reading.t :=
  let readings1 :=
    match Anomaly.multiplier anomaly with
    | Some m =>
        {| Reading.user_id := Reading.user_id readings;
           Reading.timestamp := Reading.timestamp readings;
           Reading.voltage := Reading.voltage readings;
           Reading.global_active_power :=
             Reading.global_active_power readings * m;
           Reading.global_reactive_power :=
             Reading.global_reactive_power readings;
           Reading.global_intensity := Reading.global_intensity readings;
           Reading.energy_kwh := Reading.energy_kwh readings;
           Reading.sample_interval_seconds :=
             Reading.sample_interval_seconds readings;
           Reading.anomaly_type := Reading.anomaly_type readings |}
    | None => readings
    end in
  match Anomaly.voltageMultiplier anomaly with
  | Some vm =>
      {| Reading.user_id := Reading.user_id readings1;
         Reading.timestamp := Reading.timestamp readings1;
         Reading.voltage := Reading.voltage readings1 * vm;
         Reading.global_active_power := Reading.global_active_power readings1;
         Reading.global_reactive_power :=
           Reading.global_reactive_power readings1;
         Reading.global_intensity := Reading.global_intensity readings1;
         Reading.energy_kwh := Reading.energy_kwh readings1;
         Reading.sample_interval_seconds :=
           Reading.sample_interval_seconds readings1;
         Reading.anomaly_type := Reading.anomaly_type readings1 |}
  | None => readings1
  end.

(** [readings.anomaly_type = anomaly.type]. *)
Definition set_anomaly_type (t : option string) (readings : Reading.t)
  : Reading.t :=
  {| Reading.user_id := Reading.user_id readings;
     Reading.timestamp := Reading.timestamp readings;
     Reading.voltage := Reading.voltage readings;
     Reading.global_active_power := Reading.global_active_power readings;
     Reading.global_reactive_power := Reading.global_reactive_power readings;
     Reading.global_intensity := Reading.global_intensity readings;
     Reading.energy_kwh := Reading.energy_kwh readings;
     Reading.sample_interval_seconds :=
       Reading.sample_interval_seconds readings;
     Reading.anomaly_type := t |}.

(** The sum of the loads with the two multipliers applied, before the
    noise: the first value of [totalActivePower]. *)
Definition combinedLoad (timestamp : Date) : M Q :=
  let seasonalMultiplier := getSeasonalMultiplier timestamp in
  let timeMultiplier := getTimePatternMultiplier timestamp in
  startOccasionalAppliances timestamp timeMultiplier ;;;
  s <- this ;;
  let baseLoad := generateBaseLoad s in
  let cyclicalLoad := generateCyclicalLoad s timestamp in
  probabilisticLoad <- generateProbabilisticLoad timestamp timeMultiplier ;;
  activeLoad <- updateActiveAppliances timestamp ;;
  ret ((baseLoad + cyclicalLoad + probabilisticLoad + activeLoad)
       * seasonalMultiplier * timeMultiplier).

(** The noise factor made from one draw. *)
Definition noiseOf (r : Q) : Q := 1 + (r - 0.5) * 0.1.

(** The first part of [generateMeterReading], up to "Ensure minimum
    power": the final value of its variable [totalActivePower], in
    watts. *)
Definition totalActivePower (timestamp : Date) : M Q :=
  power <- combinedLoad timestamp ;;
  r <- Math_random ;;
  let noise := noiseOf r in
  s <- this ;;
  ret (Qmax (power * noise) (baseline (baseConfig s) * 0.5)).

(** The energy added to [this.energy_kwh] for a reading of
    [totalActivePower] watts. *)
Definition energy_this_minute (totalActivePower : Q) : Q :=
  (totalActivePower / 1000)
  * (inject_Z (sampleInterval (simulation config)) / 3600).

(** [generateMeterReading(timestamp)]. *)
Definition generateMeterReading (timestamp : Date) : M Reading.t :=
  totalActivePower <- totalActivePower timestamp ;;
  let baseVoltage := baseVoltage (electrical config) in
  let voltageVariation := voltageVariation (electrical config) * 1.2 in
  r <- Math_random ;;
  let voltage := baseVoltage * (1 + (r - 0.5) * voltageVariation) in
  let global_reactive_power :=
    totalActivePower * tanAcos (powerFactor (electrical config)) / 1000 in
  let global_intensity := totalActivePower / voltage in
  s <- this ;;
  let energy := energy_kwh s + energy_this_minute totalActivePower in
  update (set_energy_kwh energy) ;;;
  let readings :=
    {| Reading.user_id := userId s;
       Reading.timestamp := timestamp;
       Reading.voltage := toFixed 2 voltage;
       Reading.global_active_power := toFixed 4 (totalActivePower / 1000);
       Reading.global_reactive_power := toFixed 4 global_reactive_power;
       Reading.global_intensity := toFixed 4 global_intensity;
       Reading.energy_kwh := toFixed 4 energy;
       Reading.sample_interval_seconds := sampleInterval (simulation config);
       Reading.anomaly_type := None |} in
  anomaly <- checkAnomalies ;;
  match anomaly with
  | Some a =>
      ret (set_anomaly_type (Anomaly.type a) (applyAnomaly readings a))
  | None => ret readings
  end.

(** The loop of [generateReadings]: [n] iterations are left.  Once
    [new Date(currentTime.getTime() + ...)] has left the range of
    [Date], [currentTime] is an invalid date and the next
    [generateMeterReading(currentTime)] throws a [RangeError] at
    [timestamp.toISOString()]. *)
Fixpoint generateReadingsLoop (n : nat) (currentTime : Date)
  (readings : list Reading.t) (w : World) {struct n}
  : option (list Reading.t * World) :=
  match n with
  | O => Some (readings, w)
  | S n' =>
      if validTime currentTime then
        let (r, w') := generateMeterReading currentTime w in
        generateReadingsLoop n'
          (currentTime + sampleInterval (simulation config) * 1000)%Z
          (readings ++ [r]) w'
      else None
  end.

(** [generateReadings(count, startTime)] for an integer [count]: the
    loop [for (i = 0; i < count; i++)] runs [count] times, and not at
    all when [count] is negative. *)
Definition generateReadings (count : Z) (startTime : Date)
  : Throwing (list Reading.t) :=
  generateReadingsLoop (Z.to_nat count) startTime [].

End PowerConsumptionSimulator.

(* ================================================================== *)
(** * The interactive state store and the real-time power state *)

Module PowerEngine.

(** Modelled from the spec: the appliance catalog, the interactive state
    store ([initialize], [toggle], [listActive]) and the real-time power
    state with its two writers.  Their code is not among the sources,
    which hold the simulator only; the definitions follow sections 3,
    4.2 and 4.3 of the specification.  The sample buffer and the change
    notification of section 4.3 are left out. *)
Record ApplianceDefinition := {
  id : string;
  name : string;
  rated_watts : Q;
  category : string
}.

Record ApplianceState := {
  appliance_id : string;
  is_on : bool;
  last_toggled_at : Z
}.

Record PowerState := {
  background_kw : Q;
  interactive_kw : Q;
  total_kw : Q;
  updated_at : Z
}.

(** What the engine holds for one household. *)
Record Household := {
  states : list ApplianceState;
  power : PowerState
}.

Inductive Error :=
| NotFoundError
| ValidationError.

(** The households by identifier. *)
Definition Store := list (string * Household).

Section Engine.

(** The catalog, read-only at runtime. *)
Variable catalog : list ApplianceDefinition.

Definition ratedWatts (aid : string) : Q :=
  match find (fun d => String.eqb aid (id d)) catalog with
  | Some d => rated_watts d
  | None => 0
  end.

(** The sum of the rated watts of all appliances that are on, in kW. *)
Definition interactiveKw (l : list ApplianceState) : Q :=
  fold_right
    (fun st acc => if is_on st then ratedWatts (appliance_id st) + acc else acc)
    0 l / 1000.

Definition put (hid : string) (h : Household) (s : Store) : Store :=
  JsMap.set hid h s.

(** Modelled from the spec: [initialize(household_id)] of section 4.2,
    whose code is not among the sources; it seeds one state per catalog
    entry, off. *)
Definition initialize (hid : string) (now : Z) (s : Store) : Store :=
  let sts := map (fun d => {| appliance_id := id d; is_on := false;
                              last_toggled_at := now |}) catalog in
  put hid {| states := sts;
             power := {| background_kw := 0;
                         interactive_kw := interactiveKw sts;
                         total_kw := 0 + interactiveKw sts;
                         updated_at := now |} |} s.

(** The write of the background simulator: [background_kw] is replaced
    and [total_kw] recomputed. *)
Definition writeBackground (b : Q) (now : Z) (p : PowerState) : PowerState :=
  {| background_kw := b;
     interactive_kw := interactive_kw p;
     total_kw := b + interactive_kw p;
     updated_at := now |}.

(** The write of the interactive state store: [interactive_kw] is
    replaced and [total_kw] recomputed. *)
Definition writeInteractive (i : Q) (now : Z) (p : PowerState) : PowerState :=
  {| background_kw := background_kw p;
     interactive_kw := i;
     total_kw := background_kw p + i;
     updated_at := now |}.

Definition flip (aid : string) (on : bool) (now : Z) (st : ApplianceState)
  : ApplianceState :=
  if String.eqb aid (appliance_id st)
  then {| appliance_id := appliance_id st; is_on := on;
          last_toggled_at := now |}
  else st.

(** Modelled from the spec: [toggle(household_id, appliance_id, is_on)]
    of section 4.2, whose code is not among the sources.  It gives the
    new store and the new [interactive_kw], recomputed as the sum over
    all appliances that are on, or an error and no change. *)
Definition toggle (hid aid : string) (on : bool) (now : Z) (s : Store)
  : Error + (Store * Q) :=
  match entry hid s with
  | None => inl NotFoundError
  | Some h =>
      if existsb (fun st => String.eqb aid (appliance_id st)) (states h)
      then
        let sts := map (flip aid on now) (states h) in
        let i := interactiveKw sts in
        inr (put hid {| states := sts;
                        power := writeInteractive i now (power h) |} s, i)
      else inl NotFoundError
  end.

(** Modelled from the spec: the write of a simulator tick into the
    real-time power state (section 4.3), whose code is not among the
    sources; the tick delivers [background_kw] for one household. *)
Definition tick (hid : string) (b : Q) (now : Z) (s : Store)
  : Error + Store :=
  match entry hid s with
  | None => inl NotFoundError
  | Some h =>
      inr (put hid {| states := states h;
                      power := writeBackground b now (power h) |} s)
  end.

(** [listActive(household_id)]. *)
Definition listActive (hid : string) (s : Store) : list ApplianceState :=
  match entry hid s with
  | Some h => filter is_on (states h)
  | None => []
  end.

(** The events that reach the engine. *)
Inductive Event :=
| Initialize (hid : string) (now : Z)
| Tick (hid : string) (background_kw : Q) (now : Z)
| Toggle (hid aid : string) (on : bool) (now : Z).

(** One event; a rejected event leaves the store as it was. *)
Definition step (s : Store) (e : Event) : Store :=
  match e with
  | Initialize hid now => initialize hid now s
  | Tick hid b now =>
      match tick hid b now s with inr s' => s' | inl _ => s end
  | Toggle hid aid on now =>
      match toggle hid aid on now s with inr (s', _) => s' | inl _ => s end
  end.

(** The store after a sequence of events, from the empty store. *)
Definition run (es : list Event) : Store := fold_left step es [].

(** The invariant of one household's power state. *)
Definition consistent (h : Household) : Prop :=
  total_kw (power h) == background_kw (power h) + interactive_kw (power h)
  /\ interactive_kw (power h) == interactiveKw (states h).

End Engine.

End PowerEngine.

(* ================================================================== *)
(** * The forecast comparator *)

Module ForecastComparator.

(** Modelled from the spec: [compare(household_id, period)] of section
    4.5 over the persisted minute readings and the supplied forecast
    points.  Its code is not among the sources. *)
Record Period := {
  period_start : Z;       (* milliseconds, inclusive *)
  period_end : Z          (* milliseconds, exclusive *)
}.

Record MinuteReading := {
  mr_household_id : string;
  window_start : Z;
  avg_kw : Q;
  energy_kwh : Q;
  voltage : Q
}.

Record ForecastPoint := {
  fp_household_id : string;
  fp_period_start : Z;
  fp_period_end : Z;
  fp_forecast_kwh : Q;
  confidence_lo : Q;
  confidence_hi : Q
}.

Record EfficiencyScore := {
  household_id : string;
  period : Period;
  actual_kwh : Q;
  forecast_kwh : Q;
  score : Q
}.

Inductive Error :=
| InsufficientDataError.

(** The minute readings of the household within the period bounds. *)
Definition readingsIn (rs : list MinuteReading) (hid : string) (p : Period)
  : list MinuteReading :=
  filter (fun r => String.eqb hid (mr_household_id r)
                   && (period_start p <=? window_start r)%Z
                   && (window_start r <? period_end p)%Z) rs.

(** The forecast points of the household that cover the period. *)
Definition forecastsIn (fs : list ForecastPoint) (hid : string) (p : Period)
  : list ForecastPoint :=
  filter (fun f => String.eqb hid (fp_household_id f)
                   && (period_start p <=? fp_period_start f)%Z
                   && (fp_period_end f <=? period_end p)%Z) fs.

Definition actualKwh (rs : list MinuteReading) (hid : string) (p : Period)
  : Q :=
  Qsum (map energy_kwh (readingsIn rs hid p)).

(** The forecast for the period; absent when no point covers it. *)
Definition forecastKwh (fs : list ForecastPoint) (hid : string) (p : Period)
  : option Q :=
  match forecastsIn fs hid p with
  | [] => None
  | l => Some (Qsum (map fp_forecast_kwh l))
  end.

(** The fraction of the period's minutes that have a reading. *)
Definition coverage (rs : list MinuteReading) (hid : string) (p : Period)
  : Q :=
  inject_Z (Z.of_nat (List.length (readingsIn rs hid p)))
  / inject_Z ((period_end p - period_start p) / 60000).

Section Compare.

(** The configured minimum coverage fraction. *)
Variable minCoverage : Q.

(** Modelled from the spec: [compare(household_id, period)] of section
    4.5, whose code is not among the sources.  The score is
    [(forecast_kwh - actual_kwh) / forecast_kwh * 100]; the comparison
    fails when the forecast is absent or zero, or the coverage is below
    the minimum. *)
Definition compare (rs : list MinuteReading) (fs : list ForecastPoint)
  (hid : string) (p : Period) : Error + EfficiencyScore :=
  match forecastKwh fs hid p with
  | None => inl InsufficientDataError
  | Some f =>
      if Qeq_bool f 0 then inl InsufficientDataError
      else if Qltb (coverage rs hid p) minCoverage
      then inl InsufficientDataError
      else
        let a := actualKwh rs hid p in
        inr {| household_id := hid; period := p;
               actual_kwh := a; forecast_kwh := f;
               score := (f - a) / f * 100 |}
  end.

End Compare.

End ForecastComparator.


(* ================================================================== *)
(** * The rest of [simulator/meter_simulator.js] *)

(** [getNepalSeason(month)]. *)
Definition getNepalSeason (month : Z) : string :=
  if ((1 <=? month) && (month <=? 3))%Z then "Spring (Feb-Apr)"
  else if ((4 <=? month) && (month <=? 6))%Z then "Summer (May-Jul)"
  else if ((7 <=? month) && (month <=? 9))%Z then "Monsoon (Aug-Oct)"
  else "Winter (Nov-Jan)".

(** [new Date(t)] for a number [t]: past the range of [Date] the date
    is invalid ([None]); otherwise the time value is truncated to whole
    milliseconds. *)
Definition newDate (t : Q) : option Date :=
  if Qle_bool (Qabs t) (inject_Z maxTime) then Some (Qtrunc t) else None.

Section Doubles.

(** The rounding of a real number to a double.  The product and the sum
    of [generateTimestamp] are each rounded, and the sum can reach the
    end of the day although [Math.random()] is below 1. *)
Variable double : Q -> Q.

(** [generateTimestamp(baseDate)]. *)
Definition generateTimestamp (random : nat -> Q) (baseDate : Date)
  : M (option Date) :=
  bind (Math_random random) (fun r =>
  ret (newDate (double (inject_Z baseDate + double (r * 86400000))))).

End Doubles.

(** The object [params] of [parseArguments].  [profile] and [userId] are
    [None] when [undefined]; [duration] and [batchSize] are [None] when
    [NaN]; [startTime] is [None] when the property is absent and
    [Some None] when it holds an invalid date. *)
Module Params.
Record t := mk {
  profile : option string;
  userId : option string;
  duration : option Z;
  batchSize : option Z;
  startFromNow : bool;
  startTime : option (option Date);
  verbose : bool
}.
End Params.

(** What [parseArguments] does: it returns [params] or, on [--help],
    prints the usage and ends the process with [process.exit(0)]. *)
Inductive Parsed :=
| Returned (params : Params.t)
| Exited (code : Z).

Section CommandLine.

(** [process.env.USER_ID]. *)
Variable env_USER_ID : option string.

(** [parseInt] on a string, as the host computes it; [None] is [NaN]. *)
Variable parseInt : string -> option Z.

(** The time value of [new Date(s)] for a string, as the host parses it;
    [None] is an invalid date. *)
Variable parseDate : string -> option Date.

(** [a || b] on strings that may be [undefined]: the empty string is
    falsy. *)
Definition or_string (a : option string) (b : string) : string :=
  match a with
  | Some "" => b
  | Some s => s
  | None => b
  end.

Definition defaultParams : Params.t :=
  {| Params.profile := Some "normal";
     Params.userId :=
       Some (or_string env_USER_ID "550e8400-e29b-41d4-a716-446655440000");
     Params.duration := Some 1440%Z;
     Params.batchSize := Some 60%Z;
     Params.startFromNow := true;
     Params.startTime := None;
     Params.verbose := false |}.

(** [parseInt(x)] where [x] may be [undefined]. *)
Definition parseInt_opt (x : option string) : option Z :=
  match x with
  | Some s => parseInt s
  | None => None
  end.

(** [new Date(x)] where [x] may be [undefined]. *)
Definition parseDate_opt (x : option string) : option Date :=
  match x with
  | Some s => parseDate s
  | None => None
  end.

(** The assignments of the cases of the [switch]; [v] is [args[++i]]. *)
Definition with_profile (v : option string) (p : Params.t) : Params.t :=
  Params.mk v (Params.userId p) (Params.duration p) (Params.batchSize p)
    (Params.startFromNow p) (Params.startTime p) (Params.verbose p).

Definition with_userId (v : option string) (p : Params.t) : Params.t :=
  Params.mk (Params.profile p) v (Params.duration p) (Params.batchSize p)
    (Params.startFromNow p) (Params.startTime p) (Params.verbose p).

Definition with_duration (v : option string) (p : Params.t) : Params.t :=
  Params.mk (Params.profile p) (Params.userId p) (parseInt_opt v)
    (Params.batchSize p) (Params.startFromNow p) (Params.startTime p)
    (Params.verbose p).

Definition with_batchSize (v : option string) (p : Params.t) : Params.t :=
  Params.mk (Params.profile p) (Params.userId p) (Params.duration p)
    (parseInt_opt v) (Params.startFromNow p) (Params.startTime p)
    (Params.verbose p).

Definition with_startTime (v : option string) (p : Params.t) : Params.t :=
  Params.mk (Params.profile p) (Params.userId p) (Params.duration p)
    (Params.batchSize p) false (Some (parseDate_opt v)) (Params.verbose p).

Definition with_verbose (p : Params.t) : Params.t :=
  Params.mk (Params.profile p) (Params.userId p) (Params.duration p)
    (Params.batchSize p) (Params.startFromNow p) (Params.startTime p) true.

(** The flags that take the next argument as their value, with the
    assignment each makes. *)
Definition valueFlag (arg : string)
  : option (option string -> Params.t -> Params.t) :=
  if String.eqb arg "--profile" || String.eqb arg "-p"
  then Some with_profile
  else if String.eqb arg "--user-id" || String.eqb arg "-u"
  then Some with_userId
  else if String.eqb arg "--duration" || String.eqb arg "-d"
  then Some with_duration
  else if String.eqb arg "--batch-size" || String.eqb arg "-b"
  then Some with_batchSize
  else if String.eqb arg "--start-time" || String.eqb arg "-s"
  then Some with_startTime
  else None.

(** The loop of [parseArguments] over the arguments from index [i] on. *)
Fixpoint parseLoop (args : list string) (params : Params.t) : Parsed :=
  match args with
  | [] => Returned params
  | arg :: rest =>
      match valueFlag arg with
      | Some assign =>
          match rest with
          | v :: rest' => parseLoop rest' (assign (Some v) params)
          | [] => Returned (assign None params)
          end
      | None =>
          if String.eqb arg "--verbose" || String.eqb arg "-v"
          then parseLoop rest (with_verbose params)
          else if String.eqb arg "--help" || String.eqb arg "-h"
          then Exited 0
          else parseLoop rest params
      end
  end.

(** [parseArguments()] for [process.argv]. *)
Definition parseArguments (argv : list string) : Parsed :=
  parseLoop (skipn 2 argv) defaultParams.

End CommandLine.

Section Batches.

Variable config : Config.
Variable timezoneOffset : Z.
Variable timezoneOffsetAt : Date -> Z.
Variable random : nat -> Q.
Variable tanAcos : Q -> Q.

(** [Math.ceil(duration / batchSize)] of [runSimulation] for whole
    numbers; [None] is [Infinity], and the [NaN] of [0 / 0] is kept as 0,
    as the loop [batch < totalBatches] does not run for either. *)
Definition totalBatches (duration batchSize : Z) : option Z :=
  if (batchSize =? 0)%Z
  then if (0 <? duration)%Z then None else Some 0%Z
  else Some (Qceiling (inject_Z duration / inject_Z batchSize)).

(** The loop of [runSimulation] from batch number [batch], with [n]
    batches left: the readings of each batch.  The line printed before
    a batch holds [batchStartTime.toISOString()], which throws a
    [RangeError] when [currentTime] or its Nepal time has left the range
    of [Date]; an error of [generateReadings] is not caught either. *)
Fixpoint batchLoop (duration batchSize : Z) (n : nat) (batch : Z)
  (currentTime : Date) (w : World) {struct n}
  : option (list (list Reading.t) * World) :=
  match n with
  | O => Some ([], w)
  | S n' =>
      let samplesInThisBatch :=
        Z.min batchSize (duration - batch * batchSize) in
      if validTime currentTime
         && validTime (getNepalTime timezoneOffsetAt currentTime)
      then
        match generateReadings config timezoneOffset random tanAcos
                samplesInThisBatch currentTime w with
        | Some (readings, w1) =>
            match batchLoop duration batchSize n' (batch + 1)
                    (currentTime + samplesInThisBatch * 60000)%Z w1 with
            | Some (more, w2) => Some (readings :: more, w2)
            | None => None
            end
        | None => None
        end
      else None
  end.

(** The batches of [runSimulation] for whole [duration] and [batchSize]
    from [startTime]; [None] when the loop never ends. *)
Definition runBatches (duration batchSize : Z) (startTime : Date)
  : option (Throwing (list (list Reading.t))) :=
  match totalBatches duration batchSize with
  | Some total =>
      Some (batchLoop duration batchSize (Z.to_nat total) 0 startTime)
  | None => None
  end.

End Batches.

(* ================================================================== *)
(** * Authentication ([backend/src/middleware/authMiddleware.js],
      [backend/src/controllers/authController.js],
      [backend/src/routes/auth.js]) *)

Module Auth.

(** [s.split(' ')]: the pieces between single spaces; two spaces in a
    row give an empty piece. *)
Fixpoint split_space (s : string) : list string :=
  match s with
  | EmptyString => [EmptyString]
  | String c s' =>
      if Ascii.eqb c " "%char then EmptyString :: split_space s'
      else
        match split_space s' with
        | piece :: pieces => String c piece :: pieces
        | [] => [String c EmptyString]
        end
  end.

(** The variable [token] of [userAuth] after the first [if], for the
    header [req.headers.authorization]; [None] is [undefined]. *)
Definition bearerToken (authorization : option string) : option string :=
  match authorization with
  | Some h =>
      if String.prefix "Bearer" h then nth_error (split_space h) 1
      else None
  | None => None
  end.

(** Whether a string that may be [undefined] is falsy. *)
Definition falsy (x : option string) : bool :=
  match x with
  | Some "" => true
  | Some _ => false
  | None => true
  end.

Section Handlers.

(** A row of the users table as the [User] model returns it, and the
    values held in it and in the body of a request. *)
Variable User : Type.
Variable Value : Type.

Variable user_id : User -> Value.
Variable user_email : User -> Value.
Variable user_name : User -> Value.
Variable user_household_id : User -> Value.
Variable user_password_hash : User -> Value.

(** The database behind the [User] model. *)
Variable Db : Type.

(** The calls of the [User] model and of [jsonwebtoken]; [None] is a
    thrown error or a rejected promise.  The lookups leave the database
    as it is. *)
Variable findById : Db -> Value -> option (option User).
Variable findByEmail : Db -> Value -> option (option User).
Variable verifyPassword : Value -> Value -> option bool.

(** The object given to [User.create]. *)
Record NewUser := {
  new_email : Value;
  new_password : Value;
  new_name : Value;
  new_household_id : Value;
  new_tariff_rate : Value
}.

Variable create : Db -> NewUser -> option (User * Db).

(** [jwt.verify(token, process.env.JWT_SECRET)] followed by [.id], and
    [jwt.sign({ id }, process.env.JWT_SECRET, { expiresIn })]. *)
Variable jwt_verify : string -> option Value.
Variable jwt_sign : Value -> string -> option string.

(** [process.env.JWT_EXPIRE]. *)
Variable env_JWT_EXPIRE : option string.

(** A JSON body. *)
#[local] Unset Elimination Schemes.
Inductive Json :=
| JString (s : string)
| JBool (b : bool)
| JValue (v : Value)
| JUser (u : User)
| JObject (fields : list (string * Json)).
#[local] Set Elimination Schemes.

(** What a handler does with the request: it sends a response or calls
    [next()] with [req.user] set. *)
Inductive Outcome :=
| Sent (status : Z) (body : Json)
| Next (user : User).

Definition errorBody (message : string) : Json :=
  JObject [("error", JString message)].

(** [userAuth(req, res, next)]. *)
Definition userAuth (db : Db) (authorization : option string) : Outcome :=
  let token := bearerToken authorization in
  match token with
  | Some t =>
      if falsy token then Sent 401 (errorBody "Not authorized, no token")
      else
        match jwt_verify t with
        | Some id =>
            match findById db id with
            | Some (Some user) => Next user
            | Some None => Sent 401 (errorBody "User not found")
            | None => Sent 401 (errorBody "Not authorized, token failed")
            end
        | None => Sent 401 (errorBody "Not authorized, token failed")
        end
  | None => Sent 401 (errorBody "Not authorized, no token")
  end.

(** [generateToken(id)]. *)
Definition generateToken (id : Value) : option string :=
  jwt_sign id (match env_JWT_EXPIRE with
               | Some "" => "7d"
               | Some s => s
               | None => "7d"
               end).

(** The fields [email], [password], [name], [household_id] and
    [tariff_rate] of [req.body]. *)
Record Body := {
  email : Value;
  password : Value;
  name : Value;
  household_id : Value;
  tariff_rate : Value
}.

(** [exports.register]: the response and the database afterwards. *)
Definition register (db : Db) (body : Body) : Z * Json * Db :=
  let failed :=
    (500%Z, errorBody "Server error during registration") in
  match findByEmail db (email body) with
  | Some (Some _) => (400%Z, errorBody "user already exists", db)
  | Some None =>
      match create db {| new_email := email body;
                         new_password := password body;
                         new_name := name body;
                         new_household_id := household_id body;
                         new_tariff_rate := tariff_rate body |} with
      | Some (user, db') =>
          match generateToken (user_id user) with
          | Some token =>
              (201%Z,
               JObject
                 [ ("success", JBool true);
                   ("data",
                    JObject
                      [ ("user",
                         JObject
                           [ ("id", JValue (user_id user));
                             ("email", JValue (user_email user));
                             ("hame", JValue (user_name user));
                             ("household_id",
                              JValue (user_household_id user)) ]);
                        ("token", JString token) ]) ],
               db')
          | None => (failed, db')
          end
      | None => (failed, db)
      end
  | None => (failed, db)
  end.

(** [exports.login]: the response; a response sent without
    [res.status] has status 200. *)
Definition login (db : Db) (body : Body) : Z * Json :=
  let failed := (500%Z, errorBody "Server error during login") in
  match findByEmail db (email body) with
  | Some (Some user) =>
      match verifyPassword (password body) (user_password_hash user) with
      | Some true =>
          match generateToken (user_id user) with
          | Some token =>
              (200%Z,
               JObject
                 [ ("success", JBool true);
                   ("data",
                    JObject
                      [ ("user",
                         JObject
                           [ ("id", JValue (user_id user));
                             ("email", JValue (user_email user));
                             ("name", JValue (user_name user));
                             ("household_id",
                              JValue (user_household_id user)) ]);
                        ("token", JString token) ]) ])
          | None => failed
          end
      | Some false =>
          (401%Z, errorBody "Invalid credentials")
      | None => failed
      end
  | Some None => (401%Z, JObject [("erroe", JString "Invalid Credential")])
  | None => failed
  end.

(** [exports.getMe], for the [req.user] that [userAuth] has set. *)
Definition getMe (user : User) : Z * Json :=
  (200%Z, JObject [("success", JBool true); ("data", JUser user)]).

(** The route [GET /me] of [routes/auth.js]: [userAuth], then
    [getMe]. *)
Definition route_me (db : Db) (authorization : option string) : Z * Json :=
  match userAuth db authorization with
  | Next user => getMe user
  | Sent status body => (status, body)
  end.

End Handlers.

End Auth.

(* ================================================================== *)
(** * Definitions used by the statements *)

(** The duty test in the words of the specification, for a minute and a
    cycle length in whole minutes:
    [(minute mod cycle_length) / cycle_length < duty_cycle]. *)
Definition dutyOn (minute cycle_length : Z) (duty_cycle : Q) : bool :=
  Qltb (inject_Z (minute mod cycle_length) / inject_Z cycle_length) duty_cycle.

(** Whether an appliance with a cycle is in the on part of its cycle at
    [minute]. *)
Definition onDuty (minute : Z) (a : Appliance.t) : bool :=
  match Appliance.cycle a, Appliance.dutyCycle a with
  | Some c, Some d => dutyOn minute (Qfloor c) d
  | _, _ => false
  end.

(** What an appliance adds to the cyclical load at [minute]. *)
Definition cyclicalShare (minute : Z) (e : string * Appliance.t) : Q :=
  if onDuty minute (snd e) then Appliance.power (snd e) else 0.

(** A cycle length, when configured, is a positive whole number of
    minutes. *)
Definition wholeCycle (e : string * Appliance.t) : bool :=
  match Appliance.cycle (snd e) with
  | Some c => Qeq_bool c (inject_Z (Qfloor c)) && (0 <? Qfloor c)%Z
  | None => true
  end.

(** An activation is still running at [date]. *)
Definition running (date : Date) (e : string * Activation.t) : bool :=
  (date <? Activation.endTime (snd e))%Z.

(** Two simulator objects differ in [activeAppliances] at most. *)
Definition frame (s s' : Simulator) : Prop :=
  userId s' = userId s
  /\ profile s' = profile s
  /\ baseConfig s' = baseConfig s
  /\ energy_kwh s' = energy_kwh s
  /\ anomaly s' = anomaly s
  /\ anomalyRemaining s' = anomalyRemaining s.



(** The sum of the four loads of the tick at [ts] from the world [w],
    before the multipliers: the values of [baseLoad], [cyclicalLoad],
    [probabilisticLoad] and [activeLoad] in [generateMeterReading]. *)
Definition loadsOfTick (config : Config) (tz : Z) (random : nat -> Q)
  (ts : Date) (w : World) : Q :=
  let timeMultiplier := getTimePatternMultiplier config tz ts in
  let w1 := snd (startOccasionalAppliances config tz random ts
                   timeMultiplier w) in
  let probabilistic :=
    generateProbabilisticLoad random ts timeMultiplier w1 in
  let active := updateActiveAppliances ts (snd probabilistic) in
  generateBaseLoad (fst w1) + generateCyclicalLoad tz (fst w1) ts
  + fst probabilistic + fst active.

(** Successive calls of [generateMeterReading] on one simulator, one for
    each timestamp of the list. *)
Fixpoint readingsAt (config : Config) (tz : Z) (random : nat -> Q)
  (tanAcos : Q -> Q) (tss : list Date) : M (list Reading.t) :=
  match tss with
  | [] => ret []
  | ts :: rest =>
      bind (generateMeterReading config tz random tanAcos ts) (fun r =>
      bind (readingsAt config tz random tanAcos rest) (fun rs =>
      ret (r :: rs)))
  end.

(** Each number of the list is less than the next. *)
Fixpoint increasing (l : list Q) : Prop :=
  match l with
  | x :: (y :: _) as l' => x < y /\ increasing l'
  | _ => True
  end.

(** What [checkAnomalies] returns within the tick at [ts] from the world
    [w]: it is called after the power is computed, the voltage drawn and
    the energy added. *)
Definition anomalyOfTick (config : Config) (tz : Z) (random : nat -> Q)
  (ts : Date) (w : World) : option Anomaly.t :=
  let tp := totalActivePower config tz random ts w in
  let s1 := fst (snd tp) in
  fst (checkAnomalies config random
         (set_energy_kwh
            (energy_kwh s1 + energy_this_minute config (fst tp)) s1,
          S (snd (snd tp)))).

(** [n] successive calls of [checkAnomalies], with what each returns. *)
Fixpoint checks (config : Config) (random : nat -> Q) (n : nat)
  : M (list (option Anomaly.t)) :=
  match n with
  | O => ret []
  | S n' =>
      bind (checkAnomalies config random) (fun a =>
      bind (checks config random n') (fun l => ret (a :: l)))
  end.

(** Values for running the simulator. *)
Module Fixture.

Definition config : Config := ConfigJs.config.

(** The host runs in UTC. *)
Definition utc : Z := 0.

(** A source whose every draw is 0.5. *)
Definition half (n : nat) : Q := 1 # 2.

(** [Math.tan(Math.acos(0.92))] to three digits. *)
Definition tanAcos (x : Q) : Q := 0.426.

(** 2024-07-04T13:37:00Z, a Thursday. *)
Definition july4 : Date := 1720100220000%Z.

(** A new simulator of the normal profile, before any draw. *)
Definition fresh : World :=
  (instance "550e8400" "normal" (normal config), O).

(** The same simulator with a microwave that runs for another minute and
    an oven that has just finished. *)
Definition busy : World :=
  (set_activeAppliances
     [ ("microwave", Activation.mk 1000 (july4 + 60000)%Z);
       ("oven", Activation.mk 2000 july4) ]
     (fst fresh), O).





(** A source whose sixteenth draw, the one [checkAnomalies] makes in the
    first tick of a new simulator of the normal profile, is 0; the draw
    after it, 0.5, picks the third anomaly type, [voltageSpike]. *)
Definition spike (n : nat) : Q := if (n =? 15)%nat then 0 else 1 # 2.

(** A catalog of two appliances and a morning of events for one
    household. *)
Definition catalog : list PowerEngine.ApplianceDefinition :=
  [ {| PowerEngine.id := "tv"; PowerEngine.name := "LED TV";
       PowerEngine.rated_watts := 150;
       PowerEngine.category := "living_room" |};
    {| PowerEngine.id := "microwave"; PowerEngine.name := "Microwave";
       PowerEngine.rated_watts := 1000;
       PowerEngine.category := "kitchen" |} ].

Definition events : list PowerEngine.Event :=
  [ PowerEngine.Initialize "house-1" 0;
    PowerEngine.Toggle "house-1" "tv" true 1;
    PowerEngine.Tick "house-1" 1.2 2;
    PowerEngine.Toggle "house-1" "tv" true 3;
    PowerEngine.Toggle "house-1" "microwave" true 4;
    PowerEngine.Toggle "house-1" "toaster" true 5;
    PowerEngine.Toggle "house-1" "tv" false 6 ].

(** Three minutes with a reading each, and the forecast for them. *)
Definition threeMinutes : ForecastComparator.Period :=
  {| ForecastComparator.period_start := 0;
     ForecastComparator.period_end := 180000 |}.

Definition minutes (e0 e1 e2 : Q) : list ForecastComparator.MinuteReading :=
  [ ForecastComparator.Build_MinuteReading "house-1" 0 0 e0 230;
    ForecastComparator.Build_MinuteReading "house-1" 60000 0 e1 230;
    ForecastComparator.Build_MinuteReading "house-1" 120000 0 e2 230 ].

Definition forecast (kwh : Q) : list ForecastComparator.ForecastPoint :=
  [ ForecastComparator.Build_ForecastPoint "house-1" 0 180000 kwh 0 0 ].

End Fixture.

(** The multiplier of the table for a season as [getNepalSeason] names
    it. *)
Definition multiplierOfSeason (season : string) (t : SeasonalMultipliers)
  : Q :=
  if String.eqb season "Spring (Feb-Apr)" then spring t
  else if String.eqb season "Summer (May-Jul)" then summer t
  else if String.eqb season "Monsoon (Aug-Oct)" then monsoon t
  else winter t.

(** The appliances for which [generateProbabilisticLoad] draws. *)
Definition drawnFor (e : string * Appliance.t) : bool :=
  truthy (Appliance.probability (snd e))
  && negb (Appliance.alwaysOn (snd e))
  && negb (truthy (Appliance.cycle (snd e))).


(** The anomaly counter is not negative, and an anomaly is held while
    it is positive. *)
Definition anomalyOk (s : Simulator) : Prop :=
  (0 <= anomalyRemaining s)%Z
  /\ ((0 < anomalyRemaining s)%Z -> anomaly s <> None).

(** A string without a space. *)
Fixpoint spaceless (s : string) : bool :=
  match s with
  | EmptyString => true
  | String c s' => negb (Ascii.eqb c " "%char) && spaceless s'
  end.

(** An activation made at [date] for an entry of the configuration. *)
Definition startedAt (config : Config) (date : Date)
  (e : string * Activation.t) : Prop :=
  exists o : Occasional.t,
    In (fst e, o) (occasionalAppliances config)
    /\ snd e = {| Activation.power := Occasional.power o;
                  Activation.endTime :=
                    (date + Occasional.duration o * 60000)%Z |}.

(** The voltage of the tick at [ts] before rounding and before any
    anomaly: the value of the variable [voltage] of
    [generateMeterReading]. *)
Definition voltageOfTick (config : Config) (tz : Z) (random : nat -> Q)
  (ts : Date) (w : World) : Q :=
  let r := random (snd (snd (totalActivePower config tz random ts w))) in
  baseVoltage (electrical config)
  * (1 + (r - 0.5) * (voltageVariation (electrical config) * 1.2)).

(** More values for running the code. *)
Module Fixture2.

(** [getTimezoneOffset()] of a host in New York for the dates of 2024:
    240 minutes from 10 March 07:00 UTC to 3 November 06:00 UTC, and
    300 minutes before and after. *)
Definition newYork (d : Date) : Z :=
  if ((1710054000000 <=? d) && (d <? 1730613600000))%Z then 240%Z
  else 300%Z.

(** A command line, and stand-ins for the host's [parseInt] and date
    parser that know the strings on it. *)
Definition argv : list string :=
  [ "node"; "meter_simulator.js"; "-p"; "high"; "-d"; "120";
    "--start-time"; "2024-07-04T13:37:00.000Z"; "-v" ].

Definition hostParseInt (s : string) : option Z :=
  if String.eqb s "120" then Some 120%Z else None.

Definition hostParseDate (s : string) : option Date :=
  if String.eqb s "2024-07-04T13:37:00.000Z" then Some Fixture.july4
  else None.

(** A users table of identifiers, where the identifier of a user is
    also its email, name, household and password hash; the one token
    that verifies is ["good"], for user 1. *)
Definition users : Type := list nat.

Definition lookup (db : users) (v : nat) : option (option nat) :=
  Some (if existsb (Nat.eqb v) db then Some v else None).

Definition verifyPassword (password hash : nat) : option bool :=
  Some (Nat.eqb password hash).

Definition create (db : users) (u : Auth.NewUser nat)
  : option (nat * users) :=
  Some (Auth.new_email nat u, Auth.new_email nat u :: db).

Definition jwt_verify (token : string) : option nat :=
  if String.eqb token "good" then Some 1%nat else None.

Definition jwt_sign (id : nat) (expiresIn : string) : option string :=
  Some "good".

Definition body (email password : nat) : Auth.Body nat :=
  Auth.Build_Body nat email password 0%nat 0%nat 0%nat.

End Fixture2.
(* ================================================================== *)
(** * Properties *)

(** ** Numbers *)

Lemma Qltb_lt (a b : Q) : Qltb a b = true <-> a < b.
Proof.
  unfold Qltb, Qlt, Qcompare.
  destruct (Z.compare_spec (Qnum a * QDen b) (Qnum b * QDen a));
    split; intro H0; try discriminate; try reflexivity; lia.
Qed.

Lemma Qltb_ge (a b : Q) : Qltb a b = false <-> b <= a.
Proof.
  split; intro H.
  - apply Qnot_lt_le. intro L. apply Qltb_lt in L. congruence.
  - destruct (Qltb a b) eqn:E; [|reflexivity].
    apply Qltb_lt in E. apply Qle_not_lt in H. contradiction.
Qed.

#[local] Instance Qltb_Proper : Proper (Qeq ==> Qeq ==> eq) Qltb.
Proof.
  intros a a' Ha b b' Hb.
  destruct (Qltb a b) eqn:E; symmetry.
  - apply Qltb_lt. apply Qltb_lt in E. rewrite <- Ha, <- Hb. exact E.
  - apply Qltb_ge. apply Qltb_ge in E. rewrite <- Ha, <- Hb. exact E.
Qed.

Lemma pow10_pos (d : nat) : 0 < pow10 d.
Proof.
  unfold pow10. change 0 with (inject_Z 0). rewrite <- Zlt_Qlt.
  apply Z.pow_pos_nonneg; lia.
Qed.

Lemma Qsum_cons (x : Q) (l : list Q) : Qsum (x :: l) = x + Qsum l.
Proof. reflexivity. Qed.

(** The printed value is within half a unit of the last digit. *)
Lemma toFixed_close (d : nat) (x : Q) :
  Qabs (toFixed d x - x) <= (1 # 2) / pow10 d.
Proof.
  pose proof (pow10_pos d) as Hp.
  assert (Hh : 0 <= (1 # 2) / pow10 d).
  { apply Qle_shift_div_l; [exact Hp|]. lra. }
  unfold toFixed.
  destruct (Qle_bool (inject_Z (10 ^ 21)) (Qabs x)).
  - setoid_replace (x - x) with 0 by ring. exact Hh.
  - set (n := Qfloor (Qabs x * pow10 d + (1 # 2))).
    pose proof (Qfloor_le (Qabs x * pow10 d + (1 # 2))) as Hlo.
    pose proof (Qlt_floor (Qabs x * pow10 d + (1 # 2))) as Hhi.
    fold n in Hlo, Hhi. rewrite inject_Z_plus in Hhi.
    change (inject_Z 1) with 1 in Hhi.
    assert (Hq : Qabs (inject_Z n / pow10 d - Qabs x) <= (1 # 2) / pow10 d).
    { apply Qabs_Qle_condition. split.
      - apply Qle_minus_iff.
        setoid_replace (inject_Z n / pow10 d - Qabs x - - ((1 # 2) / pow10 d))
          with ((inject_Z n + (1 # 2) - Qabs x * pow10 d) / pow10 d)
          by (field; lra).
        apply Qle_shift_div_l; [exact Hp|]. lra.
      - apply Qle_minus_iff.
        setoid_replace ((1 # 2) / pow10 d + - (inject_Z n / pow10 d - Qabs x))
          with ((Qabs x * pow10 d + (1 # 2) - inject_Z n) / pow10 d)
          by (field; lra).
        apply Qle_shift_div_l; [exact Hp|]. lra. }
    destruct (Qle_bool 0 x) eqn:E.
    + apply Qle_bool_iff in E. rewrite (Qabs_pos x E) in Hq. exact Hq.
    + assert (Hneg : x <= 0).
      { apply Qlt_le_weak, Qnot_le_lt. intro H0.
        apply Qle_bool_iff in H0. congruence. }
      rewrite (Qabs_neg x Hneg) in Hq.
      setoid_replace (- (inject_Z n / pow10 d) - x)
        with (- (inject_Z n / pow10 d - - x)) by ring.
      rewrite Qabs_opp. exact Hq.
Qed.

(** ** Dates *)

Lemma getHours_range tz (date : Date) : (0 <= getHours tz date < 24)%Z.
Proof.
  unfold getHours, msPerDay, msPerHour.
  pose proof (Z.mod_pos_bound (localTime tz date) 86400000 ltac:(lia)) as H.
  split.
  - apply Z.div_pos; lia.
  - apply Z.div_lt_upper_bound; lia.
Qed.

(** With the tables of [config.js] the entry read for the hour of a date
    is always there. *)
Lemma at_hour_defined tz (date : Date) (table : list Q) :
  List.length table = 24%nat ->
  nth_error table (Z.to_nat (getHours tz date))
  = Some (at_hour table (getHours tz date)).
Proof.
  intro L. unfold at_hour. apply nth_error_nth'.
  pose proof (getHours_range tz date). lia.
Qed.

Example config_tables_length :
  List.length (weekday (timePatterns ConfigJs.config)) = 24%nat
  /\ List.length (weekend (timePatterns ConfigJs.config)) = 24%nat.
Proof. split; reflexivity. Qed.

(** 2024-07-04T13:37:00Z is a Thursday of July; one minute before the
    epoch it is Wednesday, 31 December. *)
Example getters_of_known_dates :
  (getMonth 0 Fixture.july4, getDay 0 Fixture.july4,
   getHours 0 Fixture.july4, getMinutes 0 Fixture.july4)%Z
  = (6, 4, 13, 37)%Z
  /\ (getMonth 0 (-60000), getDay 0 (-60000),
      getHours 0 (-60000), getMinutes 0 (-60000))%Z
     = (11, 3, 23, 59)%Z
  /\ getHours (-345)%Z Fixture.july4 = 19%Z.
Proof. repeat split; reflexivity. Qed.

(** ** Running code in [M] *)

Lemma bind_run {A B} (m : M A) (k : A -> M B) (w : World) :
  bind m k w = k (fst (m w)) (snd (m w)).
Proof. unfold bind. destruct (m w). reflexivity. Qed.

Ltac run := repeat (rewrite bind_run; cbn [fst snd ret this update]).

(** The first reading of a new simulator of the normal profile when every
    draw is 0.5: 246 watts of load, times 1.3 for July and 0.6 for a
    weekday at 13 hours; sixteen draws are made. *)
Example first_reading :
  let g := generateMeterReading Fixture.config Fixture.utc Fixture.half
             Fixture.tanAcos Fixture.july4 Fixture.fresh in
  Reading.global_active_power (fst g) == 0.1919
  /\ Reading.voltage (fst g) == 230
  /\ Reading.energy_kwh (fst g) == 0.0032
  /\ Reading.anomaly_type (fst g) = None
  /\ snd (snd g) = 16%nat.
Proof. vm_compute. repeat split; reflexivity. Qed.

(** ** The seasonal multiplier *)

Lemma combinedLoad_multipliers config tz random date w :
  fst (combinedLoad config tz random date w)
  = loadsOfTick config tz random date w
    * getSeasonalMultiplier config tz date
    * getTimePatternMultiplier config tz date.
Proof.
  unfold combinedLoad, loadsOfTick. run. unfold ret. cbn [fst].
  reflexivity.
Qed.

(** C6: the seasonal multiplier is read from the four-season table by
    the month index of the timestamp alone: spring for the months 1 to
    3, summer for 4 to 6 (May to July), monsoon for 7 to 9 and winter
    for the others; two timestamps of the same month have the same
    multiplier, whatever their day of the week and hour; and the
    combined load of the tick is the sum of its four loads times this
    multiplier times the time-of-day multiplier, so in the months 4 to
    6 the configured summer multiplier is applied. *)
Theorem seasonal_multiplier_summer :
  forall (config : Config) (tz : Z) (random : nat -> Q) (date : Date)
         (w : World),
    let month := getMonth tz date in
    let table := seasonalMultipliers config in
    let multiplier := getSeasonalMultiplier config tz date in
    ((1 <= month <= 3)%Z -> multiplier = spring table)
    /\ ((4 <= month <= 6)%Z -> multiplier = summer table)
    /\ ((7 <= month <= 9)%Z -> multiplier = monsoon table)
    /\ ((month < 1 \/ 9 < month)%Z -> multiplier = winter table)
    /\ (forall date' : Date,
          getMonth tz date' = month ->
          getSeasonalMultiplier config tz date' = multiplier)
    /\ fst (combinedLoad config tz random date w)
       = loadsOfTick config tz random date w * multiplier
         * getTimePatternMultiplier config tz date
    /\ ((4 <= month <= 6)%Z ->
        fst (combinedLoad config tz random date w)
        = loadsOfTick config tz random date w * summer table
          * getTimePatternMultiplier config tz date).
Proof.
  intros config tz random date w. cbn zeta.
  assert (S : (4 <= getMonth tz date <= 6)%Z ->
              getSeasonalMultiplier config tz date
              = summer (seasonalMultipliers config)).
  { intro H. unfold getSeasonalMultiplier.
    destruct (Z.leb_spec 1 (getMonth tz date)); [|lia].
    destruct (Z.leb_spec (getMonth tz date) 3); [lia|].
    destruct (Z.leb_spec 4 (getMonth tz date)); [|lia].
    destruct (Z.leb_spec (getMonth tz date) 6); [|lia].
    reflexivity. }
  repeat split.
  - intro H. unfold getSeasonalMultiplier.
    destruct (Z.leb_spec 1 (getMonth tz date)); [|lia].
    destruct (Z.leb_spec (getMonth tz date) 3); [|lia].
    reflexivity.
  - exact S.
  - intro H. unfold getSeasonalMultiplier.
    destruct (Z.leb_spec 1 (getMonth tz date)); [|lia].
    destruct (Z.leb_spec (getMonth tz date) 3); [lia|].
    destruct (Z.leb_spec 4 (getMonth tz date)); [|lia].
    destruct (Z.leb_spec (getMonth tz date) 6); [lia|].
    destruct (Z.leb_spec 7 (getMonth tz date)); [|lia].
    destruct (Z.leb_spec (getMonth tz date) 9); [|lia].
    reflexivity.
  - intro H. unfold getSeasonalMultiplier.
    destruct (Z.leb_spec 1 (getMonth tz date));
      destruct (Z.leb_spec (getMonth tz date) 3);
      destruct (Z.leb_spec 4 (getMonth tz date));
      destruct (Z.leb_spec (getMonth tz date) 6);
      destruct (Z.leb_spec 7 (getMonth tz date));
      destruct (Z.leb_spec (getMonth tz date) 9);
      cbn [andb]; try reflexivity; lia.
  - intros d Hd. unfold getSeasonalMultiplier. rewrite Hd. reflexivity.
  - apply combinedLoad_multipliers.
  - intro H. rewrite combinedLoad_multipliers, (S H). reflexivity.
Qed.

Lemma seasonal_multiplier_summer_witness :
  (4 <= getMonth Fixture.utc Fixture.july4 <= 6)%Z
  /\ getSeasonalMultiplier Fixture.config Fixture.utc Fixture.july4
     = summer (seasonalMultipliers Fixture.config).
Proof.
  assert (H : (4 <= getMonth Fixture.utc Fixture.july4 <= 6)%Z)
    by (vm_compute; split; discriminate).
  split; [exact H|].
  exact (proj1 (proj2 (seasonal_multiplier_summer Fixture.config Fixture.utc
                         Fixture.half Fixture.july4 Fixture.fresh)) H).
Defined.

(** ** The cyclical load *)

Lemma getMinutes_range tz (date : Date) : (0 <= getMinutes tz date < 60)%Z.
Proof.
  unfold getMinutes, msPerHour, msPerMinute.
  pose proof (Z.mod_pos_bound (localTime tz date) 3600000 ltac:(lia)) as H.
  split.
  - apply Z.div_pos; lia.
  - apply Z.div_lt_upper_bound; lia.
Qed.

(** On a minute that is not negative and a positive whole cycle length,
    the remainder of JavaScript is the remainder of [Z]. *)
Lemma js_rem_whole (m k : Z) (c : Q) :
  (0 <= m)%Z -> (0 < k)%Z -> c == inject_Z k ->
  js_rem (inject_Z m) c == inject_Z (m mod k).
Proof.
  intros Hm Hk Hc. unfold js_rem, Qtrunc.
  assert (Hk' : 0 < inject_Z k)
    by (change 0 with (inject_Z 0); rewrite <- Zlt_Qlt; exact Hk).
  assert (Hm' : 0 <= inject_Z m)
    by (change 0 with (inject_Z 0); rewrite <- Zle_Qle; exact Hm).
  assert (Hq : inject_Z m / c == inject_Z m / inject_Z k)
    by (rewrite Hc; reflexivity).
  assert (Hpos : Qle_bool 0 (inject_Z m / c) = true).
  { apply Qle_bool_iff. rewrite Hq. apply Qle_shift_div_l; [exact Hk'|]. lra. }
  rewrite Hpos, (Qfloor_comp _ _ Hq), <- Zdiv_Qdiv, Hc.
  rewrite Z.mod_eq by lia.
  unfold Zminus. rewrite inject_Z_plus, inject_Z_opp, inject_Z_mult.
  ring.
Qed.

Lemma wholeCycle_spec (e : string * Appliance.t) (c : Q) :
  wholeCycle e = true -> Appliance.cycle (snd e) = Some c ->
  c == inject_Z (Qfloor c) /\ (0 < Qfloor c)%Z.
Proof.
  unfold wholeCycle. intros H E. rewrite E in H.
  apply andb_true_iff in H. destruct H as [H1 H2].
  split; [apply Qeq_bool_iff; exact H1 | apply Z.ltb_lt; exact H2].
Qed.

(** One appliance: the step of the loop adds the power exactly when the
    appliance is on duty. *)
Lemma cyclicalStep_duty tz (date : Date) (acc : Q) (e : string * Appliance.t) :
  wholeCycle e = true ->
  cyclicalStep tz date acc e
  = if onDuty (getMinutes tz date) (snd e)
    then acc + Appliance.power (snd e) else acc.
Proof.
  intros W. unfold cyclicalStep, onDuty.
  destruct (Appliance.cycle (snd e)) as [c|] eqn:Ec; [|reflexivity].
  destruct (wholeCycle_spec e c W Ec) as [Hc Hk].
  assert (Hnz : Qeq_bool c 0 = false).
  { destruct (Qeq_bool c 0) eqn:E0; [|reflexivity].
    apply Qeq_bool_iff in E0. rewrite (Qfloor_comp _ _ E0) in Hk.
    discriminate Hk. }
  rewrite Hnz. cbn [negb].
  destruct (Appliance.dutyCycle (snd e)) as [d|]; [|reflexivity].
  cbn [Qltb_opt]. unfold dutyOn.
  pose proof (getMinutes_range tz date) as [Hm _].
  assert (Hpos :
    js_rem (inject_Z (getMinutes tz date)) c / c
    == inject_Z (getMinutes tz date mod Qfloor c) / inject_Z (Qfloor c)).
  { rewrite (js_rem_whole _ _ c Hm Hk Hc). rewrite Hc at 2. reflexivity. }
  rewrite (Qltb_Proper _ _ Hpos d d (Qeq_refl d)). reflexivity.
Qed.

Lemma cyclical_fold tz (date : Date) (l : list (string * Appliance.t)) :
  forallb wholeCycle l = true ->
  forall acc,
    fold_left (cyclicalStep tz date) l acc
    == acc + Qsum (map (cyclicalShare (getMinutes tz date)) l).
Proof.
  induction l as [|e l IH]; intros W acc; cbn [fold_left map].
  - unfold Qsum. cbn [fold_right]. ring.
  - cbn [forallb] in W. apply andb_true_iff in W. destruct W as [We Wl].
    rewrite (IH Wl), (cyclicalStep_duty tz date acc e We).
    rewrite Qsum_cons. unfold cyclicalShare at 2.
    destruct (onDuty (getMinutes tz date) (snd e)); ring.
Qed.

(** C7: an appliance configured with a cycle adds its power to the
    cyclical load of a tick exactly when
    [(minute mod cycle_length) / cycle_length < duty_cycle] holds for the
    minute of the timestamp, and nothing otherwise; the cyclical load is
    the sum of these shares. *)
Theorem cyclical_load_duty_cycle :
  forall (tz : Z) (s : Simulator) (date : Date),
    forallb wholeCycle (appliances (baseConfig s)) = true ->
    (forall (name : string) (a : Appliance.t) (c d acc : Q),
        In (name, a) (appliances (baseConfig s)) ->
        Appliance.cycle a = Some c -> Appliance.dutyCycle a = Some d ->
        cyclicalStep tz date acc (name, a)
        = if dutyOn (getMinutes tz date) (Qfloor c) d
          then acc + Appliance.power a else acc)
    /\ generateCyclicalLoad tz s date
       == Qsum (map (cyclicalShare (getMinutes tz date))
                    (appliances (baseConfig s))).
Proof.
  intros tz s date W. split.
  - intros name a c d acc Hin Ec Ed.
    assert (We : wholeCycle (name, a) = true).
    { rewrite forallb_forall in W. apply W. exact Hin. }
    rewrite (cyclicalStep_duty tz date acc (name, a) We).
    unfold onDuty. cbn [snd]. rewrite Ec, Ed. reflexivity.
  - unfold generateCyclicalLoad.
    rewrite (cyclical_fold tz date _ W 0). ring.
Qed.

Lemma cyclical_load_duty_cycle_witness :
  generateCyclicalLoad Fixture.utc (fst Fixture.fresh) Fixture.july4
  == Qsum (map (cyclicalShare (getMinutes Fixture.utc Fixture.july4))
               (appliances (baseConfig (fst Fixture.fresh)))).
Proof.
  exact (proj2 (cyclical_load_duty_cycle Fixture.utc (fst Fixture.fresh)
                  Fixture.july4 eq_refl)).
Defined.

(** ** The map of active appliances *)

Lemma has_In {V} (k : string) (m : JsMap.t V) :
  JsMap.has k m = true <-> In k (JsMap.keys m).
Proof.
  unfold JsMap.has, JsMap.keys. rewrite existsb_exists, in_map_iff.
  split.
  - intros [e [Hin He]]. apply String.eqb_eq in He. exists e. auto.
  - intros [e [He Hin]]. exists e. split; [exact Hin|].
    apply String.eqb_eq. auto.
Qed.

Lemma has_false {V} (k : string) (m : JsMap.t V) :
  JsMap.has k m = false <-> ~ In k (JsMap.keys m).
Proof.
  rewrite <- has_In. destruct (JsMap.has k m); split; intro H;
    try discriminate; try reflexivity; auto.
  exfalso. apply H. reflexivity.
Qed.

(** A key that is not in the map is set at the end. *)
Lemma set_new {V} (k : string) (v : V) (m : JsMap.t V) :
  JsMap.has k m = false -> JsMap.set k v m = m ++ [(k, v)].
Proof.
  induction m as [|[k' v'] m IH]; intro H; cbn [JsMap.set app].
  - reflexivity.
  - unfold JsMap.has in H. cbn [existsb fst] in H.
    apply orb_false_iff in H. destruct H as [H1 H2].
    rewrite H1. f_equal. apply IH. exact H2.
Qed.

Lemma keys_app {V} (m1 m2 : JsMap.t V) :
  JsMap.keys (m1 ++ m2) = JsMap.keys m1 ++ JsMap.keys m2.
Proof. unfold JsMap.keys. apply map_app. Qed.

Lemma NoDup_snoc {A} (l : list A) (x : A) :
  NoDup l -> ~ In x l -> NoDup (l ++ [x]).
Proof.
  intros Hl Hx. induction Hl as [|y l Hy Hl IH]; cbn [app].
  - constructor; [intros []|constructor].
  - constructor.
    + rewrite in_app_iff. intros [H|[H|[]]]; [auto|].
      apply Hx. left. symmetry. exact H.
    + apply IH. intro H. apply Hx. right. exact H.
Qed.

(** Deleting a key that the entries before it do not hold removes its
    entry there. *)
Lemma delete_middle {V} (k : string) (v : V) (m1 m2 : JsMap.t V) :
  ~ In k (JsMap.keys m1) ->
  JsMap.delete k (m1 ++ (k, v) :: m2) = m1 ++ m2.
Proof.
  induction m1 as [|[k' v'] m1 IH]; intro H; cbn [app JsMap.delete].
  - rewrite String.eqb_refl. reflexivity.
  - destruct (String.eqb_spec k k') as [E|E].
    + exfalso. apply H. left. symmetry. exact E.
    + f_equal. apply IH. intro Hin. apply H. right. exact Hin.
Qed.

Lemma updateLoop_filter (date : Date) (entries : list (string * Activation.t)) :
  forall (kept : list (string * Activation.t)) (acc : Q),
    NoDup (JsMap.keys (kept ++ entries)) ->
    updateLoop date entries (kept ++ entries) acc
    = (fold_left (fun load e => load + Activation.power (snd e))
         (filter (running date) entries) acc,
       kept ++ filter (running date) entries).
Proof.
  induction entries as [|[name a] rest IH]; intros kept acc ND;
    cbn [updateLoop filter].
  - reflexivity.
  - change (running date (name, a)) with (date <? Activation.endTime a)%Z.
    destruct (Z.geb_spec date (Activation.endTime a)) as [G|G].
    + destruct (Z.ltb_spec date (Activation.endTime a)) as [L|L]; [lia|].
      rewrite delete_middle.
      * apply IH. rewrite keys_app in *. cbn [JsMap.keys map fst] in ND.
        apply NoDup_remove_1 in ND. exact ND.
      * rewrite keys_app in ND. cbn [JsMap.keys map fst] in ND.
        apply NoDup_remove_2 in ND. intro H. apply ND.
        apply in_or_app. left. exact H.
    + destruct (Z.ltb_spec date (Activation.endTime a)) as [L|L]; [|lia].
      cbn [fold_left snd].
      replace (kept ++ (name, a) :: rest)
        with ((kept ++ [(name, a)]) ++ rest)
        by (rewrite <- app_assoc; reflexivity).
      rewrite IH.
      * rewrite <- app_assoc. reflexivity.
      * rewrite <- app_assoc. exact ND.
Qed.

Lemma fold_left_Qsum {A} (f : A -> Q) (l : list A) (acc : Q) :
  fold_left (fun load e => load + f e) l acc == acc + Qsum (map f l).
Proof.
  revert acc. induction l as [|x l IH]; intro acc; cbn [fold_left map].
  - unfold Qsum. cbn [fold_right]. ring.
  - rewrite IH, Qsum_cons. ring.
Qed.

Lemma NoDup_keys_filter {V} (f : string * V -> bool) (m : JsMap.t V) :
  NoDup (JsMap.keys m) -> NoDup (JsMap.keys (filter f m)).
Proof.
  induction m as [|e m IH]; intro ND; cbn [filter].
  - exact ND.
  - cbn [JsMap.keys map] in ND. inversion ND as [|k ks Hk Hks]; subst.
    destruct (f e).
    + cbn [JsMap.keys map]. constructor; [|apply IH; exact Hks].
      intro Hin. apply Hk. unfold JsMap.keys in Hin.
      apply in_map_iff in Hin. destruct Hin as [e' [E Hin]].
      apply filter_In in Hin. apply in_map_iff. exists e'. tauto.
    + apply IH. exact Hks.
Qed.

(** What [updateActiveAppliances] returns and leaves in the map. *)
Lemma updateActiveAppliances_spec (date : Date) (w : World) :
  NoDup (JsMap.keys (activeAppliances (fst w))) ->
  activeAppliances (fst (snd (updateActiveAppliances date w)))
  = filter (running date) (activeAppliances (fst w))
  /\ fst (updateActiveAppliances date w)
     = fold_left (fun load e => load + Activation.power (snd e))
         (filter (running date) (activeAppliances (fst w))) 0
  /\ snd (snd (updateActiveAppliances date w)) = snd w.
Proof.
  intro ND. unfold updateActiveAppliances. run.
  pose proof (updateLoop_filter date (activeAppliances (fst w)) [] 0 ND) as E.
  cbn [app] in E. rewrite E. run. unfold ret. cbn [fst snd activeAppliances
    set_activeAppliances]. auto.
Qed.

(** What one step of [startOccasionalAppliances] does to the map. *)
Lemma startOccasional_spec tz random (date : Date) (tm : Q)
  (name : string) (appliance : Occasional.t) (w : World) :
  let m := activeAppliances (fst w) in
  let m' := activeAppliances
    (fst (snd (startOccasional tz random date tm (name, appliance) w))) in
  m' = m
  \/ (JsMap.has name m = false
      /\ m' = m ++ [(name,
           {| Activation.power := Occasional.power appliance;
              Activation.endTime :=
                (date + Occasional.duration appliance * 60000)%Z |})]).
Proof.
  cbn zeta. unfold startOccasional. run. unfold Math_random. cbn [fst snd].
  destruct (Qltb _ _); cbn [andb]; [|left; reflexivity].
  destruct (JsMap.has name (activeAppliances (fst w))) eqn:H; cbn [negb].
  - left. reflexivity.
  - right. split; [reflexivity|].
    cbn [update fst snd set_activeAppliances activeAppliances].
    apply set_new. exact H.
Qed.

Lemma startOccasional_NoDup tz random (date : Date) (tm : Q)
  (e : string * Occasional.t) (w : World) :
  NoDup (JsMap.keys (activeAppliances (fst w))) ->
  NoDup (JsMap.keys (activeAppliances
    (fst (snd (startOccasional tz random date tm e w))))).
Proof.
  intro ND. destruct e as [name appliance].
  destruct (startOccasional_spec tz random date tm name appliance w)
    as [E|[H E]]; rewrite E.
  - exact ND.
  - rewrite keys_app. apply NoDup_snoc; [exact ND|].
    apply has_false. exact H.
Qed.

Lemma forEach_invariant {A} (P : World -> Prop) (f : A -> M unit) :
  (forall x w, P w -> P (snd (f x w))) ->
  forall l w, P w -> P (snd (forEach f l w)).
Proof.
  intros Hf l. induction l as [|x l IH]; intros w Hw; cbn [forEach].
  - exact Hw.
  - rewrite bind_run. apply IH. apply Hf. exact Hw.
Qed.

Lemma startOccasionalAppliances_NoDup config tz random (date : Date) (tm : Q)
  (w : World) :
  NoDup (JsMap.keys (activeAppliances (fst w))) ->
  NoDup (JsMap.keys (activeAppliances
    (fst (snd (startOccasionalAppliances config tz random date tm w))))).
Proof.
  unfold startOccasionalAppliances.
  apply (forEach_invariant
           (fun w => NoDup (JsMap.keys (activeAppliances (fst w))))).
  intros x w0. apply startOccasional_NoDup.
Qed.

(** ** What a tick leaves unchanged *)

Lemma frame_refl (s : Simulator) : frame s s.
Proof. unfold frame. repeat split. Qed.

Lemma frame_trans (s1 s2 s3 : Simulator) :
  frame s1 s2 -> frame s2 s3 -> frame s1 s3.
Proof.
  unfold frame. intros H1 H2.
  destruct H1 as (A1 & B1 & C1 & D1 & E1 & F1).
  destruct H2 as (A2 & B2 & C2 & D2 & E2 & F2).
  repeat split; congruence.
Qed.

Lemma frame_set_activeAppliances m (s : Simulator) :
  frame s (set_activeAppliances m s).
Proof. unfold frame. repeat split. Qed.

Lemma startOccasional_frame tz random (date : Date) (tm : Q)
  (e : string * Occasional.t) (w : World) :
  frame (fst w) (fst (snd (startOccasional tz random date tm e w))).
Proof.
  destruct e as [name appliance]. unfold startOccasional. run.
  unfold Math_random. cbn [fst snd].
  destruct (_ && _); cbn [update ret fst snd].
  - apply frame_set_activeAppliances.
  - apply frame_refl.
Qed.

Lemma startOccasionalAppliances_frame config tz random (date : Date) (tm : Q)
  (w : World) :
  frame (fst w)
        (fst (snd (startOccasionalAppliances config tz random date tm w))).
Proof.
  unfold startOccasionalAppliances.
  generalize (occasionalAppliances config). intro l. revert w.
  induction l as [|e l IH]; intro w; cbn [forEach].
  - apply frame_refl.
  - rewrite bind_run.
    eapply frame_trans; [apply startOccasional_frame | apply IH].
Qed.

(** The probabilistic load only draws. *)
Lemma probabilisticLoop_this random (tm : Q) (l : list (string * Appliance.t)) :
  forall (acc : Q) (w : World),
    fst (snd (probabilisticLoop random tm l acc w)) = fst w.
Proof.
  induction l as [|e l IH]; intros acc w; cbn [probabilisticLoop].
  - reflexivity.
  - rewrite bind_run, IH. unfold probabilisticStep.
    destruct (_ && _); [|reflexivity].
    run. unfold Math_random. cbn [fst snd].
    destruct (Qltb _ _); reflexivity.
Qed.

Lemma generateProbabilisticLoad_this random (date : Date) (tm : Q) (w : World) :
  fst (snd (generateProbabilisticLoad random date tm w)) = fst w.
Proof.
  unfold generateProbabilisticLoad. run. apply probabilisticLoop_this.
Qed.

Lemma updateActiveAppliances_frame (date : Date) (w : World) :
  frame (fst w) (fst (snd (updateActiveAppliances date w))).
Proof.
  unfold updateActiveAppliances. run.
  destruct (updateLoop _ _ _ _) as [load m]. run.
  apply frame_set_activeAppliances.
Qed.

Lemma combinedLoad_frame config tz random (ts : Date) (w : World) :
  frame (fst w) (fst (snd (combinedLoad config tz random ts w))).
Proof.
  unfold combinedLoad. run.
  eapply frame_trans; [apply startOccasionalAppliances_frame|].
  eapply frame_trans; [|apply updateActiveAppliances_frame].
  rewrite generateProbabilisticLoad_this. apply frame_refl.
Qed.

Lemma totalActivePower_frame config tz random (ts : Date) (w : World) :
  frame (fst w) (fst (snd (totalActivePower config tz random ts w))).
Proof.
  unfold totalActivePower. run. unfold Math_random. cbn [fst snd].
  apply combinedLoad_frame.
Qed.

(** The value of [totalActivePower] in terms of the combined load and
    the draw that follows it. *)
Lemma totalActivePower_value config tz random (ts : Date) (w : World) :
  fst (totalActivePower config tz random ts w)
  = Qmax (fst (combinedLoad config tz random ts w)
          * noiseOf (random (snd (snd (combinedLoad config tz random ts w)))))
         (baseline (baseConfig (fst w)) * 0.5).
Proof.
  unfold totalActivePower. run. unfold Math_random. cbn [fst snd].
  destruct (combinedLoad_frame config tz random ts w) as (_ & _ & B & _).
  rewrite B. reflexivity.
Qed.

(** ** The shape of a tick *)

(** The world in which [generateMeterReading] calls [checkAnomalies]:
    the power is computed, the voltage drawn and the energy added. *)
Lemma generateMeterReading_run config tz random tanAcos (ts : Date)
  (w : World) :
  let tp := totalActivePower config tz random ts w in
  let s1 := fst (snd tp) in
  let energy := energy_kwh s1 + energy_this_minute config (fst tp) in
  let w2 := (set_energy_kwh energy s1, S (snd (snd tp))) in
  let ca := checkAnomalies config random w2 in
  let g := generateMeterReading config tz random tanAcos ts w in
  snd g = snd ca
  /\ Reading.timestamp (fst g) = ts
  /\ Reading.energy_kwh (fst g) = toFixed 4 energy
  /\ Reading.anomaly_type (fst g)
     = match fst ca with Some a => Anomaly.type a | None => None end
  /\ Reading.global_active_power (fst g)
     = match fst ca with
       | Some a =>
           match Anomaly.multiplier a with
           | Some m => toFixed 4 (fst tp / 1000) * m
           | None => toFixed 4 (fst tp / 1000)
           end
       | None => toFixed 4 (fst tp / 1000)
       end.
Proof.
  cbn zeta. unfold generateMeterReading. run.
  unfold Math_random at 1 2 3 4 5. cbn [fst snd].
  destruct (fst (checkAnomalies config random _)) as [a|]; unfold ret;
    cbn [fst snd].
  - unfold applyAnomaly, set_anomaly_type.
    destruct (Anomaly.multiplier a), (Anomaly.voltageMultiplier a);
      cbn; repeat split; reflexivity.
  - cbn. repeat split; reflexivity.
Qed.

(** ** The noise and the floor *)



(** [checkAnomalies] touches the two anomaly fields only. *)
Lemma checkAnomalies_keeps config random (w : World) :
  let s' := fst (snd (checkAnomalies config random w)) in
  userId s' = userId (fst w)
  /\ baseConfig s' = baseConfig (fst w)
  /\ energy_kwh s' = energy_kwh (fst w)
  /\ activeAppliances s' = activeAppliances (fst w).
Proof.
  cbn zeta. unfold checkAnomalies. run.
  destruct (anomalyRemaining (fst w) >? 0)%Z.
  - run. repeat split; reflexivity.
  - run. unfold Math_random at 1. cbn [fst snd].
    destruct (Qltb _ _).
    + run. repeat split; reflexivity.
    + repeat split; reflexivity.
Qed.

Lemma combinedLoad_activeAppliances config tz random (ts : Date) (w : World) :
  NoDup (JsMap.keys (activeAppliances (fst w))) ->
  activeAppliances (fst (snd (combinedLoad config tz random ts w)))
  = filter (running ts)
      (activeAppliances
         (fst (snd (startOccasionalAppliances config tz random ts
                      (getTimePatternMultiplier config tz ts) w)))).
Proof.
  intro ND. unfold combinedLoad. run.
  set (w1 := snd (startOccasionalAppliances config tz random ts
                    (getTimePatternMultiplier config tz ts) w)).
  set (w2 := snd (generateProbabilisticLoad random ts
                    (getTimePatternMultiplier config tz ts) w1)).
  assert (E : fst w2 = fst w1) by apply generateProbabilisticLoad_this.
  assert (ND1 : NoDup (JsMap.keys (activeAppliances (fst w2)))).
  { rewrite E. apply startOccasionalAppliances_NoDup. exact ND. }
  destruct (updateActiveAppliances_spec ts w2 ND1) as [H _].
  rewrite H, E. reflexivity.
Qed.

Lemma generateMeterReading_activeAppliances config tz random tanAcos
  (ts : Date) (w : World) :
  activeAppliances
    (fst (snd (generateMeterReading config tz random tanAcos ts w)))
  = activeAppliances (fst (snd (combinedLoad config tz random ts w))).
Proof.
  destruct (generateMeterReading_run config tz random tanAcos ts w)
    as [E _]. cbn zeta in E. rewrite E.
  match goal with
  | |- context [checkAnomalies config random ?w2] =>
      destruct (checkAnomalies_keeps config random w2) as (_ & _ & _ & A)
  end.
  cbn zeta in A. rewrite A. cbn [fst set_energy_kwh activeAppliances].
  unfold totalActivePower. run. unfold Math_random. reflexivity.
Qed.

(** C8: the map of active appliances never holds two activations of one
    name.  A step of [startOccasionalAppliances] either leaves the map as
    it is or, when the name has no entry, appends one activation whose
    end time is the timestamp plus the configured duration in minutes;
    [updateActiveAppliances] keeps exactly the activations whose end time
    is after the timestamp, removes those whose end time is at or before
    it, and returns the sum of the powers of those kept; a whole tick
    preserves the uniqueness of names. *)
Theorem occasional_activations :
  forall (config : Config) (tz : Z) (random : nat -> Q) (tanAcos : Q -> Q)
         (date : Date) (tm : Q) (w : World),
    NoDup (JsMap.keys (activeAppliances (fst w))) ->
    (forall (name : string) (appliance : Occasional.t),
        let m := activeAppliances (fst w) in
        let m' := activeAppliances
          (fst (snd (startOccasional tz random date tm (name, appliance) w))) in
        (m' = m
         \/ (JsMap.has name m = false
             /\ m' = m ++ [(name,
                  {| Activation.power := Occasional.power appliance;
                     Activation.endTime :=
                       (date + Occasional.duration appliance * 60000)%Z |})]))
        /\ NoDup (JsMap.keys m'))
    /\ NoDup (JsMap.keys (activeAppliances
         (fst (snd (startOccasionalAppliances config tz random date tm w)))))
    /\ activeAppliances (fst (snd (updateActiveAppliances date w)))
       = filter (fun e => (date <? Activation.endTime (snd e))%Z)
                (activeAppliances (fst w))
    /\ fst (updateActiveAppliances date w)
       == Qsum (map (fun e => Activation.power (snd e))
                    (activeAppliances
                       (fst (snd (updateActiveAppliances date w)))))
    /\ NoDup (JsMap.keys (activeAppliances
         (fst (snd (generateMeterReading config tz random tanAcos date w))))).
Proof.
  intros config tz random tanAcos date tm w ND.
  destruct (updateActiveAppliances_spec date w ND) as (Hm & Hl & _).
  split; [|split; [|split; [|split]]].
  - intros name appliance. cbn zeta. split.
    + apply startOccasional_spec.
    + apply startOccasional_NoDup. exact ND.
  - apply startOccasionalAppliances_NoDup. exact ND.
  - exact Hm.
  - rewrite Hl, Hm, fold_left_Qsum. ring.
  - rewrite generateMeterReading_activeAppliances,
      combinedLoad_activeAppliances by exact ND.
    apply NoDup_keys_filter, startOccasionalAppliances_NoDup. exact ND.
Qed.

Lemma occasional_activations_witness :
  activeAppliances
    (fst (snd (updateActiveAppliances Fixture.july4 Fixture.busy)))
  = [ ("microwave", Activation.mk 1000 (Fixture.july4 + 60000)%Z) ].
Proof.
  assert (ND : NoDup (JsMap.keys (activeAppliances (fst Fixture.busy)))).
  { cbn. repeat constructor; cbn; intuition discriminate. }
  pose proof (occasional_activations Fixture.config Fixture.utc Fixture.half
                Fixture.tanAcos Fixture.july4 1 Fixture.busy ND)
    as (_ & _ & H & _).
  rewrite H. reflexivity.
Defined.

(** ** Batches of readings *)

(** The loop returns when every timestamp it reaches is in the range of
    [Date]; the readings are added to the ones it was given. *)
Lemma generateReadingsLoop_returns config tz random tanAcos (n : nat) :
  forall (t : Date) (acc : list Reading.t) (w : World),
    (forall i : nat, (i < n)%nat ->
       validTime (t + Z.of_nat i
                      * (sampleInterval (simulation config) * 1000))%Z
       = true) ->
    exists (rs : list Reading.t) (w' : World),
      generateReadingsLoop config tz random tanAcos n t acc w
      = Some (acc ++ rs, w')
      /\ map Reading.timestamp rs
         = map (fun i => (t + Z.of_nat i
                              * (sampleInterval (simulation config) * 1000))%Z)
             (seq 0 n).
Proof.
  induction n as [|n IH]; intros t acc w V; cbn [generateReadingsLoop].
  - exists [], w. rewrite app_nil_r. split; reflexivity.
  - pose proof (V O (Nat.lt_0_succ n)) as V0.
    replace (t + Z.of_nat 0 * _)%Z with t in V0 by lia. rewrite V0.
    destruct (generateMeterReading config tz random tanAcos t w)
      as [r w1] eqn:G.
    destruct (IH (t + sampleInterval (simulation config) * 1000)%Z
                (acc ++ [r]) w1) as (rs & w' & E & T).
    { intros i Hi. rewrite <- (V (S i)) by lia. f_equal. lia. }
    exists (r :: rs), w'. split.
    + rewrite E, <- app_assoc. reflexivity.
    + cbn [map seq].
      destruct (generateMeterReading_run config tz random tanAcos t w)
        as (_ & Ts & _). cbn zeta in Ts. rewrite G in Ts. cbn [fst] in Ts.
      rewrite Ts, T. apply (f_equal2 cons); [lia|].
      rewrite <- seq_shift, map_map. apply map_ext. intro i. lia.
Qed.

(** The loop throws when a timestamp it reaches is out of the range. *)
Lemma generateReadingsLoop_throws config tz random tanAcos (n : nat) :
  forall (t : Date) (acc : list Reading.t) (w : World) (i : nat),
    (i < n)%nat ->
    validTime (t + Z.of_nat i
                   * (sampleInterval (simulation config) * 1000))%Z
    = false ->
    generateReadingsLoop config tz random tanAcos n t acc w = None.
Proof.
  induction n as [|n IH]; intros t acc w i Hi V; [lia|].
  cbn [generateReadingsLoop].
  destruct (validTime t) eqn:V0; [|reflexivity].
  destruct (generateMeterReading config tz random tanAcos t w) as [r w1].
  destruct i as [|i].
  - replace (t + Z.of_nat 0 * _)%Z with t in V by lia. congruence.
  - apply (IH _ _ _ i); [lia|]. rewrite <- V. f_equal. lia.
Qed.

(** C9: while every timestamp [startTime + i * sampleInterval] seconds
    for [i < count] is in the range of [Date],
    [generateReadings(count, startTime)] returns exactly [count]
    readings; the reading of index [i] is generated for that timestamp,
    so the timestamps increase strictly and two neighbours are one
    sample interval apart.  When one of these timestamps is out of the
    range, the call throws and returns no list. *)
Theorem generateReadings_timestamps :
  forall (config : Config) (tz : Z) (random : nat -> Q) (tanAcos : Q -> Q)
         (count : Z) (startTime : Date) (w : World),
    (0 <= count)%Z ->
    (0 < sampleInterval (simulation config))%Z ->
    let step := (sampleInterval (simulation config) * 1000)%Z in
    let result :=
      generateReadings config tz random tanAcos count startTime w in
    ((forall i : Z, (0 <= i < count)%Z ->
        validTime (startTime + i * step) = true) ->
     exists (readings : list Reading.t) (w' : World),
       result = Some (readings, w')
       /\ let at_ := fun i => nth_error (map Reading.timestamp readings) i in
          Z.of_nat (List.length readings) = count
          /\ (forall i : nat, (Z.of_nat i < count)%Z ->
                at_ i = Some (startTime + Z.of_nat i * step)%Z)
          /\ (forall (i j : nat) (ti tj : Date),
                (i < j)%nat -> at_ i = Some ti -> at_ j = Some tj ->
                (ti < tj)%Z)
          /\ (forall (i : nat) (ti tj : Date),
                at_ i = Some ti -> at_ (S i) = Some tj ->
                (tj - ti = step)%Z))
    /\ ((exists i : Z, (0 <= i < count)%Z
                       /\ validTime (startTime + i * step) = false) ->
        result = None).
Proof.
  intros config tz random tanAcos count startTime w Hc Hs. cbn zeta.
  unfold generateReadings. split.
  - intro V.
    destruct (generateReadingsLoop_returns config tz random tanAcos
                (Z.to_nat count) startTime [] w) as (rs & w' & R & E).
    { intros i Hi. apply V. lia. }
    cbn [app] in R. exists rs, w'. split; [exact R|].
    set (step := (sampleInterval (simulation config) * 1000)%Z) in *.
    assert (L : List.length rs = Z.to_nat count).
    { rewrite <- (length_map Reading.timestamp), E, length_map, length_seq.
      reflexivity. }
    assert (N : forall i t,
               nth_error (map Reading.timestamp rs) i = Some t ->
               (i < Z.to_nat count)%nat
               /\ t = (startTime + Z.of_nat i * step)%Z).
    { intros i t H. rewrite E, nth_error_map, nth_error_seq in H.
      destruct (Nat.ltb_spec i (Z.to_nat count)) as [Hi|Hi];
        cbn in H; [|discriminate].
      split; [exact Hi|]. congruence. }
    split; [rewrite L; lia|]. split; [|split].
    + intros i Hi. rewrite E, nth_error_map, nth_error_seq.
      destruct (Nat.ltb_spec i (Z.to_nat count)); [reflexivity|lia].
    + intros i j ti tj Hij Hi Hj.
      destruct (N i ti Hi) as [_ ->]. destruct (N j tj Hj) as [_ ->].
      assert (Z.of_nat i * step < Z.of_nat j * step)%Z; [|lia].
      apply Z.mul_lt_mono_pos_r; lia.
    + intros i ti tj Hi Hj.
      destruct (N i ti Hi) as [_ ->]. destruct (N (S i) tj Hj) as [_ ->].
      lia.
  - intros (i & Hi & V).
    apply (generateReadingsLoop_throws config tz random tanAcos
             (Z.to_nat count) startTime [] w (Z.to_nat i)); [lia|].
    rewrite Z2Nat.id by lia. exact V.
Qed.

Lemma generateReadings_timestamps_witness :
  exists (readings : list Reading.t) (w' : World),
    generateReadings Fixture.config Fixture.utc Fixture.half
      Fixture.tanAcos 3 Fixture.july4 Fixture.fresh
    = Some (readings, w')
    /\ Z.of_nat (List.length readings) = 3%Z.
Proof.
  assert (C : (0 <= 3)%Z) by discriminate.
  assert (S : (0 < sampleInterval (simulation Fixture.config))%Z)
    by reflexivity.
  assert (V : forall i : Z, (0 <= i < 3)%Z ->
            validTime
              (Fixture.july4
               + i * (sampleInterval (simulation Fixture.config) * 1000))%Z
            = true).
  { intros i Hi. unfold validTime. apply andb_true_intro.
    split; apply Z.leb_le;
      unfold maxTime, Fixture.july4, Fixture.config;
      cbn [ConfigJs.config simulation sampleInterval]; lia. }
  destruct (proj1 (generateReadings_timestamps Fixture.config Fixture.utc
                     Fixture.half Fixture.tanAcos 3 Fixture.july4
                     Fixture.fresh C S) V)
    as (readings & w' & R & L & _).
  exists readings, w'. split; [exact R | exact L].
Defined.

(** Two readings from the last millisecond of the range of [Date]: the
    second timestamp is no valid date, and no list is returned. *)
Example generateReadings_at_the_end_of_time :
  generateReadings Fixture.config Fixture.utc Fixture.half Fixture.tanAcos
    2 maxTime Fixture.fresh = None
  /\ exists r,
       generateReadings Fixture.config Fixture.utc Fixture.half
         Fixture.tanAcos 1 maxTime Fixture.fresh = Some r.
Proof. split; [vm_compute; reflexivity | eexists; vm_compute; reflexivity]. Qed.

(** ** The cumulative energy *)

(** Two numbers further apart than one unit of the last digit are
    printed in their order. *)
Lemma toFixed_gap (d : nat) (x y : Q) :
  x + 1 / pow10 d < y -> toFixed d x < toFixed d y.
Proof.
  intro H.
  pose proof (toFixed_close d x) as Hx.
  pose proof (toFixed_close d y) as Hy.
  apply Qabs_Qle_condition in Hx. apply Qabs_Qle_condition in Hy.
  assert (E : 1 / pow10 d == (1 # 2) / pow10 d + (1 # 2) / pow10 d).
  { pose proof (pow10_pos d). field. lra. }
  rewrite E in H. lra.
Qed.

(** A tick changes neither the profile nor the identity. *)
Lemma generateMeterReading_baseConfig config tz random tanAcos (ts : Date)
  (w : World) :
  baseConfig (fst (snd (generateMeterReading config tz random tanAcos ts w)))
  = baseConfig (fst w).
Proof.
  destruct (generateMeterReading_run config tz random tanAcos ts w)
    as [E _]. cbn zeta in E. rewrite E.
  match goal with
  | |- context [checkAnomalies config random ?w2] =>
      destruct (checkAnomalies_keeps config random w2) as (_ & B & _)
  end.
  cbn zeta in B. rewrite B. cbn [fst set_energy_kwh baseConfig].
  destruct (totalActivePower_frame config tz random ts w) as (_ & _ & B' & _).
  exact B'.
Qed.

(** The energy after a tick is the energy before plus the energy of the
    tick's power, whatever [checkAnomalies] does afterwards. *)
Lemma generateMeterReading_energy config tz random tanAcos (ts : Date)
  (w : World) :
  energy_kwh (fst (snd (generateMeterReading config tz random tanAcos ts w)))
  = energy_kwh (fst w)
    + energy_this_minute config (fst (totalActivePower config tz random ts w)).
Proof.
  destruct (generateMeterReading_run config tz random tanAcos ts w)
    as [E _]. cbn zeta in E. rewrite E.
  match goal with
  | |- context [checkAnomalies config random ?w2] =>
      destruct (checkAnomalies_keeps config random w2) as (_ & _ & B & _)
  end.
  cbn zeta in B. rewrite B. cbn [fst set_energy_kwh energy_kwh].
  destruct (totalActivePower_frame config tz random ts w)
    as (_ & _ & _ & B' & _).
  rewrite B'. reflexivity.
Qed.

(** The constructor with [config.js]: a profile of the configuration,
    a name that is no property, which falls back to [normal], and a
    name that every object inherits. *)
Example constructor_profiles :
  constructor ConfigJs.config "550e8400" "normal" = Some (fst Fixture.fresh)
  /\ option_map baseConfig (constructor ConfigJs.config "550e8400" "holiday")
     = Some ConfigJs.normalProfile
  /\ constructor ConfigJs.config "550e8400" "toString" = None.
Proof. repeat split; reflexivity. Qed.

(** Every profile of [config.js] has a baseline of 40 watts at least. *)
Lemma constructor_baseline (userId profile : string) (s : Simulator) :
  constructor ConfigJs.config userId profile = Some s ->
  40 <= baseline (baseConfig s).
Proof.
  unfold constructor, baseConsumptionOf.
  destruct (String.eqb profile "normal");
    [intro E; injection E as <-; discriminate|].
  cbn [ConfigJs.config baseConsumption entry].
  destruct (String.eqb profile "high");
    [intro E; injection E as <-; discriminate|].
  destruct (String.eqb profile "low");
    [intro E; injection E as <-; discriminate|].
  destruct (String.eqb profile "vacation");
    [intro E; injection E as <-; discriminate|].
  destruct (inherited profile); [discriminate|].
  intro E; injection E as <-; discriminate.
Qed.

(** With [config.js], a tick of at least 20 watts adds more than a unit
    of the fourth digit to the energy. *)
Lemma energy_this_minute_lower (p : Q) :
  20 <= p -> 1 / pow10 4 < energy_this_minute ConfigJs.config p.
Proof.
  intro H. unfold energy_this_minute.
  cbn [ConfigJs.config simulation sampleInterval].
  assert (E : 1 / pow10 4 == 1 # 10000) by reflexivity.
  rewrite E.
  setoid_replace (p / 1000 * (inject_Z 60 / 3600)) with (p * (1 # 60000))
    by (unfold inject_Z; field).
  lra.
Qed.

Lemma readingsAt_increasing tz random tanAcos (tss : list Date) :
  forall w : World,
    40 <= baseline (baseConfig (fst w)) ->
    increasing
      (toFixed 4 (energy_kwh (fst w))
       :: map Reading.energy_kwh
            (fst (readingsAt ConfigJs.config tz random tanAcos tss w))).
Proof.
  induction tss as [|ts rest IH]; intros w Hb; cbn [readingsAt].
  - exact I.
  - rewrite !bind_run. unfold ret. cbn [fst map].
    set (g := generateMeterReading ConfigJs.config tz random tanAcos ts w).
    assert (Hb' : 40 <= baseline (baseConfig (fst (snd g)))).
    { unfold g. rewrite generateMeterReading_baseConfig. exact Hb. }
    specialize (IH (snd g) Hb').
    destruct (generateMeterReading_run ConfigJs.config tz random tanAcos ts w)
      as (_ & _ & En & _). cbn zeta in En. fold g in En.
    pose proof (generateMeterReading_energy ConfigJs.config tz random tanAcos
                  ts w) as Ee. fold g in Ee.
    destruct (totalActivePower_frame ConfigJs.config tz random ts w)
      as (_ & _ & _ & B' & _).
    rewrite B', <- Ee in En. rewrite En.
    cbn [increasing]. split; [|exact IH].
    apply toFixed_gap. rewrite Ee.
    assert (L : 1 / pow10 4
                < energy_this_minute ConfigJs.config
                    (fst (totalActivePower ConfigJs.config tz random ts w))).
    { apply energy_this_minute_lower. rewrite totalActivePower_value.
      eapply Qle_trans; [|apply Q.le_max_r]. lra. }
    lra.
Qed.

(** C10: for a simulator of any profile of [config.js], each tick adds
    to the cumulative energy the tick's power before any anomaly, in kW,
    times [sampleInterval / 3600] hours; that power is at least half the
    baseline, so the addition is positive; the anomaly of the tick scales
    the reported power only; and the energy reported in successive
    readings increases strictly. *)
Theorem energy_strictly_increasing :
  forall (tz : Z) (random : nat -> Q) (tanAcos : Q -> Q)
         (userId profile : string) (made : Simulator) (w : World),
    constructor ConfigJs.config userId profile = Some made ->
    baseConfig (fst w) = baseConfig made ->
    let config := ConfigJs.config in
    (forall ts : Date,
        let power := fst (totalActivePower config tz random ts w) in
        let added :=
          power / 1000
          * (inject_Z (sampleInterval (simulation config)) / 3600) in
        let g := generateMeterReading config tz random tanAcos ts w in
        energy_kwh (fst (snd g)) = energy_kwh (fst w) + added
        /\ baseline (baseConfig (fst w)) * 0.5 <= power
        /\ 0 < added
        /\ Reading.energy_kwh (fst g) = toFixed 4 (energy_kwh (fst (snd g)))
        /\ toFixed 4 (energy_kwh (fst w)) < Reading.energy_kwh (fst g)
        /\ Reading.global_active_power (fst g)
           = match anomalyOfTick config tz random ts w with
             | Some a =>
                 match Anomaly.multiplier a with
                 | Some m => toFixed 4 (power / 1000) * m
                 | None => toFixed 4 (power / 1000)
                 end
             | None => toFixed 4 (power / 1000)
             end)
    /\ (forall tss : list Date,
          increasing
            (toFixed 4 (energy_kwh (fst w))
             :: map Reading.energy_kwh
                  (fst (readingsAt config tz random tanAcos tss w)))).
Proof.
  intros tz random tanAcos userId profile made w Hc Hp. cbn zeta.
  assert (Hb : 40 <= baseline (baseConfig (fst w))).
  { rewrite Hp. exact (constructor_baseline userId profile made Hc). }
  split; [|intro tss; apply readingsAt_increasing; exact Hb].
  intro ts.
  destruct (generateMeterReading_run ConfigJs.config tz random tanAcos ts w)
    as (_ & _ & En & _ & Ep). cbn zeta in En, Ep.
  pose proof (generateMeterReading_energy ConfigJs.config tz random tanAcos
                ts w) as Ee.
  destruct (totalActivePower_frame ConfigJs.config tz random ts w)
    as (_ & _ & _ & B' & _).
  assert (Hfloor : baseline (baseConfig (fst w)) * 0.5
                   <= fst (totalActivePower ConfigJs.config tz random ts w)).
  { rewrite totalActivePower_value. apply Q.le_max_r. }
  assert (L : 1 / pow10 4
              < energy_this_minute ConfigJs.config
                  (fst (totalActivePower ConfigJs.config tz random ts w))).
  { apply energy_this_minute_lower. lra. }
  assert (U : 0 < 1 / pow10 4) by reflexivity.
  split; [exact Ee|]. split; [exact Hfloor|].
  split; [unfold energy_this_minute in L; lra|].
  rewrite B', <- Ee in En.
  split; [exact En|]. split; [|exact Ep].
  rewrite En. apply toFixed_gap. rewrite Ee. lra.
Qed.

Lemma energy_strictly_increasing_witness :
  increasing
    (toFixed 4 (energy_kwh (fst Fixture.fresh))
     :: map Reading.energy_kwh
          (fst (readingsAt ConfigJs.config Fixture.utc Fixture.half
                  Fixture.tanAcos
                  [Fixture.july4; (Fixture.july4 + 60000)%Z] Fixture.fresh))).
Proof.
  exact (proj2 (energy_strictly_increasing Fixture.utc Fixture.half
                  Fixture.tanAcos "550e8400" "normal" (fst Fixture.fresh)
                  Fixture.fresh eq_refl eq_refl)
               [Fixture.july4; (Fixture.july4 + 60000)%Z]).
Defined.

(** ** The anomaly process *)

(** While an anomaly is active, [checkAnomalies] makes no draw: it
    counts down and returns the anomaly held. *)
Lemma checkAnomalies_active config random (w : World) :
  (0 < anomalyRemaining (fst w))%Z ->
  checkAnomalies config random w
  = (anomaly (fst w),
     (set_anomalyRemaining (anomalyRemaining (fst w) - 1) (fst w), snd w)).
Proof.
  intro H. unfold checkAnomalies. run.
  destruct (Z.gtb_spec (anomalyRemaining (fst w)) 0) as [_|G]; [|lia].
  run. reflexivity.
Qed.


(** When none is active and the draw is below the probability, the
    anomaly picked by the next draw is returned for this reading already,
    and the counter is set to its whole duration. *)
Lemma checkAnomalies_start config random (w : World) :
  (anomalyRemaining (fst w) <= 0)%Z ->
  random (snd w) < anomalies_probability (anomalies config) * 1.5 ->
  let n := List.length (JsMap.keys (types (anomalies config))) in
  let a := anomalyAt config
             (floor (random (S (snd w)) * inject_Z (Z.of_nat n))) in
  let r := checkAnomalies config random w in
  fst r = Some a
  /\ anomaly (fst (snd r)) = Some a
  /\ anomalyRemaining (fst (snd r))
     = match Anomaly.duration a with Some d => d | None => 0%Z end
  /\ snd (snd r) = S (S (snd w)).
Proof.
  intros H Hr. cbn zeta. unfold checkAnomalies. run.
  destruct (Z.gtb_spec (anomalyRemaining (fst w)) 0) as [G|_]; [lia|].
  rewrite bind_run. unfold Math_random. cbn [fst snd].
  apply Qltb_lt in Hr. rewrite Hr. run.
  repeat split; reflexivity.
Qed.

(** From a counter of [n], the next [n] calls all return the anomaly
    held, and leave the counter at 0. *)
Lemma checks_active config random (n : nat) :
  forall w : World,
    anomalyRemaining (fst w) = Z.of_nat n ->
    let r := checks config random n w in
    fst r = repeat (anomaly (fst w)) n
    /\ anomalyRemaining (fst (snd r)) = 0%Z
    /\ anomaly (fst (snd r)) = anomaly (fst w)
    /\ snd (snd r) = snd w.
Proof.
  induction n as [|n IH]; intros w H; cbn zeta; cbn [checks].
  - unfold ret. cbn [fst snd repeat]. auto.
  - rewrite !bind_run, checkAnomalies_active by lia. cbn [fst snd].
    specialize (IH (set_anomalyRemaining (anomalyRemaining (fst w) - 1) (fst w),
                    snd w)).
    cbn [fst snd set_anomalyRemaining anomalyRemaining anomaly] in IH.
    destruct (IH ltac:(lia)) as (A & B & C & D).
    unfold ret. cbn [fst snd repeat]. rewrite A. auto.
Qed.

(** C2: on the anomaly [voltageSpike], whose configured duration is 1,
    two consecutive readings are scaled, the one of the tick that
    activates it and the one after; the third is not. *)
Theorem anomaly_lasts_duration_plus_one :
  exists readings : list Reading.t,
    option_map fst
      (generateReadings ConfigJs.config Fixture.utc Fixture.spike
         Fixture.tanAcos 4 Fixture.july4 Fixture.fresh)
    = Some readings
    /\ entry "voltageSpike" (types (anomalies ConfigJs.config))
       = Some (AnomalyType.mk None (Some 1.3) 1)
    /\ map Reading.anomaly_type readings
       = [Some "voltageSpike"; Some "voltageSpike"; None; None]
    /\ map (fun r => Qred (Reading.voltage r)) readings
       = [299; 299; 230; 230].
Proof.
  eexists. split; [vm_compute; reflexivity|].
  vm_compute. repeat split; reflexivity.
Qed.

(** The same for every anomaly: activated with a duration of [d]
    readings, it is returned by the activating call of [checkAnomalies]
    and by each of the next [d] calls, [d + 1] in all, before the
    counter is back at 0. *)
Lemma anomaly_returned_duration_plus_one config random (w : World) (d : nat) :
  (anomalyRemaining (fst w) <= 0)%Z ->
  random (snd w) < anomalies_probability (anomalies config) * 1.5 ->
  let n := List.length (JsMap.keys (types (anomalies config))) in
  let a := anomalyAt config
             (floor (random (S (snd w)) * inject_Z (Z.of_nat n))) in
  Anomaly.duration a = Some (Z.of_nat d) ->
  let r := checks config random (S d) w in
  fst r = repeat (Some a) (S d)
  /\ anomalyRemaining (fst (snd r)) = 0%Z.
Proof.
  intros H Hr. cbn zeta. intro Hd. cbn [checks]. rewrite !bind_run.
  destruct (checkAnomalies_start config random w H Hr) as (A & B & C & D).
  cbn zeta in A, B, C, D. rewrite Hd in C.
  destruct (checks_active config random d
              (snd (checkAnomalies config random w)) C) as (A' & B' & _).
  cbn zeta in A', B'. unfold ret. cbn [fst snd repeat].
  rewrite A, A', B. auto.
Qed.

(** ** The real-time power state *)

Module PowerEngineProps.
Import PowerEngine.

Lemma interactiveKw_sum catalog (l : list ApplianceState) :
  interactiveKw catalog l
  == Qsum (map (fun st => ratedWatts catalog (appliance_id st))
               (filter is_on l)) / 1000.
Proof.
  unfold interactiveKw.
  assert (E : fold_right
                (fun st acc =>
                   if is_on st then ratedWatts catalog (appliance_id st) + acc
                   else acc) 0 l
              == Qsum (map (fun st => ratedWatts catalog (appliance_id st))
                           (filter is_on l))).
  { induction l as [|st l IH]; cbn [fold_right filter].
    - reflexivity.
    - destruct (is_on st).
      + cbn [map]. rewrite Qsum_cons, IH. reflexivity.
      + exact IH. }
  rewrite E. reflexivity.
Qed.

Lemma entry_In {A} (k : string) (v : A) (l : list (string * A)) :
  entry k l = Some v -> In (k, v) l.
Proof.
  induction l as [|[k' v'] l IH]; cbn [entry]; [discriminate|].
  destruct (String.eqb_spec k k') as [E|E].
  - intro H. injection H as ->. left. rewrite E. reflexivity.
  - intro H. right. apply IH. exact H.
Qed.

(** Whatever holds of all households and of the one put, holds after. *)
Lemma put_Forall (P : Household -> Prop) (hid : string) (h : Household)
  (s : Store) :
  P h -> Forall (fun e => P (snd e)) s ->
  Forall (fun e => P (snd e)) (put hid h s).
Proof.
  intros Hh Hs. unfold put.
  induction Hs as [|[k v] s Hv Hs IH]; cbn [JsMap.set].
  - constructor; [exact Hh | constructor].
  - destruct (String.eqb hid k); constructor; auto.
Qed.

Lemma step_consistent catalog (s : Store) (e : Event) :
  Forall (fun x => consistent catalog (snd x)) s ->
  Forall (fun x => consistent catalog (snd x)) (step catalog s e).
Proof.
  intro Hs. destruct e as [hid now | hid b now | hid aid on now];
    cbn [step].
  - unfold initialize. apply put_Forall; [|exact Hs].
    unfold consistent. cbn. split; reflexivity.
  - unfold tick. destruct (entry hid s) as [h|] eqn:E; [|exact Hs].
    apply put_Forall; [|exact Hs].
    apply entry_In in E. rewrite Forall_forall in Hs.
    destruct (Hs _ E) as [_ Hi]. cbn [snd] in Hi.
    unfold consistent. cbn. split; [reflexivity | exact Hi].
  - unfold toggle. destruct (entry hid s) as [h|] eqn:E; [|exact Hs].
    destruct (existsb _ _); [|exact Hs].
    apply put_Forall; [|exact Hs].
    unfold consistent. cbn. split; reflexivity.
Qed.

Lemma run_consistent catalog (es : list Event) :
  Forall (fun x => consistent catalog (snd x)) (run catalog es).
Proof.
  unfold run.
  assert (G : forall s, Forall (fun x => consistent catalog (snd x)) s ->
                Forall (fun x => consistent catalog (snd x))
                       (fold_left (step catalog) es s)).
  { induction es as [|e es IH]; intros s Hs; cbn [fold_left].
    - exact Hs.
    - apply IH. apply step_consistent. exact Hs. }
  apply G. constructor.
Qed.

End PowerEngineProps.

(** C1: after every sequence of events (initialisations, simulator
    ticks, toggles, accepted or rejected), each household's power state
    has [total_kw == background_kw + interactive_kw], and its
    [interactive_kw] is the sum of the rated watts of the appliances
    that are on, divided by 1000. *)
Theorem power_state_total :
  forall (catalog : list PowerEngine.ApplianceDefinition)
         (events : list PowerEngine.Event) (household_id : string)
         (h : PowerEngine.Household),
    In (household_id, h) (PowerEngine.run catalog events) ->
    PowerEngine.total_kw (PowerEngine.power h)
    == PowerEngine.background_kw (PowerEngine.power h)
       + PowerEngine.interactive_kw (PowerEngine.power h)
    /\ PowerEngine.interactive_kw (PowerEngine.power h)
       == Qsum (map (fun st => PowerEngine.ratedWatts catalog
                                 (PowerEngine.appliance_id st))
                    (filter PowerEngine.is_on (PowerEngine.states h)))
          / 1000.
Proof.
  intros catalog events hid h Hin.
  pose proof (PowerEngineProps.run_consistent catalog events) as F.
  rewrite Forall_forall in F. destruct (F _ Hin) as [T I]. cbn [snd] in T, I.
  split; [exact T|].
  rewrite I. apply PowerEngineProps.interactiveKw_sum.
Qed.

Lemma power_state_total_witness :
  match entry "house-1" (PowerEngine.run Fixture.catalog Fixture.events) with
  | Some h =>
      PowerEngine.total_kw (PowerEngine.power h)
      == PowerEngine.background_kw (PowerEngine.power h)
         + PowerEngine.interactive_kw (PowerEngine.power h)
      /\ PowerEngine.total_kw (PowerEngine.power h) == 2.2
  | None => False
  end.
Proof.
  destruct (entry "house-1" (PowerEngine.run Fixture.catalog Fixture.events))
    as [h|] eqn:E.
  - split.
    + exact (proj1 (power_state_total Fixture.catalog Fixture.events
                      "house-1" h (PowerEngineProps.entry_In _ _ _ E))).
    + vm_compute in E. injection E as <-. reflexivity.
  - vm_compute in E. discriminate E.
Defined.

(** ** The efficiency score *)

Module ForecastComparatorProps.
Import ForecastComparator.

Lemma Qsum_nonneg (l : list Q) : Forall (fun x => 0 <= x) l -> 0 <= Qsum l.
Proof.
  induction 1 as [|x l Hx Hl IH].
  - discriminate.
  - rewrite Qsum_cons. lra.
Qed.

(** The forecast of a period is not negative when no point is. *)
Lemma forecastKwh_nonneg (fs : list ForecastPoint) (hid : string)
  (p : Period) (f : Q) :
  Forall (fun x => 0 <= fp_forecast_kwh x) fs ->
  forecastKwh fs hid p = Some f -> 0 <= f.
Proof.
  intros Hfs H. unfold forecastKwh in H.
  assert (N : 0 <= Qsum (map fp_forecast_kwh (forecastsIn fs hid p))).
  { apply Qsum_nonneg. rewrite Forall_forall. intros x Hx.
    apply in_map_iff in Hx. destruct Hx as [y [<- Hy]].
    unfold forecastsIn in Hy. apply filter_In in Hy.
    rewrite Forall_forall in Hfs. apply Hfs. tauto. }
  destruct (forecastsIn fs hid p); [discriminate|].
  injection H as <-. exact N.
Qed.

(** The sign of the score is the sign of the saving. *)
Lemma score_sign (f a : Q) :
  0 < f ->
  (0 < (f - a) / f * 100 <-> a < f) /\ ((f - a) / f * 100 < 0 <-> f < a).
Proof.
  intro Hf.
  assert (Hc : 0 < 100 / f) by (apply Qlt_shift_div_l; lra).
  assert (E : (f - a) / f * 100 == (f - a) * (100 / f)) by (field; lra).
  rewrite E. split; split; intro H.
  - destruct (Qlt_le_dec a f) as [L|G]; [exact L|].
    exfalso. assert ((f - a) * (100 / f) <= 0) by nra. lra.
  - apply Qmult_lt_0_compat; lra.
  - destruct (Qlt_le_dec f a) as [L|G]; [exact L|].
    exfalso.
    assert (0 <= (f - a) * (100 / f)) by (apply Qmult_le_0_compat; lra).
    lra.
  - assert (0 < (a - f) * (100 / f)) by (apply Qmult_lt_0_compat; lra).
    nra.
Qed.

End ForecastComparatorProps.

(** C3: [compare] fails with [InsufficientDataError], and gives no
    score, whenever the forecast of the period is absent or zero.  When
    it gives a score, the forecast is present and not zero and the score
    is [(forecast_kwh - actual_kwh) / forecast_kwh * 100]; with a
    forecast present and not zero and enough coverage it does give one,
    positive exactly when the actual energy is below the forecast and
    negative exactly when it is above.  A forecast of 100 with an actual
    of 80 scores 20, with an actual of 120 it scores -20, and a forecast
    of 0 fails. *)
Theorem efficiency_score :
  forall (minCoverage : Q) (readings : list ForecastComparator.MinuteReading)
         (forecasts : list ForecastComparator.ForecastPoint)
         (household_id : string) (period : ForecastComparator.Period),
    Forall (fun x => 0 <= ForecastComparator.fp_forecast_kwh x) forecasts ->
    let forecast :=
      ForecastComparator.forecastKwh forecasts household_id period in
    let actual :=
      ForecastComparator.actualKwh readings household_id period in
    let result :=
      ForecastComparator.compare minCoverage readings forecasts
        household_id period in
    ((forecast = None \/ exists f, forecast = Some f /\ f == 0) ->
       result = inl ForecastComparator.InsufficientDataError)
    /\ (forall e, result = inr e ->
          exists f, forecast = Some f /\ ~ f == 0
            /\ ForecastComparator.forecast_kwh e = f
            /\ ForecastComparator.actual_kwh e = actual
            /\ ForecastComparator.score e = (f - actual) / f * 100)
    /\ (forall f, forecast = Some f -> ~ f == 0 ->
          minCoverage
          <= ForecastComparator.coverage readings household_id period ->
          exists e, result = inr e
            /\ ForecastComparator.score e = (f - actual) / f * 100
            /\ (0 < ForecastComparator.score e <-> actual < f)
            /\ (ForecastComparator.score e < 0 <-> f < actual))
    /\ (exists e,
          ForecastComparator.compare (9 # 10) (Fixture.minutes 30 30 20)
            (Fixture.forecast 100) "house-1" Fixture.threeMinutes = inr e
          /\ ForecastComparator.actual_kwh e == 80
          /\ ForecastComparator.score e == 20)
    /\ (exists e,
          ForecastComparator.compare (9 # 10) (Fixture.minutes 50 40 30)
            (Fixture.forecast 100) "house-1" Fixture.threeMinutes = inr e
          /\ ForecastComparator.actual_kwh e == 120
          /\ ForecastComparator.score e == -20)
    /\ ForecastComparator.compare (9 # 10) (Fixture.minutes 30 30 20)
         (Fixture.forecast 0) "house-1" Fixture.threeMinutes
       = inl ForecastComparator.InsufficientDataError.
Proof.
  intros minCoverage readings forecasts hid p Hnn. cbn zeta.
  unfold ForecastComparator.compare.
  split; [|split; [|split; [|split; [|split]]]].
  - intros [H | [f [H Hz]]]; rewrite H; [reflexivity|].
    apply Qeq_bool_iff in Hz. rewrite Hz. reflexivity.
  - intros e H.
    destruct (ForecastComparator.forecastKwh forecasts hid p) as [f|];
      [|discriminate].
    destruct (Qeq_bool f 0) eqn:Ez; [discriminate|].
    destruct (Qltb _ _); [discriminate|].
    injection H as <-. exists f. cbn. repeat split.
    intro Hz. apply Qeq_bool_iff in Hz. congruence.
  - intros f Hf Hz Hc. rewrite Hf.
    destruct (Qeq_bool f 0) eqn:Ez.
    { exfalso. apply Hz. apply Qeq_bool_iff. exact Ez. }
    apply Qltb_ge in Hc. rewrite Hc.
    eexists. split; [reflexivity|]. cbn [ForecastComparator.score].
    split; [reflexivity|].
    assert (Hpos : 0 < f).
    { pose proof (ForecastComparatorProps.forecastKwh_nonneg
                    forecasts hid p f Hnn Hf) as N.
      destruct (Qlt_le_dec 0 f) as [L|G]; [exact L|].
      exfalso. apply Hz. lra. }
    apply ForecastComparatorProps.score_sign. exact Hpos.
  - eexists. split; [vm_compute; reflexivity|]. split; reflexivity.
  - eexists. split; [vm_compute; reflexivity|]. split; reflexivity.
  - reflexivity.
Qed.

Lemma efficiency_score_witness :
  exists e,
    ForecastComparator.compare (9 # 10) (Fixture.minutes 30 30 20)
      (Fixture.forecast 100) "house-1" Fixture.threeMinutes = inr e
    /\ 0 < ForecastComparator.score e.
Proof.
  assert (Hnn : Forall (fun x => 0 <= ForecastComparator.fp_forecast_kwh x)
                       (Fixture.forecast 100)).
  { repeat constructor. discriminate. }
  destruct (efficiency_score (9 # 10) (Fixture.minutes 30 30 20)
              (Fixture.forecast 100) "house-1" Fixture.threeMinutes Hnn)
    as (_ & _ & H & _).
  destruct (H 100 eq_refl) as [e (He & _ & Hs & _)].
  - discriminate.
  - discriminate.
  - exists e. split; [exact He|]. apply Hs. reflexivity.
Defined.

(* ================================================================== *)
(** * Further properties of the simulator *)

(** ** Seasons *)

(** The season that [runSimulation] prints for a month is the season
    whose multiplier [getSeasonalMultiplier] applies to a date of that
    month. *)
Theorem season_name_matches_multiplier :
  forall (config : Config) (tz : Z) (date : Date),
    getSeasonalMultiplier config tz date
    = multiplierOfSeason (getNepalSeason (getMonth tz date))
        (seasonalMultipliers config).
Proof.
  intros config tz date. unfold getSeasonalMultiplier, getNepalSeason.
  cbn zeta.
  destruct ((1 <=? getMonth tz date) && (getMonth tz date <=? 3))%Z;
    [reflexivity|].
  destruct ((4 <=? getMonth tz date) && (getMonth tz date <=? 6))%Z;
    [reflexivity|].
  destruct ((7 <=? getMonth tz date) && (getMonth tz date <=? 9))%Z;
    reflexivity.
Qed.

(** The start probability of an occasional appliance is its configured
    probability times the time multiplier, except that the air
    conditioner's is tripled exactly in the months named summer, the
    space heater's is quadrupled exactly in the months named winter, and
    the water heater's is doubled exactly in the hours 6 to 9 and 18 to
    21. *)
Theorem occasional_probability_rules :
  forall (tz : Z) (date : Date) (tm : Q) (name : string)
         (appliance : Occasional.t),
    let p := Occasional.probability appliance * tm in
    let season := getNepalSeason (getMonth tz date) in
    let hour := getHours tz date in
    adjustedProbability tz date tm name appliance
    = if String.eqb name "air_conditioner"
      then if String.eqb season "Summer (May-Jul)" then p * 3 else p
      else if String.eqb name "space_heater"
      then if String.eqb season "Winter (Nov-Jan)" then p * 4 else p
      else if String.eqb name "water_heater"
      then if ((6 <=? hour) && (hour <=? 9)
               || (18 <=? hour) && (hour <=? 21))%Z
           then p * 2 else p
      else p.
Proof.
  intros tz date tm name appliance. cbn zeta.
  unfold adjustedProbability, getNepalSeason.
  destruct (String.eqb_spec name "air_conditioner") as [->|Hac].
  - cbn [String.eqb Ascii.eqb Bool.eqb andb].
    set (m := getMonth tz date).
    destruct ((1 <=? m) && (m <=? 3))%Z eqn:E1;
      destruct ((4 <=? m) && (m <=? 6))%Z eqn:E2;
      destruct ((7 <=? m) && (m <=? 9))%Z eqn:E3;
      try reflexivity; exfalso; lia.
  - destruct (String.eqb_spec name "space_heater") as [->|Hsh].
    + cbn [String.eqb Ascii.eqb Bool.eqb andb].
      set (m := getMonth tz date).
      destruct ((1 <=? m) && (m <=? 3))%Z eqn:E1;
        destruct ((4 <=? m) && (m <=? 6))%Z eqn:E2;
        destruct ((7 <=? m) && (m <=? 9))%Z eqn:E3;
        destruct ((10 <=? m) || (m <=? 0))%Z eqn:E4;
        try reflexivity; exfalso; lia.
    + destruct (String.eqb name "water_heater"); cbn [andb]; reflexivity.
Qed.

(** ** The time pattern *)

Lemma at_hour_Forall (P : Q -> Prop) (table : list Q) tz (date : Date) :
  List.length table = 24%nat -> Forall P table ->
  P (at_hour table (getHours tz date)).
Proof.
  intros L F. rewrite Forall_forall in F. apply F.
  unfold at_hour. apply nth_In.
  pose proof (getHours_range tz date). lia.
Qed.

(** With the tables of [config.js] the time multiplier of any date lies
    between 0.05 and 1: it never switches a load off and never raises
    it. *)
Theorem time_multiplier_range :
  forall (tz : Z) (date : Date),
    0.05 <= getTimePatternMultiplier ConfigJs.config tz date
    /\ getTimePatternMultiplier ConfigJs.config tz date <= 1.
Proof.
  intros tz date. unfold getTimePatternMultiplier. cbn zeta.
  destruct ((getDay tz date =? 0) || (getDay tz date =? 6))%Z;
    apply (at_hour_Forall (fun x => 0.05 <= x /\ x <= 1));
    try reflexivity;
    cbn [ConfigJs.config timePatterns weekday weekend];
    repeat (constructor; [split; discriminate|]); constructor.
Qed.

(** ** The probabilistic load *)

Lemma probabilisticLoop_bounds random (tm : Q)
  (l : list (string * Appliance.t)) :
  Forall (fun e => 0 <= Appliance.power (snd e)) l ->
  forall (acc : Q) (w : World),
    let r := probabilisticLoop random tm l acc w in
    acc <= fst r
    /\ fst r <= acc + Qsum (map (fun e => Appliance.power (snd e))
                             (filter drawnFor l))
    /\ snd (snd r) = (snd w + List.length (filter drawnFor l))%nat.
Proof.
  induction 1 as [|e l He Hl IH]; intros acc w; cbn zeta;
    cbn [probabilisticLoop filter].
  - unfold ret, Qsum. cbn [fst snd map fold_right List.length].
    split; [lra|]. split; [lra|]. lia.
  - rewrite bind_run. unfold probabilisticStep. fold (drawnFor e).
    destruct (drawnFor e).
    + rewrite bind_run. unfold Math_random. cbn [fst snd].
      destruct (Qltb _ _); unfold ret; cbn [fst snd];
        match goal with
        | |- context [probabilisticLoop random tm l ?a ?w'] =>
            destruct (IH a w') as (A & B & C)
        end;
        cbn zeta in A, B, C; cbn [fst snd] in C;
        cbn [map List.length]; rewrite Qsum_cons, C;
        (split; [lra|]); (split; [lra|lia]).
    + unfold ret. cbn [fst snd].
      destruct (IH acc w) as (A & B & C). cbn zeta in A, B, C.
      split; [exact A|]. split; [exact B|exact C].
Qed.

(** The probabilistic load of a tick lies between 0 and the sum of the
    powers of the appliances that have a probability and are neither
    always on nor cyclic; one number is drawn for each of them and the
    simulator is left as it is. *)
Theorem probabilistic_load_bounds :
  forall (random : nat -> Q) (date : Date) (tm : Q) (w : World),
    Forall (fun e => 0 <= Appliance.power (snd e))
           (appliances (baseConfig (fst w))) ->
    let drawn := filter drawnFor (appliances (baseConfig (fst w))) in
    let r := generateProbabilisticLoad random date tm w in
    0 <= fst r
    /\ fst r <= Qsum (map (fun e => Appliance.power (snd e)) drawn)
    /\ snd r = (fst w, (snd w + List.length drawn)%nat).
Proof.
  intros random date tm w Hp. cbn zeta.
  pose proof (generateProbabilisticLoad_this random date tm w) as T.
  unfold generateProbabilisticLoad in *. rewrite bind_run in *.
  cbn [this fst snd] in *.
  destruct (probabilisticLoop_bounds random tm _ Hp 0 w) as (A & B & C).
  cbn zeta in A, B, C.
  split; [exact A|]. split; [lra|].
  destruct (probabilisticLoop random tm _ 0 w) as [v [s' n]].
  cbn [fst snd] in *. rewrite T, C. reflexivity.
Qed.

Lemma probabilistic_load_bounds_witness :
  fst (generateProbabilisticLoad Fixture.half Fixture.july4 1 Fixture.fresh)
  <= 88.
Proof.
  refine (proj1 (proj2 (probabilistic_load_bounds Fixture.half Fixture.july4
                          1 Fixture.fresh _))).
  cbn. repeat (constructor; [discriminate|]). constructor.
Defined.

(** ** Starting and ending occasional appliances *)

Lemma startOccasional_position tz random (date : Date) (tm : Q)
  (e : string * Occasional.t) (w : World) :
  snd (snd (startOccasional tz random date tm e w)) = S (snd w).
Proof.
  destruct e as [name appliance]. unfold startOccasional. run.
  unfold Math_random. cbn [fst snd].
  destruct (_ && _); reflexivity.
Qed.

Lemma startOccasionalAppliances_extends tz random (date : Date) (tm : Q)
  (P : string * Activation.t -> Prop) (l : list (string * Occasional.t)) :
  (forall name o, In (name, o) l ->
     P (name, {| Activation.power := Occasional.power o;
                 Activation.endTime :=
                   (date + Occasional.duration o * 60000)%Z |})) ->
  forall w : World,
    let w' := snd (forEach (startOccasional tz random date tm) l w) in
    snd w' = (snd w + List.length l)%nat
    /\ exists added,
         activeAppliances (fst w') = activeAppliances (fst w) ++ added
         /\ Forall P added.
Proof.
  induction l as [|[name o] l IH]; intros HP w; cbn zeta; cbn [forEach].
  - unfold ret. cbn [fst snd List.length]. split; [lia|].
    exists []. rewrite app_nil_r. split; [reflexivity|constructor].
  - rewrite bind_run.
    set (w1 := snd (startOccasional tz random date tm (name, o) w)).
    destruct (IH (fun n o' H => HP n o' (or_intror H)) w1)
      as (Hpos & added & Hm & HF).
    cbn zeta in Hpos, Hm.
    pose proof (startOccasional_position tz random date tm (name, o) w) as P1.
    fold w1 in P1.
    split; [rewrite Hpos, P1; cbn [List.length]; lia|].
    destruct (startOccasional_spec tz random date tm name o w)
      as [E|[_ E]]; cbn zeta in E; fold w1 in E.
    + exists added. rewrite Hm, E. split; [reflexivity|exact HF].
    + eexists (_ :: added). rewrite Hm, E, <- app_assoc. cbn [app].
      split; [reflexivity|]. constructor; [|exact HF].
      apply HP. left. reflexivity.
Qed.

(** [startOccasionalAppliances] draws one number for each configured
    occasional appliance and never touches an activation that is in the
    map: the map afterwards is the map before followed by the new
    activations, each for a configured appliance and ending its
    configured duration after the timestamp. *)
Theorem start_occasional_keeps_running :
  forall (config : Config) (tz : Z) (random : nat -> Q) (date : Date)
         (tm : Q) (w : World),
    let w' := snd (startOccasionalAppliances config tz random date tm w) in
    snd w' = (snd w + List.length (occasionalAppliances config))%nat
    /\ exists added,
         activeAppliances (fst w') = activeAppliances (fst w) ++ added
         /\ Forall (startedAt config date) added.
Proof.
  intros config tz random date tm w. unfold startOccasionalAppliances.
  apply (startOccasionalAppliances_extends tz random date tm
           (startedAt config date)).
  intros name o Hin. exists o. split; [exact Hin|reflexivity].
Qed.

Lemma filter_running_later (d1 d2 : Date) (m : JsMap.t Activation.t) :
  (d1 <= d2)%Z ->
  filter (running d2) (filter (running d1) m) = filter (running d2) m.
Proof.
  intro H. induction m as [|e m IH]; cbn [filter]; [reflexivity|].
  destruct (running d1 e) eqn:E1; cbn [filter].
  - rewrite IH. reflexivity.
  - destruct (running d2 e) eqn:E2; [|exact IH].
    unfold running in E1, E2. exfalso. lia.
Qed.

(** Ending activations at a time and then at a later (or the same) time
    leaves the map, and returns the load, that ending them at the later
    time alone does; in particular a second call at the same time
    changes nothing. *)
Theorem update_active_composes :
  forall (d1 d2 : Date) (w : World),
    NoDup (JsMap.keys (activeAppliances (fst w))) ->
    (d1 <= d2)%Z ->
    let w1 := snd (updateActiveAppliances d1 w) in
    activeAppliances (fst (snd (updateActiveAppliances d2 w1)))
    = activeAppliances (fst (snd (updateActiveAppliances d2 w)))
    /\ fst (updateActiveAppliances d2 w1) = fst (updateActiveAppliances d2 w)
    /\ Forall (fun e => (d2 < Activation.endTime (snd e))%Z)
              (activeAppliances (fst (snd (updateActiveAppliances d2 w)))).
Proof.
  intros d1 d2 w ND H. cbn zeta.
  destruct (updateActiveAppliances_spec d1 w ND) as (M1 & _ & _).
  destruct (updateActiveAppliances_spec d2 w ND) as (M2 & L2 & _).
  assert (ND1 : NoDup (JsMap.keys (activeAppliances
                 (fst (snd (updateActiveAppliances d1 w)))))).
  { rewrite M1. apply NoDup_keys_filter. exact ND. }
  destruct (updateActiveAppliances_spec d2 _ ND1) as (M3 & L3 & _).
  rewrite M3, L3, M1, M2, L2, filter_running_later by exact H.
  split; [reflexivity|]. split; [reflexivity|].
  rewrite Forall_forall. intros e He. apply filter_In in He.
  destruct He as [_ R]. unfold running in R. lia.
Qed.

Lemma update_active_composes_witness :
  activeAppliances
    (fst (snd (updateActiveAppliances (Fixture.july4 + 30000)%Z
                 (snd (updateActiveAppliances Fixture.july4 Fixture.busy)))))
  = activeAppliances
      (fst (snd (updateActiveAppliances (Fixture.july4 + 30000)%Z
                   Fixture.busy))).
Proof.
  refine (proj1 (update_active_composes Fixture.july4
                   (Fixture.july4 + 30000)%Z Fixture.busy _ _)).
  - cbn. repeat constructor; cbn; intuition discriminate.
  - discriminate.
Defined.

(** ** The anomaly process *)

Lemma entry_Some_In {A} (k : string) (v : A) (l : list (string * A)) :
  entry k l = Some v -> In (k, v) l.
Proof.
  induction l as [|[k' v'] l IH]; cbn [entry]; [discriminate|].
  destruct (String.eqb_spec k k') as [E|E].
  - intro H. injection H as ->. left. rewrite E. reflexivity.
  - intro H. right. apply IH. exact H.
Qed.

Lemma entry_of_key {A} (k : string) (l : list (string * A)) :
  In k (JsMap.keys l) -> exists v, entry k l = Some v.
Proof.
  induction l as [|[k' v'] l IH]; cbn [JsMap.keys map entry fst];
    [intros []|].
  destruct (String.eqb_spec k k') as [E|E].
  - intros _. eexists. reflexivity.
  - intros [H|H]; [congruence|]. apply IH. exact H.
Qed.

Lemma floor_index (r : Q) (n : nat) :
  0 <= r -> r < 1 -> (0 < n)%nat ->
  (0 <= floor (r * inject_Z (Z.of_nat n)) < Z.of_nat n)%Z.
Proof.
  intros H0 H1 Hn. unfold floor.
  assert (Hq : 0 < inject_Z (Z.of_nat n)).
  { change 0 with (inject_Z 0). rewrite <- Zlt_Qlt. lia. }
  split.
  - change 0%Z with (Qfloor (inject_Z 0)).
    apply Qfloor_resp_le. change (inject_Z 0) with 0. nra.
  - pose proof (Qfloor_le (r * inject_Z (Z.of_nat n))) as F.
    assert (L : inject_Z (Qfloor (r * inject_Z (Z.of_nat n)))
                < inject_Z (Z.of_nat n)) by nra.
    rewrite <- Zlt_Qlt in L. exact L.
Qed.

(** For a draw in [0, 1) and a configuration with at least one anomaly
    type, the anomaly that [checkAnomalies] picks is a configured one:
    it has the name, the multipliers and the duration of an entry of
    [anomalies.types]; the index never falls outside the list. *)
Theorem picked_anomaly_is_configured :
  forall (config : Config) (r : Q),
    0 <= r -> r < 1 -> types (anomalies config) <> [] ->
    let n := List.length (JsMap.keys (types (anomalies config))) in
    exists (name : string) (t : AnomalyType.t),
      In (name, t) (types (anomalies config))
      /\ anomalyAt config (floor (r * inject_Z (Z.of_nat n)))
         = {| Anomaly.multiplier := AnomalyType.multiplier t;
              Anomaly.voltageMultiplier := AnomalyType.voltageMultiplier t;
              Anomaly.duration := Some (AnomalyType.duration t);
              Anomaly.type := Some name |}.
Proof.
  intros config r H0 H1 Hne. cbn zeta.
  set (n := List.length (JsMap.keys (types (anomalies config)))).
  assert (Hn : (0 < n)%nat).
  { unfold n, JsMap.keys. rewrite length_map.
    destruct (types (anomalies config)); [congruence|cbn; lia]. }
  destruct (floor_index r n H0 H1 Hn) as [Hlo Hhi].
  unfold anomalyAt.
  destruct (Z.ltb_spec (floor (r * inject_Z (Z.of_nat n))) 0) as [L|_];
    [lia|].
  destruct (nth_error (JsMap.keys (types (anomalies config)))
              (Z.to_nat (floor (r * inject_Z (Z.of_nat n))))) as [name|] eqn:E.
  - destruct (entry_of_key name (types (anomalies config))) as [t Ht].
    { eapply nth_error_In. exact E. }
    rewrite Ht. exists name, t. split; [|reflexivity].
    apply entry_Some_In. exact Ht.
  - exfalso. apply nth_error_None in E. fold n in E. lia.
Qed.

Lemma picked_anomaly_is_configured_witness :
  exists (name : string) (t : AnomalyType.t),
    In (name, t) (types (anomalies ConfigJs.config))
    /\ Anomaly.type (anomalyAt ConfigJs.config (floor ((9 # 10) * inject_Z 5)))
       = Some name.
Proof.
  destruct (picked_anomaly_is_configured ConfigJs.config (9 # 10))
    as (name & t & Hin & E).
  - discriminate.
  - reflexivity.
  - discriminate.
  - exists name, t. split; [exact Hin|].
    cbn zeta in E. change (Z.of_nat _) with 5%Z in E. rewrite E. reflexivity.
Defined.

Lemma checkAnomalies_anomalyOk config random (w : World) :
  Forall (fun e => (0 <= AnomalyType.duration (snd e))%Z)
         (types (anomalies config)) ->
  anomalyOk (fst w) ->
  anomalyOk (fst (snd (checkAnomalies config random w))).
Proof.
  intros Hd [Hn Ha]. unfold checkAnomalies. run.
  destruct (Z.gtb_spec (anomalyRemaining (fst w)) 0) as [G|G].
  - run. unfold anomalyOk.
    cbn [set_anomalyRemaining anomalyRemaining anomaly].
    split; [lia|]. intros _. apply Ha. lia.
  - rewrite bind_run. unfold Math_random. cbn [fst snd].
    destruct (Qltb _ _).
    + run. unfold anomalyOk.
      cbn [set_anomalyRemaining set_anomaly anomalyRemaining anomaly].
      split; [|intros _; discriminate].
      match goal with
      | |- context [Anomaly.duration (anomalyAt config ?i)] =>
          generalize i
      end.
      intro i. unfold anomalyAt.
      destruct (if (i <? 0)%Z then None else _) as [name|];
        [|cbn; lia].
      destruct (entry name (types (anomalies config))) as [t|] eqn:E;
        [|cbn; lia].
      cbn [Anomaly.duration]. apply entry_Some_In in E.
      rewrite Forall_forall in Hd. apply (Hd _ E).
    + unfold ret. cbn [fst snd]. split; [exact Hn|exact Ha].
Qed.

(** When no configured anomaly has a negative duration, every tick keeps
    the anomaly state sound: the counter is never negative, and while it
    is positive an anomaly is held; a new simulator starts so.  Hence a
    tick that finds the counter positive always has an anomaly to
    apply. *)
Theorem anomaly_state_sound :
  forall (config : Config) (tz : Z) (random : nat -> Q) (tanAcos : Q -> Q)
         (userId profile : string) (made : Simulator) (tss : list Date)
         (n : nat),
    Forall (fun e => (0 <= AnomalyType.duration (snd e))%Z)
           (types (anomalies config)) ->
    constructor config userId profile = Some made ->
    anomalyOk
      (fst (snd (readingsAt config tz random tanAcos tss (made, n)))).
Proof.
  intros config tz random tanAcos userId profile made tss n Hd Hc.
  assert (G : forall w, anomalyOk (fst w) ->
                anomalyOk (fst (snd (readingsAt config tz random tanAcos
                                       tss w)))).
  { induction tss as [|ts rest IH]; intros w Hw; cbn [readingsAt].
    - exact Hw.
    - rewrite !bind_run. unfold ret. cbn [fst snd]. apply IH.
      destruct (generateMeterReading_run config tz random tanAcos ts w)
        as [E _]. cbn zeta in E. rewrite E.
      apply checkAnomalies_anomalyOk; [exact Hd|].
      cbn [fst]. unfold anomalyOk in *.
      cbn [set_energy_kwh anomalyRemaining anomaly].
      destruct (totalActivePower_frame config tz random ts w)
        as (_ & _ & _ & _ & A & R).
      rewrite A, R. exact Hw. }
  apply G. unfold constructor in Hc.
  destruct (baseConsumptionOf config profile);
    [|destruct (inherited profile); [discriminate|]];
    injection Hc as <-; unfold anomalyOk; cbn; split; lia.
Qed.

Lemma anomaly_state_sound_witness :
  anomalyOk
    (fst (snd (readingsAt ConfigJs.config Fixture.utc Fixture.spike
                 Fixture.tanAcos [Fixture.july4] Fixture.fresh))).
Proof.
  refine (anomaly_state_sound ConfigJs.config Fixture.utc Fixture.spike
            Fixture.tanAcos "550e8400" "normal" (fst Fixture.fresh)
            [Fixture.july4] O _ eq_refl).
  cbn. repeat (constructor; [discriminate|]). constructor.
Defined.

(** A tick that finds the counter positive samples nothing new: its
    reading carries the type of the anomaly held, the counter goes down
    by one, the anomaly stays, and the only draws are those of the power
    and the voltage. *)
Theorem active_anomaly_tick :
  forall (config : Config) (tz : Z) (random : nat -> Q) (tanAcos : Q -> Q)
         (ts : Date) (w : World) (a : Anomaly.t),
    (0 < anomalyRemaining (fst w))%Z ->
    anomaly (fst w) = Some a ->
    let g := generateMeterReading config tz random tanAcos ts w in
    Reading.anomaly_type (fst g) = Anomaly.type a
    /\ anomalyRemaining (fst (snd g)) = (anomalyRemaining (fst w) - 1)%Z
    /\ anomaly (fst (snd g)) = Some a
    /\ snd (snd g)
       = S (snd (snd (totalActivePower config tz random ts w))).
Proof.
  intros config tz random tanAcos ts w a Hr Ha. cbn zeta.
  destruct (generateMeterReading_run config tz random tanAcos ts w)
    as (E & _ & _ & T & _). cbn zeta in E, T.
  destruct (totalActivePower_frame config tz random ts w)
    as (_ & _ & _ & _ & A & R).
  rewrite E, T.
  rewrite checkAnomalies_active
    by (cbn [fst set_energy_kwh anomalyRemaining]; rewrite R; exact Hr).
  cbn [fst snd set_energy_kwh set_anomalyRemaining anomalyRemaining anomaly].
  rewrite A, R, Ha. repeat split; reflexivity.
Qed.

Lemma active_anomaly_tick_witness :
  let w1 := snd (generateMeterReading ConfigJs.config Fixture.utc
                   Fixture.spike Fixture.tanAcos Fixture.july4
                   Fixture.fresh) in
  Reading.anomaly_type
    (fst (generateMeterReading ConfigJs.config Fixture.utc Fixture.spike
            Fixture.tanAcos (Fixture.july4 + 60000)%Z w1))
  = Some "voltageSpike".
Proof.
  cbn zeta.
  refine (proj1 (active_anomaly_tick ConfigJs.config Fixture.utc
                   Fixture.spike Fixture.tanAcos (Fixture.july4 + 60000)%Z
                   _ (Anomaly.mk None (Some 1.3) (Some 1%Z)
                        (Some "voltageSpike")) _ _)).
  - vm_compute. reflexivity.
  - vm_compute. reflexivity.
Defined.

(** ** The other fields of a reading *)

Lemma generateMeterReading_fields config tz random tanAcos (ts : Date)
  (w : World) :
  let power := fst (totalActivePower config tz random ts w) in
  let v := voltageOfTick config tz random ts w in
  let g := generateMeterReading config tz random tanAcos ts w in
  Reading.global_intensity (fst g) = toFixed 4 (power / v)
  /\ Reading.global_reactive_power (fst g)
     = toFixed 4 (power * tanAcos (powerFactor (electrical config)) / 1000)
  /\ Reading.sample_interval_seconds (fst g)
     = sampleInterval (simulation config)
  /\ Reading.voltage (fst g)
     = match anomalyOfTick config tz random ts w with
       | Some a =>
           match Anomaly.voltageMultiplier a with
           | Some vm => toFixed 2 v * vm
           | None => toFixed 2 v
           end
       | None => toFixed 2 v
       end.
Proof.
  cbn zeta. unfold generateMeterReading, anomalyOfTick, voltageOfTick. run.
  unfold Math_random at 1 2 3 4 5. cbn [fst snd].
  destruct (fst (checkAnomalies config random _)) as [a|]; unfold ret;
    cbn [fst snd].
  - unfold applyAnomaly, set_anomaly_type.
    destruct (Anomaly.multiplier a), (Anomaly.voltageMultiplier a);
      cbn; repeat split; reflexivity.
  - cbn. repeat split; reflexivity.
Qed.

(** An anomaly rescales the reported active power and voltage only: the
    reported current and reactive power of every tick are those of the
    power before the anomaly, so during an outage the reading shows an
    active power of zero beside the current of the full load. *)
Theorem anomaly_leaves_current :
  forall (config : Config) (tz : Z) (random : nat -> Q) (tanAcos : Q -> Q)
         (ts : Date) (w : World),
    let power := fst (totalActivePower config tz random ts w) in
    let g := generateMeterReading config tz random tanAcos ts w in
    Reading.global_intensity (fst g)
    = toFixed 4 (power / voltageOfTick config tz random ts w)
    /\ Reading.global_reactive_power (fst g)
       = toFixed 4 (power * tanAcos (powerFactor (electrical config)) / 1000)
    /\ (forall a, anomalyOfTick config tz random ts w = Some a ->
          Anomaly.multiplier a = Some 0 ->
          Reading.global_active_power (fst g) == 0).
Proof.
  intros config tz random tanAcos ts w. cbn zeta.
  destruct (generateMeterReading_fields config tz random tanAcos ts w)
    as (I & R & _). cbn zeta in I, R.
  split; [exact I|]. split; [exact R|].
  intros a Ha Hm.
  destruct (generateMeterReading_run config tz random tanAcos ts w)
    as (_ & _ & _ & _ & P). cbn zeta in P.
  unfold anomalyOfTick in Ha. rewrite Ha, Hm in P. rewrite P. ring.
Qed.

(** With [config.js] and draws in [0, 1), a reading without anomaly
    reports a voltage within 4.8 percent of 230 volts, up to the
    rounding to two digits. *)
Theorem voltage_range :
  forall (tz : Z) (random : nat -> Q) (tanAcos : Q -> Q) (ts : Date)
         (w : World),
    (forall n, 0 <= random n /\ random n < 1) ->
    anomalyOfTick ConfigJs.config tz random ts w = None ->
    let g := generateMeterReading ConfigJs.config tz random tanAcos ts w in
    218.955 <= Reading.voltage (fst g)
    /\ Reading.voltage (fst g) <= 241.045.
Proof.
  intros tz random tanAcos ts w Hr Ha. cbn zeta.
  destruct (generateMeterReading_fields ConfigJs.config tz random tanAcos
              ts w) as (_ & _ & _ & V). cbn zeta in V.
  rewrite Ha in V. rewrite V.
  pose proof (toFixed_close 2 (voltageOfTick ConfigJs.config tz random ts w))
    as C.
  apply Qabs_Qle_condition in C.
  assert (E : (1 # 2) / pow10 2 == 0.005) by reflexivity.
  rewrite E in C.
  unfold voltageOfTick in *.
  cbn [ConfigJs.config electrical baseVoltage voltageVariation] in *.
  destruct (Hr (snd (snd (totalActivePower ConfigJs.config tz random ts w))))
    as [H0 H1].
  split; lra.
Qed.

Lemma voltage_range_witness :
  218.955
  <= Reading.voltage
       (fst (generateMeterReading ConfigJs.config Fixture.utc Fixture.half
               Fixture.tanAcos Fixture.july4 Fixture.fresh)).
Proof.
  refine (proj1 (voltage_range Fixture.utc Fixture.half Fixture.tanAcos
                   Fixture.july4 Fixture.fresh _ _)).
  - intro n. unfold Fixture.half. split; [discriminate|reflexivity].
  - vm_compute. reflexivity.
Defined.

(** ** Batches *)

Lemma generateReadingsLoop_acc config tz random tanAcos (n : nat) :
  forall (t : Date) (acc : list Reading.t) (w : World),
    generateReadingsLoop config tz random tanAcos n t acc w
    = match generateReadingsLoop config tz random tanAcos n t [] w with
      | Some (rs, w') => Some (acc ++ rs, w')
      | None => None
      end.
Proof.
  induction n as [|n IH]; intros t acc w; cbn [generateReadingsLoop].
  - rewrite app_nil_r. reflexivity.
  - destruct (validTime t); [|reflexivity].
    destruct (generateMeterReading config tz random tanAcos t w) as [r w1].
    rewrite IH, (IH _ ([] ++ [r])).
    destruct (generateReadingsLoop config tz random tanAcos n _ [] w1)
      as [[rs w']|]; [|reflexivity].
    cbn [app]. rewrite <- app_assoc. reflexivity.
Qed.

Lemma generateReadingsLoop_add config tz random tanAcos (a b : nat) :
  forall (t : Date) (w : World),
    let step := (sampleInterval (simulation config) * 1000)%Z in
    generateReadingsLoop config tz random tanAcos (a + b) t [] w
    = match generateReadingsLoop config tz random tanAcos a t [] w with
      | Some (first, w1) =>
          match generateReadingsLoop config tz random tanAcos b
                  (t + Z.of_nat a * step)%Z [] w1 with
          | Some (rest, w2) => Some (first ++ rest, w2)
          | None => None
          end
      | None => None
      end.
Proof.
  induction a as [|a IH]; intros t w; cbn zeta.
  - cbn [Nat.add generateReadingsLoop].
    replace (t + Z.of_nat 0 * _)%Z with t by lia.
    destruct (generateReadingsLoop _ _ _ _ b t [] w) as [[rest w2]|];
      reflexivity.
  - cbn [Nat.add generateReadingsLoop].
    destruct (validTime t); [|reflexivity].
    destruct (generateMeterReading config tz random tanAcos t w) as [r w1].
    rewrite generateReadingsLoop_acc.
    rewrite (generateReadingsLoop_acc _ _ _ _ a _ ([] ++ [r])).
    specialize (IH (t + sampleInterval (simulation config) * 1000)%Z w1).
    cbn zeta in IH. rewrite IH. clear IH.
    destruct (generateReadingsLoop config tz random tanAcos a _ [] w1)
      as [[first w2]|]; [|reflexivity].
    replace (t + sampleInterval (simulation config) * 1000
             + Z.of_nat a * (sampleInterval (simulation config) * 1000))%Z
      with (t + Z.of_nat (S a)
                * (sampleInterval (simulation config) * 1000))%Z by lia.
    destruct (generateReadingsLoop config tz random tanAcos b _ [] w2)
      as [[rest w3]|]; [|reflexivity].
    rewrite app_assoc. reflexivity.
Qed.

Lemma generateReadings_add :
  forall (config : Config) (tz : Z) (random : nat -> Q) (tanAcos : Q -> Q)
         (a b : Z) (startTime : Date) (w : World),
    (0 <= a)%Z -> (0 <= b)%Z ->
    generateReadings config tz random tanAcos (a + b) startTime w
    = match generateReadings config tz random tanAcos a startTime w with
      | Some (first, w1) =>
          match generateReadings config tz random tanAcos b
                  (startTime
                   + a * (sampleInterval (simulation config) * 1000))%Z
                  w1 with
          | Some (rest, w2) => Some (first ++ rest, w2)
          | None => None
          end
      | None => None
      end.
Proof.
  intros config tz random tanAcos a b startTime w Ha Hb.
  unfold generateReadings. rewrite Z2Nat.inj_add by assumption.
  pose proof (generateReadingsLoop_add config tz random tanAcos
                (Z.to_nat a) (Z.to_nat b) startTime w) as E.
  cbn zeta in E. rewrite Z2Nat.id in E by assumption. exact E.
Qed.

(** Generating [a + b] readings in one call gives the same readings, and
    leaves the simulator in the same state, as generating [a] readings
    and then [b] more from the timestamp [a] sample intervals later; and
    the one call throws exactly when one of the two does. *)
Theorem generateReadings_split :
  forall (config : Config) (tz : Z) (random : nat -> Q) (tanAcos : Q -> Q)
         (a b : Z) (startTime : Date) (w : World),
    (0 <= a)%Z -> (0 <= b)%Z ->
    generateReadings config tz random tanAcos (a + b) startTime w
    = match generateReadings config tz random tanAcos a startTime w with
      | Some (first, w1) =>
          match generateReadings config tz random tanAcos b
                  (startTime
                   + a * (sampleInterval (simulation config) * 1000))%Z
                  w1 with
          | Some (rest, w2) => Some (first ++ rest, w2)
          | None => None
          end
      | None => None
      end.
Proof.
  intros config tz random tanAcos a b startTime w Ha Hb.
  unfold generateReadings. rewrite Z2Nat.inj_add by assumption.
  pose proof (generateReadingsLoop_add config tz random tanAcos
                (Z.to_nat a) (Z.to_nat b) startTime w) as E.
  cbn zeta in E. rewrite Z2Nat.id in E by assumption. exact E.
Qed.

Lemma generateReadings_split_witness :
  generateReadings Fixture.config Fixture.utc Fixture.half Fixture.tanAcos
    (2 + 1) Fixture.july4 Fixture.fresh
  = match generateReadings Fixture.config Fixture.utc Fixture.half
            Fixture.tanAcos 2 Fixture.july4 Fixture.fresh with
    | Some (first, w1) =>
        match generateReadings Fixture.config Fixture.utc Fixture.half
                Fixture.tanAcos 1 (Fixture.july4 + 120000)%Z w1 with
        | Some (rest, w2) => Some (first ++ rest, w2)
        | None => None
        end
    | None => None
    end.
Proof.
  refine (generateReadings_split Fixture.config Fixture.utc Fixture.half
            Fixture.tanAcos 2 1 Fixture.july4 Fixture.fresh _ _);
    discriminate.
Defined.

Lemma generateReadingsLoop_length config tz random tanAcos (n : nat) :
  forall (t : Date) (acc rs : list Reading.t) (w w' : World),
    generateReadingsLoop config tz random tanAcos n t acc w = Some (rs, w') ->
    List.length rs = (List.length acc + n)%nat.
Proof.
  induction n as [|n IH]; intros t acc rs w w'; cbn [generateReadingsLoop].
  - intro E. injection E as <- _. lia.
  - destruct (validTime t); [|discriminate].
    destruct (generateMeterReading config tz random tanAcos t w) as [r w1].
    intro E. apply IH in E. rewrite E, length_app. cbn [List.length]. lia.
Qed.

Lemma generateReadings_length config tz random tanAcos (count : Z)
  (t : Date) (rs : list Reading.t) (w w' : World) :
  generateReadings config tz random tanAcos count t w = Some (rs, w') ->
  List.length rs = Z.to_nat count.
Proof.
  unfold generateReadings. intro E.
  apply generateReadingsLoop_length in E. exact E.
Qed.

(** A call returns when its timestamps are in the range of [Date]. *)
Lemma generateReadings_returns config tz random tanAcos (count : Z)
  (t : Date) (w : World) :
  (forall i : Z, (0 <= i < count)%Z ->
     validTime (t + i * (sampleInterval (simulation config) * 1000))%Z
     = true) ->
  exists (rs : list Reading.t) (w' : World),
    generateReadings config tz random tanAcos count t w = Some (rs, w').
Proof.
  intro V. unfold generateReadings.
  destruct (generateReadingsLoop_returns config tz random tanAcos
              (Z.to_nat count) t [] w) as (rs & w' & E & _).
  { intros i Hi. apply V. lia. }
  exists rs, w'. exact E.
Qed.

Lemma batchLoop_concat config tz offsetAt random tanAcos (d B : Z) :
  sampleInterval (simulation config) = 60%Z ->
  (0 < B)%Z ->
  forall (n : nat) (k : Z) (t : Date) (w : World),
    (0 <= d - k * B)%Z ->
    ((Z.of_nat n - 1) * B < d - k * B <= Z.of_nat n * B)%Z ->
    (forall t' : Date, (t <= t' <= t + (d - k * B) * 60000)%Z ->
       validTime t' = true /\ validTime (getNepalTime offsetAt t') = true) ->
    exists (batches : list (list Reading.t)) (w' : World),
      batchLoop config tz offsetAt random tanAcos d B n k t w
      = Some (batches, w')
      /\ generateReadings config tz random tanAcos (d - k * B) t w
         = Some (List.concat batches, w')
      /\ List.length batches = n
      /\ Forall (fun b => (0 < List.length b <= Z.to_nat B)%nat) batches.
Proof.
  intros Hs HB. induction n as [|n IH]; intros k t w H0 Hn V;
    cbn [batchLoop].
  - assert (E : (d - k * B = 0)%Z) by lia. rewrite E.
    exists [], w. cbn. auto.
  - destruct (V t ltac:(lia)) as [V1 V2]. rewrite V1, V2. cbn [andb].
    destruct (Z.le_gt_cases (d - k * B) B) as [Hle|Hgt].
    + assert (En : n = O) by nia. subst n. cbn [batchLoop].
      rewrite Z.min_r by lia.
      destruct (generateReadings_returns config tz random tanAcos
                  (d - k * B) t w) as (rs & w' & E).
      { intros i Hi. apply V. rewrite Hs. lia. }
      rewrite E. exists [rs], w'. cbn [List.concat]. rewrite app_nil_r.
      split; [reflexivity|]. split; [reflexivity|]. split; [reflexivity|].
      constructor; [|constructor].
      rewrite (generateReadings_length _ _ _ _ _ _ _ _ _ E). lia.
    + rewrite Z.min_l by lia.
      destruct (generateReadings_returns config tz random tanAcos B t w)
        as (rs & w1 & E).
      { intros i Hi. apply V. rewrite Hs. nia. }
      rewrite E.
      destruct (IH (k + 1)%Z (t + B * 60000)%Z w1)
        as (more & w2 & Eb & Eg & L & F); [lia|lia| |].
      { intros t' Ht'. apply V. nia. }
      rewrite Eb. exists (rs :: more), w2.
      split; [reflexivity|]. split; [|split].
      * pose proof (generateReadings_add config tz random tanAcos B
                      (d - (k + 1) * B) t w) as Sp.
        rewrite Hs in Sp.
        replace (B + (d - (k + 1) * B))%Z with (d - k * B)%Z in Sp by lia.
        replace (t + B * (60 * 1000))%Z with (t + B * 60000)%Z in Sp by lia.
        rewrite Sp by lia. rewrite E, Eg. reflexivity.
      * cbn [List.length]. rewrite L. reflexivity.
      * constructor; [|exact F].
        rewrite (generateReadings_length _ _ _ _ _ _ _ _ _ E). lia.
Qed.

Lemma totalBatches_spec (d B : Z) :
  (0 <= d)%Z -> (0 < B)%Z ->
  exists n : nat,
    totalBatches d B = Some (Z.of_nat n)
    /\ Z.of_nat n = Qceiling (inject_Z d / inject_Z B)
    /\ ((Z.of_nat n - 1) * B < d <= Z.of_nat n * B)%Z.
Proof.
  intros Hd HB. unfold totalBatches.
  destruct (Z.eqb_spec B 0) as [E|_]; [lia|].
  set (x := inject_Z d / inject_Z B).
  assert (HBq : 0 < inject_Z B)
    by (change 0 with (inject_Z 0); rewrite <- Zlt_Qlt; exact HB).
  assert (Hdq : 0 <= inject_Z d)
    by (change 0 with (inject_Z 0); rewrite <- Zle_Qle; exact Hd).
  assert (Ex : x * inject_Z B == inject_Z d) by (unfold x; field; lra).
  pose proof (Qle_ceiling x) as Hc.
  pose proof (Qceiling_lt x) as Hl.
  assert (Hx : 0 <= x) by (unfold x; apply Qle_shift_div_l; lra).
  assert (C0 : (0 <= Qceiling x)%Z).
  { rewrite Zle_Qle. change (inject_Z 0) with 0. lra. }
  exists (Z.to_nat (Qceiling x)). rewrite Z2Nat.id by exact C0.
  split; [reflexivity|]. split; [reflexivity|].
  unfold Zminus in Hl. rewrite inject_Z_plus in Hl.
  change (inject_Z (-1)) with (-(1)) in Hl.
  split.
  - rewrite Zlt_Qlt. unfold Zminus.
    rewrite inject_Z_mult, inject_Z_plus. change (inject_Z (-1)) with (-(1)).
    rewrite <- Ex. nra.
  - rewrite Zle_Qle, inject_Z_mult, <- Ex. nra.
Qed.

(** With a sample interval of 60 seconds, as in [config.js], a duration
    that is not negative and a positive batch size, and while the
    minutes of the run and their Nepal times stay in the range of
    [Date], [runSimulation] makes [Math.ceil(duration / batchSize)]
    batches; none is empty or longer than the batch size, and put end
    to end they are exactly the readings, with the same final simulator,
    of one call of [generateReadings] for the whole duration; so
    [duration] readings are produced in all.  With a batch size of 0 and
    a positive duration the loop never ends. *)
Theorem runSimulation_batches :
  forall (config : Config) (tz : Z) (offsetAt : Date -> Z)
         (random : nat -> Q) (tanAcos : Q -> Q)
         (duration batchSize : Z) (startTime : Date) (w : World),
    sampleInterval (simulation config) = 60%Z ->
    (0 <= duration)%Z -> (0 < batchSize)%Z ->
    (forall t : Date, (startTime <= t <= startTime + duration * 60000)%Z ->
       validTime t = true /\ validTime (getNepalTime offsetAt t) = true) ->
    (exists run batches w',
        runBatches config tz offsetAt random tanAcos duration batchSize
          startTime
        = Some run
        /\ run w = Some (batches, w')
        /\ generateReadings config tz random tanAcos duration startTime w
           = Some (List.concat batches, w')
        /\ Z.of_nat (List.length batches)
           = Qceiling (inject_Z duration / inject_Z batchSize)
        /\ Z.of_nat (List.length (List.concat batches)) = duration
        /\ Forall (fun b => (0 < List.length b <= Z.to_nat batchSize)%nat)
                  batches)
    /\ ((0 < duration)%Z ->
        runBatches config tz offsetAt random tanAcos duration 0 startTime
        = None).
Proof.
  intros config tz offsetAt random tanAcos d B t w Hs Hd HB V. split.
  - destruct (totalBatches_spec d B Hd HB) as (n & En & Ec & Hn).
    unfold runBatches. rewrite En. rewrite Nat2Z.id.
    destruct (batchLoop_concat config tz offsetAt random tanAcos d B Hs HB
                n 0 t w) as (batches & w' & Eb & Eg & L & F); [lia|lia| |].
    { intros t' Ht'. apply V. lia. }
    replace (d - 0 * B)%Z with d in Eg by lia.
    eexists. exists batches, w'.
    split; [reflexivity|]. split; [exact Eb|]. split; [exact Eg|].
    split; [rewrite L; exact Ec|]. split; [|exact F].
    rewrite (generateReadings_length _ _ _ _ _ _ _ _ _ Eg). lia.
  - intro Hpos. unfold runBatches, totalBatches. cbn [Z.eqb].
    destruct (Z.ltb_spec 0 d); [reflexivity|lia].
Qed.

Lemma runSimulation_batches_witness :
  exists run batches w',
    runBatches Fixture.config Fixture.utc (fun _ => Fixture.utc)
      Fixture.half Fixture.tanAcos 5 2 Fixture.july4 = Some run
    /\ run Fixture.fresh = Some (batches, w')
    /\ Z.of_nat (List.length batches) = 3%Z.
Proof.
  destruct (runSimulation_batches Fixture.config Fixture.utc
              (fun _ => Fixture.utc) Fixture.half Fixture.tanAcos 5 2
              Fixture.july4 Fixture.fresh)
    as [(run & batches & w' & E & R & _ & L & _) _].
  - reflexivity.
  - discriminate.
  - reflexivity.
  - intros t Ht. unfold validTime, getNepalTime, maxTime, Fixture.utc.
    unfold Fixture.july4 in *.
    split; apply andb_true_intro; split; apply Z.leb_le; lia.
  - exists run, batches, w'. split; [exact E|]. split; [exact R|exact L].
Defined.

(** ** The command line *)

Section CommandLineProps.

Variable env_USER_ID : option string.
Variable parseInt : string -> option Z.
Variable parseDate : string -> option Date.

(** A property of the parameters that every assignment keeps is kept by
    the whole loop. *)
Lemma parseLoop_invariant (P : Params.t -> Prop) :
  (forall v p, P p -> P (with_profile v p)) ->
  (forall v p, P p -> P (with_userId v p)) ->
  (forall v p, P p -> P (with_duration parseInt v p)) ->
  (forall v p, P p -> P (with_batchSize parseInt v p)) ->
  (forall v p, P p -> P (with_startTime parseDate v p)) ->
  (forall p, P p -> P (with_verbose p)) ->
  forall (n : nat) (args : list string) (p q : Params.t),
    (List.length args <= n)%nat ->
    P p -> parseLoop parseInt parseDate args p = Returned q -> P q.
Proof.
  intros H1 H2 H3 H4 H5 H6.
  assert (HA : forall arg assign,
             valueFlag parseInt parseDate arg = Some assign ->
             forall v p, P p -> P (assign v p)).
  { intros arg assign E. unfold valueFlag in E.
    repeat match type of E with
           | (if ?c then _ else _) = _ => destruct c
           end; try discriminate; injection E as <-; auto. }
  induction n as [|n IH]; intros args p q Hl Hp E.
  - destruct args; [|cbn in Hl; lia]. cbn in E. congruence.
  - destruct args as [|arg rest]; [cbn in E; congruence|].
    cbn [parseLoop] in E. cbn [List.length] in Hl.
    destruct (valueFlag parseInt parseDate arg) as [assign|] eqn:F.
    + destruct rest as [|v rest'].
      * injection E as <-. eapply HA; eauto.
      * apply (IH rest' (assign (Some v) p) q); [cbn in Hl; lia| |exact E].
        eapply HA; eauto.
    + destruct (_ || _).
      * apply (IH rest (with_verbose p) q); [lia|auto|exact E].
      * destruct (_ || _); [discriminate|].
        apply (IH rest p q); [lia|exact Hp|exact E].
Qed.

(** In the parameters that [parseArguments] returns, [startFromNow] is
    false exactly when a [startTime] was set, so the choice
    [params.startFromNow ? simulator.getNepalTime() : params.startTime]
    of [runSimulation] never reads an absent [startTime]. *)
Theorem parsed_start_time_present :
  forall (argv : list string) (params : Params.t),
    parseArguments env_USER_ID parseInt parseDate argv = Returned params ->
    (Params.startFromNow params = false
     <-> Params.startTime params <> None).
Proof.
  intros argv params E. unfold parseArguments in E.
  apply (parseLoop_invariant
           (fun p => Params.startFromNow p = false
                     <-> Params.startTime p <> None))
    with (n := List.length (skipn 2 argv)) (args := skipn 2 argv)
         (p := defaultParams env_USER_ID); auto.
  - intros v p _. cbn. split; [discriminate|reflexivity].
  - cbn. split; [discriminate|congruence].
Qed.

Lemma parseLoop_exit (n : nat) :
  forall (args : list string) (p : Params.t) (code : Z),
    (List.length args <= n)%nat ->
    parseLoop parseInt parseDate args p = Exited code ->
    code = 0%Z /\ (In "--help" args \/ In "-h" args).
Proof.
  induction n as [|n IH]; intros args p code Hl E.
  - destruct args; [|cbn in Hl; lia]. cbn in E. discriminate.
  - destruct args as [|arg rest]; [cbn in E; discriminate|].
    cbn [parseLoop] in E. cbn [List.length] in Hl.
    destruct (valueFlag parseInt parseDate arg) as [assign|] eqn:F.
    + destruct rest as [|v rest']; [discriminate|].
      destruct (IH rest' _ code ltac:(cbn in Hl; lia) E) as [C H].
      split; [exact C|]. cbn [In]. tauto.
    + destruct (_ || _).
      * destruct (IH rest _ code ltac:(lia) E) as [C H].
        split; [exact C|]. cbn [In]. tauto.
      * destruct (String.eqb arg "--help" || String.eqb arg "-h") eqn:Eh.
        -- injection E as <-. split; [reflexivity|].
           apply orb_true_iff in Eh.
           destruct Eh as [Eh|Eh]; apply String.eqb_eq in Eh; subst;
             cbn [In]; auto.
        -- destruct (IH rest _ code ltac:(lia) E) as [C H].
           split; [exact C|]. cbn [In]. tauto.
Qed.

(** [parseArguments] ends the process only with code 0 and only when
    [--help] or [-h] is among the arguments; but such an argument that
    follows a flag taking a value is that flag's value and ends
    nothing. *)
Theorem parse_exits_only_on_help :
  forall (argv : list string),
    (forall code,
        parseArguments env_USER_ID parseInt parseDate argv = Exited code ->
        code = 0%Z
        /\ (In "--help" (skipn 2 argv) \/ In "-h" (skipn 2 argv)))
    /\ (forall (flag : string) assign (rest : list string) (p : Params.t),
          valueFlag parseInt parseDate flag = Some assign ->
          parseLoop parseInt parseDate (flag :: "--help" :: rest) p
          = parseLoop parseInt parseDate rest (assign (Some "--help") p)).
Proof.
  intro argv. split.
  - intros code E. unfold parseArguments in E.
    apply (parseLoop_exit (List.length (skipn 2 argv)) _ _ _ (le_n _) E).
  - intros flag assign rest p F. cbn [parseLoop].
    rewrite F. reflexivity.
Qed.

End CommandLineProps.

Lemma parsed_start_time_present_witness :
  match parseArguments None Fixture2.hostParseInt Fixture2.hostParseDate
          Fixture2.argv with
  | Returned params =>
      Params.startFromNow params = false
      <-> Params.startTime params <> None
  | Exited _ => False
  end.
Proof.
  destruct (parseArguments None Fixture2.hostParseInt Fixture2.hostParseDate
              Fixture2.argv) as [params|code] eqn:E.
  - exact (parsed_start_time_present None Fixture2.hostParseInt
             Fixture2.hostParseDate Fixture2.argv params E).
  - vm_compute in E. discriminate E.
Defined.

(** ** Random timestamps *)

(** For a base date from 1970 on that leaves a day before the end of
    the range of [Date], and a draw in [0, 1), [generateTimestamp]
    returns a valid date, a whole millisecond from the base date up to
    the same time a day later, and makes one draw.  The end of the day
    is included: the product and the sum are rounded to doubles, and
    all that is used of the rounding is that it keeps the order and
    leaves the whole numbers up to 2^53 as they are. *)
Theorem generateTimestamp_within_a_day :
  forall (double : Q -> Q) (random : nat -> Q) (baseDate : Date)
         (w : World),
    (forall x y : Q, x <= y -> double x <= double y) ->
    (forall z : Z, (Z.abs z <= 2 ^ 53)%Z ->
       double (inject_Z z) == inject_Z z) ->
    (0 <= baseDate)%Z ->
    (baseDate + 86400000 <= maxTime)%Z ->
    0 <= random (snd w) -> random (snd w) < 1 ->
    let r := generateTimestamp double random baseDate w in
    (exists t : Date,
        fst r = Some t /\ (baseDate <= t <= baseDate + 86400000)%Z)
    /\ snd r = (fst w, S (snd w)).
Proof.
  intros double random baseDate w Hm He Hb Hmax H0 H1. cbn zeta.
  unfold generateTimestamp. rewrite bind_run. unfold Math_random, ret.
  cbn [fst snd]. split; [|reflexivity].
  unfold maxTime in Hmax.
  set (p := double (random (snd w) * 86400000)).
  assert (P0 : 0 <= p).
  { rewrite <- (He 0%Z) by (cbn; lia). apply Hm.
    change (inject_Z 0) with 0. lra. }
  assert (P1 : p <= 86400000).
  { change 86400000 with (inject_Z 86400000).
    rewrite <- (He 86400000%Z) by (cbn; lia). apply Hm.
    change (inject_Z 86400000) with 86400000. lra. }
  set (x := double (inject_Z baseDate + p)).
  assert (X0 : inject_Z baseDate <= x).
  { rewrite <- (He baseDate) by lia. apply Hm. lra. }
  assert (X1 : x <= inject_Z (baseDate + 86400000)).
  { rewrite <- (He (baseDate + 86400000)%Z) by lia. apply Hm.
    rewrite inject_Z_plus. change (inject_Z 86400000) with 86400000. lra. }
  assert (Hbq : 0 <= inject_Z baseDate)
    by (change 0 with (inject_Z 0); rewrite <- Zle_Qle; exact Hb).
  assert (Hx : 0 <= x) by lra.
  assert (Hmq : inject_Z (baseDate + 86400000) <= inject_Z maxTime)
    by (rewrite <- Zle_Qle; exact Hmax).
  unfold newDate.
  assert (A : Qle_bool (Qabs x) (inject_Z maxTime) = true).
  { apply Qle_bool_iff. rewrite Qabs_pos by exact Hx. lra. }
  rewrite A. exists (Qtrunc x). split; [reflexivity|].
  unfold Qtrunc. apply Qle_bool_iff in Hx. rewrite Hx.
  split.
  - rewrite <- (Qfloor_Z baseDate) at 1. apply Qfloor_resp_le. exact X0.
  - rewrite <- (Qfloor_Z (baseDate + 86400000)).
    apply Qfloor_resp_le. exact X1.
Qed.

Lemma generateTimestamp_within_a_day_witness :
  exists t : Date,
    fst (generateTimestamp (fun x => x) Fixture.half Fixture.july4
           Fixture.fresh) = Some t
    /\ (Fixture.july4 <= t <= Fixture.july4 + 86400000)%Z.
Proof.
  refine (proj1 (generateTimestamp_within_a_day (fun x => x) Fixture.half
                   Fixture.july4 Fixture.fresh _ _ _ _ _ _)).
  - intros x y H. exact H.
  - intros z H. apply Qeq_refl.
  - discriminate.
  - discriminate.
  - discriminate.
  - reflexivity.
Defined.

(* ================================================================== *)
(** * Properties of the authentication handlers *)

(** ** The bearer token *)

Lemma split_space_spaceless (s : string) :
  spaceless s = true -> Auth.split_space s = [s].
Proof.
  induction s as [|c s IH]; cbn [spaceless Auth.split_space].
  - reflexivity.
  - intro H. apply andb_true_iff in H. destruct H as [Hc Hs].
    apply negb_true_iff in Hc. rewrite Hc, (IH Hs). reflexivity.
Qed.

Lemma split_space_String (a b : string) :
  spaceless a = true ->
  Auth.split_space (a ++ String " " b) = a :: Auth.split_space b.
Proof.
  induction a as [|c a IH]; cbn [spaceless String.append Auth.split_space].
  - reflexivity.
  - intro H. apply andb_true_iff in H. destruct H as [Hc Hs].
    apply negb_true_iff in Hc. rewrite Hc, (IH Hs). reflexivity.
Qed.

Lemma split_space_app (a b : string) :
  spaceless a = true ->
  Auth.split_space (a ++ " " ++ b) = a :: Auth.split_space b.
Proof. exact (split_space_String a b). Qed.

Lemma prefix_append (a b : string) : String.prefix a (a ++ b) = true.
Proof.
  induction a as [|c a IH]; cbn [String.append String.prefix].
  - destruct b; reflexivity.
  - destruct (Ascii.ascii_dec c c) as [_|N]; [exact IH|congruence].
Qed.

(** From a header [Bearer <token>] the token is taken back whole when it
    has no space, and anything after a further space is dropped.  The
    scheme is only tested as a prefix: characters glued to [Bearer] are
    accepted.  A header that has no space after the scheme, or that does
    not start with [Bearer], gives no token. *)
Theorem bearer_token_extraction :
  forall (glued token rest : string),
    spaceless glued = true -> spaceless token = true ->
    Auth.bearerToken (Some ("Bearer " ++ token)%string) = Some token
    /\ Auth.bearerToken (Some ("Bearer " ++ token ++ " " ++ rest)%string)
       = Some token
    /\ Auth.bearerToken (Some ("Bearer" ++ glued ++ " " ++ token)%string)
       = Some token
    /\ Auth.bearerToken (Some ("Bearer" ++ glued)%string) = None
    /\ (forall h, String.prefix "Bearer" h = false ->
          Auth.bearerToken (Some h) = None)
    /\ Auth.bearerToken None = None.
Proof.
  intros glued token rest Hg Ht.
  assert (G : forall x y, spaceless x = true ->
                Auth.bearerToken (Some ("Bearer" ++ x ++ " " ++ y)%string)
                = nth_error (Auth.split_space y) 0).
  { intros x y Hx. unfold Auth.bearerToken.
    rewrite prefix_append.
    change ("Bearer" ++ x ++ " " ++ y)%string
      with (("Bearer" ++ x) ++ " " ++ y)%string.
    rewrite split_space_app; [reflexivity|].
    cbn [String.append spaceless Ascii.eqb Bool.eqb negb andb]. exact Hx. }
  split; [|split; [|split; [|split; [|split]]]].
  - change ("Bearer " ++ token)%string
      with ("Bearer" ++ "" ++ " " ++ token)%string.
    rewrite G by reflexivity.
    rewrite split_space_spaceless by exact Ht. reflexivity.
  - change ("Bearer " ++ token ++ " " ++ rest)%string
      with ("Bearer" ++ "" ++ " " ++ token ++ " " ++ rest)%string.
    rewrite G by reflexivity.
    rewrite split_space_app by exact Ht. reflexivity.
  - rewrite G by exact Hg.
    rewrite split_space_spaceless by exact Ht. reflexivity.
  - unfold Auth.bearerToken. rewrite prefix_append.
    rewrite split_space_spaceless; [reflexivity|].
    cbn [String.append spaceless Ascii.eqb Bool.eqb negb andb]. exact Hg.
  - intros h Hh. unfold Auth.bearerToken. rewrite Hh. reflexivity.
  - reflexivity.
Qed.

Lemma bearer_token_extraction_witness :
  Auth.bearerToken (Some "Bearer abc.def.ghi") = Some "abc.def.ghi".
Proof.
  exact (proj1 (bearer_token_extraction "" "abc.def.ghi" ""
                  eq_refl eq_refl)).
Defined.

(** ** The handlers *)

Section HandlerProps.

Variable User : Type.
Variable Value : Type.
Variable user_id : User -> Value.
Variable user_email : User -> Value.
Variable user_name : User -> Value.
Variable user_household_id : User -> Value.
Variable user_password_hash : User -> Value.
Variable Db : Type.
Variable findById : Db -> Value -> option (option User).
Variable findByEmail : Db -> Value -> option (option User).
Variable verifyPassword : Value -> Value -> option bool.
Variable create : Db -> Auth.NewUser Value -> option (User * Db).
Variable jwt_verify : string -> option Value.
Variable jwt_sign : Value -> string -> option string.
Variable env_JWT_EXPIRE : option string.

(** [userAuth] calls [next()] exactly when the header yields a token that
    is not empty, the token verifies, and the user of its identifier is
    found; [req.user] is then that user.  Every other request is answered
    with status 401, and a request without a usable token is answered
    without the verifier or the database being consulted. *)
Theorem userAuth_next_only_verified :
  forall (db : Db) (authorization : option string),
    (forall user,
        Auth.userAuth User Value Db findById jwt_verify db authorization
        = Auth.Next User Value user
        <-> exists token id,
              Auth.bearerToken authorization = Some token
              /\ token <> ""
              /\ jwt_verify token = Some id
              /\ findById db id = Some (Some user))
    /\ (forall status body,
          Auth.userAuth User Value Db findById jwt_verify db authorization
          = Auth.Sent User Value status body ->
          status = 401%Z)
    /\ (Auth.falsy (Auth.bearerToken authorization) = true ->
        Auth.userAuth User Value Db findById jwt_verify db authorization
        = Auth.Sent User Value 401
            (Auth.errorBody User Value "Not authorized, no token")).
Proof.
  intros db authorization. unfold Auth.userAuth.
  destruct (Auth.bearerToken authorization) as [token|] eqn:T.
  - destruct token as [|c token'].
    + cbn [Auth.falsy]. split; [|split].
      * intro user. split; [discriminate|].
        intros (t & id & E & N & _). injection E as <-. congruence.
      * intros status body E. injection E as <- _. reflexivity.
      * reflexivity.
    + cbn [Auth.falsy].
      destruct (jwt_verify (String c token')) as [id|] eqn:V.
      * destruct (findById db id) as [[user|]|] eqn:F.
        -- split; [|split].
           ++ intro u. split.
              ** intro E. injection E as <-.
                 exists (String c token'), id.
                 repeat split; [discriminate|exact V|exact F].
              ** intros (t & i & E & _ & V' & F'). injection E as <-.
                 rewrite V in V'. injection V' as <-.
                 rewrite F in F'. injection F' as <-. reflexivity.
           ++ discriminate.
           ++ discriminate.
        -- split; [|split].
           ++ intro u. split; [discriminate|].
              intros (t & i & E & _ & V' & F'). injection E as <-.
              rewrite V in V'. injection V' as <-.
              rewrite F in F'. discriminate.
           ++ intros status body E. injection E as <- _. reflexivity.
           ++ discriminate.
        -- split; [|split].
           ++ intro u. split; [discriminate|].
              intros (t & i & E & _ & V' & F'). injection E as <-.
              rewrite V in V'. injection V' as <-.
              rewrite F in F'. discriminate.
           ++ intros status body E. injection E as <- _. reflexivity.
           ++ discriminate.
      * split; [|split].
        -- intro u. split; [discriminate|].
           intros (t & i & E & _ & V' & _). injection E as <-.
           rewrite V in V'. discriminate.
        -- intros status body E. injection E as <- _. reflexivity.
        -- discriminate.
  - split; [|split].
    + intro u. split; [discriminate|].
      intros (t & i & E & _). discriminate.
    + intros status body E. injection E as <- _. reflexivity.
    + reflexivity.
Qed.

(** [GET /me] answers 200 exactly when [userAuth] lets the request
    through, and its [data] is then the whole row that [findById]
    returned for the token's identifier, not a selection of fields;
    otherwise it answers 401. *)
Theorem route_me_returns_found_user :
  forall (db : Db) (authorization : option string),
    (forall body,
        Auth.route_me User Value Db findById jwt_verify db authorization
        = (200%Z, body)
        <-> exists token id user,
              Auth.bearerToken authorization = Some token
              /\ token <> ""
              /\ jwt_verify token = Some id
              /\ findById db id = Some (Some user)
              /\ body = Auth.JObject User Value
                          [ ("success", Auth.JBool User Value true);
                            ("data", Auth.JUser User Value user) ])
    /\ (fst (Auth.route_me User Value Db findById jwt_verify db authorization)
        = 200%Z
        \/ fst (Auth.route_me User Value Db findById jwt_verify db
                  authorization) = 401%Z).
Proof.
  intros db authorization. unfold Auth.route_me, Auth.userAuth.
  destruct (Auth.bearerToken authorization) as [[|c token]|] eqn:T;
    cbn [Auth.falsy].
  - split; [|right; reflexivity].
    intro body. split; [discriminate|].
    intros (t & i & u & H1 & H2 & _). congruence.
  - destruct (jwt_verify (String c token)) as [id|] eqn:V.
    + destruct (findById db id) as [[user|]|] eqn:F.
      * split; [|left; reflexivity].
        intro body. unfold Auth.getMe. split.
        -- intro H. injection H as <-.
           exists (String c token), id, user.
           repeat split; [discriminate|exact V|exact F].
        -- intros (t & i & u & H1 & _ & H3 & H4 & ->).
           injection H1 as <-. rewrite V in H3. injection H3 as <-.
           rewrite F in H4. injection H4 as <-. reflexivity.
      * split; [|right; reflexivity].
        intro body. split; [discriminate|].
        intros (t & i & u & H1 & _ & H3 & H4 & _). congruence.
      * split; [|right; reflexivity].
        intro body. split; [discriminate|].
        intros (t & i & u & H1 & _ & H3 & H4 & _). congruence.
    + split; [|right; reflexivity].
      intro body. split; [discriminate|].
      intros (t & i & u & H1 & _ & H3 & _). congruence.
  - split; [|right; reflexivity].
    intro body. split; [discriminate|].
    intros (t & i & u & H1 & _). discriminate.
Qed.

(** [login] answers 200 with a token exactly when the email is found,
    the password verifies against the stored hash and the token is
    signed; the token is the one signed for that user's identifier.
    Every other answer is 401 or 500. *)
Theorem login_token_only_when_verified :
  forall (db : Db) (body : Auth.Body Value),
    let answer :=
      Auth.login User Value user_id user_email user_name user_household_id
        user_password_hash Db findByEmail verifyPassword jwt_sign
        env_JWT_EXPIRE db body in
    (fst answer = 200%Z
     <-> exists user token,
           findByEmail db (Auth.email Value body) = Some (Some user)
           /\ verifyPassword (Auth.password Value body)
                (user_password_hash user) = Some true
           /\ Auth.generateToken Value jwt_sign env_JWT_EXPIRE (user_id user)
              = Some token)
    /\ (fst answer = 200%Z \/ fst answer = 401%Z \/ fst answer = 500%Z)
    /\ (forall user token,
          findByEmail db (Auth.email Value body) = Some (Some user) ->
          verifyPassword (Auth.password Value body)
            (user_password_hash user) = Some true ->
          Auth.generateToken Value jwt_sign env_JWT_EXPIRE (user_id user)
          = Some token ->
          exists fields,
            snd answer
            = Auth.JObject User Value
                [ ("success", Auth.JBool User Value true);
                  ("data",
                   Auth.JObject User Value
                     [ ("user", Auth.JObject User Value fields);
                       ("token", Auth.JString User Value token) ]) ]
            /\ map fst fields = ["id"; "email"; "name"; "household_id"]).
Proof.
  intros db body. cbn zeta. unfold Auth.login.
  destruct (findByEmail db (Auth.email Value body)) as [[user|]|] eqn:F.
  - destruct (verifyPassword (Auth.password Value body)
                (user_password_hash user)) as [[|]|] eqn:P.
    + destruct (Auth.generateToken Value jwt_sign env_JWT_EXPIRE
                  (user_id user)) as [token|] eqn:G.
      * cbn [fst snd]. split; [|split].
        -- split; [intros _; exists user, token; auto|reflexivity].
        -- left. reflexivity.
        -- intros u t Hu Hp Ht. injection Hu as <-.
           rewrite G in Ht. injection Ht as <-.
           eexists. split; reflexivity.
      * cbn [fst snd]. split; [|split].
        -- split; [discriminate|].
           intros (u & t & Hu & _ & Ht). injection Hu as <-.
           rewrite G in Ht. discriminate.
        -- right. right. reflexivity.
        -- intros u t Hu _ Ht. injection Hu as <-.
           rewrite G in Ht. discriminate.
    + cbn [fst snd]. split; [|split].
      * split; [discriminate|].
        intros (u & t & Hu & Hp & _). injection Hu as <-.
        rewrite P in Hp. discriminate.
      * right. left. reflexivity.
      * intros u t Hu Hp _. injection Hu as <-.
        rewrite P in Hp. discriminate.
    + cbn [fst snd]. split; [|split].
      * split; [discriminate|].
        intros (u & t & Hu & Hp & _). injection Hu as <-.
        rewrite P in Hp. discriminate.
      * right. right. reflexivity.
      * intros u t Hu Hp _. injection Hu as <-.
        rewrite P in Hp. discriminate.
  - cbn [fst snd]. split; [|split].
    + split; [discriminate|]. intros (u & t & Hu & _). discriminate.
    + right. left. reflexivity.
    + intros u t Hu. discriminate.
  - cbn [fst snd]. split; [|split].
    + split; [discriminate|]. intros (u & t & Hu & _). discriminate.
    + right. right. reflexivity.
    + intros u t Hu. discriminate.
Qed.

(** [login] answers an unknown email and a wrong password both with
    401, but not with the same body: the first has the key [erroe] and
    the message [Invalid Credential], the second the key [error] and the
    message [Invalid credentials]; so the answer tells whether an email
    is registered. *)
Theorem login_tells_unknown_email :
  forall (db1 db2 : Db) (body1 body2 : Auth.Body Value) (user : User),
    findByEmail db1 (Auth.email Value body1) = Some None ->
    findByEmail db2 (Auth.email Value body2) = Some (Some user) ->
    verifyPassword (Auth.password Value body2) (user_password_hash user)
    = Some false ->
    let login :=
      Auth.login User Value user_id user_email user_name user_household_id
        user_password_hash Db findByEmail verifyPassword jwt_sign
        env_JWT_EXPIRE in
    fst (login db1 body1) = 401%Z
    /\ fst (login db2 body2) = 401%Z
    /\ snd (login db1 body1) <> snd (login db2 body2)
    /\ snd (login db1 body1)
       = Auth.JObject User Value
           [("erroe", Auth.JString User Value "Invalid Credential")].
Proof.
  intros db1 db2 body1 body2 user F1 F2 P. cbn zeta. unfold Auth.login.
  rewrite F1, F2, P. cbn [fst snd].
  repeat split. unfold Auth.errorBody. intro E. discriminate E.
Qed.

(** [register] answers 400 and leaves the database as it is when the
    email is already registered; it answers 201 only after [create] has
    succeeded, with the database [create] left; and when [create] has
    succeeded but the token cannot be signed, it answers 500 although
    the user stays created.  The user object of a 201 answer has the
    keys [id], [email], [hame] and [household_id]: the name is sent under
    [hame]. *)
Theorem register_outcomes :
  forall (db : Db) (body : Auth.Body Value),
    let answer :=
      Auth.register User Value user_id user_email user_name
        user_household_id Db findByEmail create jwt_sign env_JWT_EXPIRE
        db body in
    let status := fst (fst answer) in
    let newUser :=
      {| Auth.new_email := Auth.email Value body;
         Auth.new_password := Auth.password Value body;
         Auth.new_name := Auth.name Value body;
         Auth.new_household_id := Auth.household_id Value body;
         Auth.new_tariff_rate := Auth.tariff_rate Value body |} in
    (forall user,
        findByEmail db (Auth.email Value body) = Some (Some user) ->
        answer = (400%Z, Auth.errorBody User Value "user already exists", db))
    /\ (status = 201%Z ->
        exists user db' token fields,
          findByEmail db (Auth.email Value body) = Some None
          /\ create db newUser = Some (user, db')
          /\ Auth.generateToken Value jwt_sign env_JWT_EXPIRE (user_id user)
             = Some token
          /\ snd answer = db'
          /\ snd (fst answer)
             = Auth.JObject User Value
                 [ ("success", Auth.JBool User Value true);
                   ("data",
                    Auth.JObject User Value
                      [ ("user", Auth.JObject User Value fields);
                        ("token", Auth.JString User Value token) ]) ]
          /\ map fst fields = ["id"; "email"; "hame"; "household_id"])
    /\ (forall user db',
          findByEmail db (Auth.email Value body) = Some None ->
          create db newUser = Some (user, db') ->
          Auth.generateToken Value jwt_sign env_JWT_EXPIRE (user_id user)
          = None ->
          status = 500%Z /\ snd answer = db')
    /\ (snd answer = db
        \/ exists user, create db newUser = Some (user, snd answer)).
Proof.
  intros db body. cbn zeta. unfold Auth.register.
  destruct (findByEmail db (Auth.email Value body)) as [[found|]|] eqn:F.
  - cbn [fst snd]. split; [|split; [|split]].
    + intros _ _. reflexivity.
    + discriminate.
    + discriminate.
    + left. reflexivity.
  - destruct (create db _) as [[user db']|] eqn:C.
    + destruct (Auth.generateToken Value jwt_sign env_JWT_EXPIRE
                  (user_id user)) as [token|] eqn:G.
      * cbn [fst snd]. split; [|split; [|split]].
        -- discriminate.
        -- intros _. exists user, db', token. eexists.
           repeat split; try exact G; reflexivity.
        -- intros u d _ E. injection E as <- <-.
           rewrite G. discriminate.
        -- right. exists user. reflexivity.
      * cbn [fst snd]. split; [|split; [|split]].
        -- discriminate.
        -- discriminate.
        -- intros u d _ E _. injection E as <- <-. auto.
        -- right. exists user. reflexivity.
    + cbn [fst snd]. split; [|split; [|split]].
      * discriminate.
      * discriminate.
      * discriminate.
      * left. reflexivity.
  - cbn [fst snd]. split; [|split; [|split]].
    + discriminate.
    + discriminate.
    + discriminate.
    + left. reflexivity.
Qed.

End HandlerProps.

Lemma login_tells_unknown_email_witness :
  fst (Auth.login nat nat (fun u => u) (fun u => u) (fun u => u)
         (fun u => u) (fun u => u) Fixture2.users Fixture2.lookup
         Fixture2.verifyPassword Fixture2.jwt_sign None
         [] (Fixture2.body 5 5))
  = 401%Z.
Proof.
  refine (proj1 (login_tells_unknown_email nat nat (fun u => u) (fun u => u)
                   (fun u => u) (fun u => u) (fun u => u) Fixture2.users
                   Fixture2.lookup Fixture2.verifyPassword Fixture2.jwt_sign
                   None [] [1%nat] (Fixture2.body 5 5) (Fixture2.body 1 2)
                   1%nat _ _ _)); reflexivity.
Defined.

(* ================================================================== *)
(** * Nepal time and the base load *)

(** The local calendar fields of [getNepalTime(date)], as the host
    reads them with the zone offset it has at the date returned, are
    the fields of Nepal's wall clock, the clock a host running in UTC
    reads 5 hours 45 minutes later, moved by the difference between the
    host's offset at [date] and its offset at the date returned.  So
    they are Nepal's clock where the two offsets are equal, as on every
    host without daylight saving. *)
Theorem getNepalTime_shows_nepal_clock :
  forall (offsetAt : Date -> Z) (date : Date),
    let nepal := getNepalTime offsetAt date in
    let shifted := (date + 20700000)%Z in
    let moved :=
      (shifted + (offsetAt date - offsetAt nepal) * 60000)%Z in
    validTime nepal = true ->
    (getHours (offsetAt nepal) nepal = getHours 0 moved
     /\ getMinutes (offsetAt nepal) nepal = getMinutes 0 moved
     /\ getDay (offsetAt nepal) nepal = getDay 0 moved
     /\ getMonth (offsetAt nepal) nepal = getMonth 0 moved)
    /\ (offsetAt nepal = offsetAt date ->
        getHours (offsetAt nepal) nepal = getHours 0 shifted
        /\ getMinutes (offsetAt nepal) nepal = getMinutes 0 shifted
        /\ getDay (offsetAt nepal) nepal = getDay 0 shifted
        /\ getMonth (offsetAt nepal) nepal = getMonth 0 shifted).
Proof.
  intros offsetAt date. cbn zeta. intros _.
  assert (E : localTime (offsetAt (getNepalTime offsetAt date))
                (getNepalTime offsetAt date)
              = localTime 0
                  (date + 20700000
                   + (offsetAt date
                      - offsetAt (getNepalTime offsetAt date)) * 60000)%Z).
  { unfold localTime, getNepalTime, msPerMinute. lia. }
  split.
  - unfold getHours, getMinutes, getDay, getMonth, localDay.
    rewrite E. repeat split; reflexivity.
  - intro O. rewrite O in E.
    replace (date + 20700000 + (offsetAt date - offsetAt date) * 60000)%Z
      with (date + 20700000)%Z in E by lia.
    rewrite O.
    unfold getHours, getMinutes, getDay, getMonth, localDay.
    rewrite E. repeat split; reflexivity.
Qed.

(** In New York on 2024-03-10 at 06:00 UTC, an hour before the clocks
    go forward, the host reads 12:45 from [getNepalTime(date)]; Nepal's
    clock shows 11:45. *)
Lemma getNepalTime_shows_nepal_clock_witness :
  let nepal := getNepalTime Fixture2.newYork 1710050400000%Z in
  (getHours (Fixture2.newYork nepal) nepal,
   getMinutes (Fixture2.newYork nepal) nepal)
  = (12, 45)%Z.
Proof.
  cbn zeta.
  destruct (proj1 (getNepalTime_shows_nepal_clock Fixture2.newYork
                     1710050400000%Z eq_refl)) as (H & M & _).
  cbn zeta in H, M. rewrite H, M. vm_compute. reflexivity.
Defined.

(** The base load is the baseline plus the powers of the appliances
    marked always on, and of no other appliance. *)
Theorem base_load_sum :
  forall s : Simulator,
    generateBaseLoad s
    == baseline (baseConfig s)
       + Qsum (map (fun e => Appliance.power (snd e))
                   (filter (fun e => Appliance.alwaysOn (snd e))
                           (appliances (baseConfig s)))).
Proof.
  intro s. unfold generateBaseLoad.
  generalize (baseline (baseConfig s)).
  induction (appliances (baseConfig s)) as [|e l IH]; intro acc;
    cbn [fold_left filter].
  - unfold Qsum. cbn [map fold_right]. ring.
  - rewrite IH. destruct (Appliance.alwaysOn (snd e)).
    + cbn [map]. rewrite Qsum_cons. ring.
    + reflexivity.
Qed.

(* ================================================================== *)
(** * What a tick depends on *)

(** ** The draws of a tick *)







(** ** Code that reads its draws only *)
















(** ** The tick as a function of its inputs *)



